(** * DataForSEO MCP server: tool registration helper and HTTP/JSON-RPC bridge

    A shallow embedding of
    - [registerTool] and [registerTaskTool]   (src/api/tools.ts), and
    - [getMcpServer], [getToolsList], the [POST /mcp] and [GET /tools]
      request handlers                         (src/server-http.ts),
    together with the fragment of JavaScript they rely on: dynamically
    typed values, truthiness, property reads, exceptions and
    [JSON.stringify].

    Layout: module [JS] (the language fragment), module [Tools] (the
    registration helpers), module [Bridge] (the HTTP handlers), followed by
    the theory. *)

From Stdlib Require Import String Ascii List ZArith Bool.
From Stdlib Require Import DecimalString.
Import ListNotations.
Open Scope string_scope.
Set Warnings "-register-all".

(* ===================================================================== *)
(** ** The JavaScript fragment                                            *)
(* ===================================================================== *)

Module JS.

(** Runtime values: the data the programs pass around.  Numbers are the
    integer-valued ones (identifiers, error codes and status codes are all
    the programs compute with); [VNum n] is the Number nearest to [n], as
    [JSON.parse] reads an integer literal.  [VBigInt] stands for the values
    [JSON.stringify] refuses to serialise.  [VError] is an instance of
    [Error]: it answers [instanceof Error], and its [message] and [stack]
    are not enumerable.  Objects are plain objects and carry their own
    properties in insertion order; a read takes the first binding of a key.
    Functions and symbols are not among the values; what the built-in
    prototypes supply is seen by the reads with a computed key ([lookup])
    and by [to_string]. *)
Inductive value : Type :=
| VUndefined
| VNull
| VBool (b : bool)
| VNum (n : Z)
| VBigInt (n : Z)
| VStr (s : string)
| VArr (items : list value)
| VObj (fields : list (string * value))
| VError (message : string) (stack : option string).

(** What a call produces: a value, or a thrown value.  An [async] function
    that rejects is a call that throws at its [await]. *)
Inductive outcome (A : Type) : Type :=
| Returns (a : A)
| Throws (e : value).
Arguments Returns {A} a.
Arguments Throws {A} e.

Definition ret {A} (a : A) : outcome A := Returns a.

Definition bind {A B} (c : outcome A) (k : A -> outcome B) : outcome B :=
  match c with
  | Returns a => k a
  | Throws e => Throws e
  end.

(** [try { c } catch (error) { h error }] *)
Definition try_catch {A} (c : outcome A) (h : value -> outcome A) : outcome A :=
  match c with
  | Returns a => Returns a
  | Throws e => h e
  end.

Declare Scope outcome_scope.
Delimit Scope outcome_scope with outcome.
Notation "x <- c ;; k" := (bind c (fun x => k))
  (at level 61, c at next level, right associativity) : outcome_scope.

(** *** Characters and strings *)

Definition dquote : string := String (ascii_of_nat 34) EmptyString.
Definition backslash : string := String (ascii_of_nat 92) EmptyString.
Definition newline : string := String (ascii_of_nat 10) EmptyString.

Definition is_empty (s : string) : bool :=
  match s with
  | EmptyString => true
  | String _ _ => false
  end.

Fixpoint spaces (n : nat) : string :=
  match n with
  | O => EmptyString
  | S m => String " " (spaces m)
  end.

(** The decimal numeral of an integer: array indices, BigInts, and the
    digit strings [Number_toString] is made of. *)
Definition decimal (n : Z) : string := NilZero.string_of_int (Z.to_int n).

(** *** Numbers *)

(** The Number nearest to a non-negative integer: round to nearest, ties
    to even; [None] is [Infinity]. *)
Definition nearest_Number (a : Z) : option Z :=
  if (a <? 2 ^ 53)%Z then Some a
  else
    let e := (Z.log2 a - 52)%Z in
    let q := (a / 2 ^ e)%Z in
    let r := (a - q * 2 ^ e)%Z in
    let half := (2 ^ (e - 1))%Z in
    let q' := if (half <? r)%Z || ((r =? half)%Z && Z.odd q) then (q + 1)%Z else q in
    if (2 ^ 1024 <=? q' * 2 ^ e)%Z then None else Some (q' * 2 ^ e)%Z.

(** The integer [c] reads back as the Number [x]. *)
Definition reads_as (x c : Z) : bool :=
  match nearest_Number c with
  | Some y => (y =? x)%Z
  | None => false
  end.

(** Number::toString, the search for the digits: the least [k], from the
    given one on, with a [k]-digit [s] such that [s * 10^(nd-k)] reads back
    as [x]; of two such [s] the one nearer to [x]. *)
Fixpoint shortest_digits (fuel : nat) (k x nd : Z) : Z * Z :=
  match fuel with
  | O => (x, nd)
  | S fuel' =>
      if (nd <=? k)%Z then (x, nd)
      else
        let scale := (10 ^ (nd - k))%Z in
        let lo := (x / scale)%Z in
        let a := (lo * scale)%Z in
        let b := (a + scale)%Z in
        match reads_as x a, reads_as x b with
        | true, true =>
            if (x - a <? b - x)%Z then (lo, k)
            else if (b - x <? x - a)%Z then ((lo + 1)%Z, k)
            else if Z.even lo then (lo, k) else ((lo + 1)%Z, k)
        | true, false => (lo, k)
        | false, true => ((lo + 1)%Z, k)
        | false, false => shortest_digits fuel' (k + 1)%Z x nd
        end
  end.

(** Number::toString on a positive integer-valued Number: the digits in
    full up to 21 of them, the exponent form from 1e21 on. *)
Definition Number_digits (x : Z) : string :=
  let nd := Z.of_nat (String.length (decimal x)) in
  let '(s, k, n) :=
    if reads_as x (10 ^ nd)%Z then (1%Z, 1%Z, (nd + 1)%Z)
    else let (s, k) := shortest_digits 17 1 x nd in (s, k, nd) in
  if (n <=? 21)%Z then decimal (s * 10 ^ (n - k))
  else
    match decimal s with
    | EmptyString => EmptyString
    | String d EmptyString => String d ("e+" ++ decimal (n - 1))
    | String d rest => String d ("." ++ rest ++ "e+" ++ decimal (n - 1))
    end.

(** ToString of the Number nearest to [n]. *)
Definition Number_toString (n : Z) : string :=
  match nearest_Number (Z.abs n) with
  | None => if (n <? 0)%Z then "-Infinity" else "Infinity"
  | Some x =>
      if (x =? 0)%Z then "0"
      else if (n <? 0)%Z then "-" ++ Number_digits x else Number_digits x
  end.

(** A Number inside [JSON.stringify]: an infinity is written [null]. *)
Definition JSON_number (n : Z) : string :=
  match nearest_Number (Z.abs n) with
  | None => "null"
  | Some _ => Number_toString n
  end.

Definition hex_digit (n : nat) : string :=
  String (nth n (list_ascii_of_string "0123456789abcdef") "0"%char) EmptyString.

(** One code unit inside a JSON string literal (QuoteJSONString). *)
Definition escape_char (c : ascii) : string :=
  let n := nat_of_ascii c in
  if Nat.eqb n 34 then backslash ++ dquote
  else if Nat.eqb n 92 then backslash ++ backslash
  else if Nat.eqb n 8 then backslash ++ "b"
  else if Nat.eqb n 9 then backslash ++ "t"
  else if Nat.eqb n 10 then backslash ++ "n"
  else if Nat.eqb n 12 then backslash ++ "f"
  else if Nat.eqb n 13 then backslash ++ "r"
  else if Nat.ltb n 32
       then backslash ++ "u00" ++ hex_digit (n / 16) ++ hex_digit (n mod 16)
  else String c EmptyString.

Fixpoint escape (s : string) : string :=
  match s with
  | EmptyString => EmptyString
  | String c r => escape_char c ++ escape r
  end.

Definition quote (s : string) : string := dquote ++ escape s ++ dquote.

(** [s.split(sep)] for a one-character separator: never empty. *)
Fixpoint split (sep : ascii) (s : string) : list string :=
  match s with
  | EmptyString => [EmptyString]
  | String c r =>
      if Ascii.eqb c sep then EmptyString :: split sep r
      else match split sep r with
           | [] => [String c EmptyString]
           | h :: t => String c h :: t
           end
  end.

(** *** Truthiness, errors, property access *)

(** ToBoolean *)
Definition truthy (v : value) : bool :=
  match v with
  | VUndefined | VNull => false
  | VBool b => b
  | VNum n | VBigInt n => negb (Z.eqb n 0)
  | VStr s => negb (is_empty s)
  | VArr _ | VObj _ | VError _ _ => true
  end.

(** [a || b] on values *)
Definition or_else (a b : value) : value := if truthy a then a else b.

(** [new Error(m)] and the engine's [TypeError]s.  Only the first line of
    the stack is kept; the frames are the engine's business. *)
Definition Error (m : string) : value := VError m (Some ("Error: " ++ m)).
Definition TypeError (m : string) : value := VError m (Some ("TypeError: " ++ m)).

Definition is_Error (v : value) : bool :=
  match v with
  | VError _ _ => true
  | _ => false
  end.

Fixpoint assoc {A : Type} (k : string) (l : list (string * A)) : option A :=
  match l with
  | [] => None
  | (k', a) :: r => if String.eqb k k' then Some a else assoc k r
  end.

Definition is_some {A : Type} (o : option A) : bool :=
  match o with
  | Some _ => true
  | None => false
  end.

Definition from_option (o : option value) : value :=
  match o with
  | Some v => v
  | None => VUndefined
  end.

Definition opt_string (o : option string) : value :=
  match o with
  | Some s => VStr s
  | None => VUndefined
  end.

(** Array indices among property keys: the canonical decimal numerals. *)
Definition digit_of (c : ascii) : option nat :=
  let n := nat_of_ascii c in
  if Nat.leb 48 n && Nat.leb n 57 then Some (n - 48) else None.

Fixpoint parse_digits (s : string) (acc : nat) : option nat :=
  match s with
  | EmptyString => Some acc
  | String c r =>
      match digit_of c with
      | Some d => parse_digits r (10 * acc + d)
      | None => None
      end
  end.

Definition index_of_key (k : string) : option nat :=
  match k with
  | EmptyString => None
  | String c r =>
      if Ascii.eqb c "0" then (if is_empty r then Some 0 else None)
      else parse_digits k 0
  end.

(** The element of [l] at the index the key [k] denotes, if it denotes one. *)
Definition at_index {A : Type} (k : string) (l : list A) : option A :=
  match index_of_key k with
  | Some i => nth_error l i
  | None => None
  end.

Definition chars (s : string) : list value :=
  map (fun c => VStr (String c EmptyString)) (list_ascii_of_string s).

(** [v.k] for a [v] that is neither [null] nor [undefined], and a name [k]
    written in the program.  The programs read [message] and [stack] off
    what was thrown, where an [Error] carries its own, and the other names
    ([name], [id], [type], [items] and so on) off data, where no built-in
    prototype defines them: such a read finds an own property or nothing. *)
Definition own (v : value) (k : string) : value :=
  match v with
  | VObj fs => from_option (assoc k fs)
  | VArr l =>
      if String.eqb k "length" then VNum (Z.of_nat (length l))
      else from_option (at_index k l)
  | VStr s =>
      if String.eqb k "length" then VNum (Z.of_nat (String.length s))
      else from_option (at_index k (chars s))
  | VError m st =>
      if String.eqb k "message" then VStr m
      else if String.eqb k "stack" then opt_string st
      else VUndefined
  | _ => VUndefined
  end.

(** [v.k]: a read on [null] or [undefined] throws. *)
Definition get (v : value) (k : string) : outcome value :=
  match v with
  | VUndefined =>
      Throws (TypeError ("Cannot read properties of undefined (reading '" ++ k ++ "')"))
  | VNull =>
      Throws (TypeError ("Cannot read properties of null (reading '" ++ k ++ "')"))
  | _ => Returns (own v k)
  end.

(** [v?.k] *)
Definition get_opt (v : value) (k : string) : value :=
  match v with
  | VUndefined | VNull => VUndefined
  | _ => own v k
  end.

(** *** Reads with a computed key *)

(** The property names of the built-in prototypes (ECMAScript 2023, with
    the legacy names of its Annex B). *)
Definition Object_prototype : list string :=
  ["constructor"; "__defineGetter__"; "__defineSetter__"; "hasOwnProperty";
   "__lookupGetter__"; "__lookupSetter__"; "isPrototypeOf";
   "propertyIsEnumerable"; "toString"; "valueOf"; "__proto__"; "toLocaleString"].

Definition Array_prototype : list string :=
  ["constructor"; "at"; "concat"; "copyWithin"; "fill"; "find"; "findIndex";
   "findLast"; "findLastIndex"; "lastIndexOf"; "pop"; "push"; "reverse";
   "shift"; "unshift"; "slice"; "sort"; "splice"; "includes"; "indexOf";
   "join"; "keys"; "entries"; "values"; "forEach"; "filter"; "flat";
   "flatMap"; "map"; "every"; "some"; "reduce"; "reduceRight";
   "toLocaleString"; "toString"; "toReversed"; "toSorted"; "toSpliced"; "with"].

Definition String_prototype : list string :=
  ["constructor"; "anchor"; "at"; "big"; "blink"; "bold"; "charAt";
   "charCodeAt"; "codePointAt"; "concat"; "endsWith"; "fontcolor"; "fontsize";
   "fixed"; "includes"; "indexOf"; "isWellFormed"; "italics"; "lastIndexOf";
   "link"; "localeCompare"; "match"; "matchAll"; "normalize"; "padEnd";
   "padStart"; "repeat"; "replace"; "replaceAll"; "search"; "slice"; "small";
   "split"; "strike"; "sub"; "substr"; "substring"; "sup"; "startsWith";
   "toString"; "toWellFormed"; "trim"; "trimStart"; "trimLeft"; "trimEnd";
   "trimRight"; "toLocaleLowerCase"; "toLocaleUpperCase"; "toLowerCase";
   "toUpperCase"; "valueOf"].

Definition Number_prototype : list string :=
  ["constructor"; "toExponential"; "toFixed"; "toPrecision"; "toString";
   "valueOf"; "toLocaleString"].

Definition Boolean_prototype : list string := ["constructor"; "toString"; "valueOf"].

Definition BigInt_prototype : list string :=
  ["constructor"; "toLocaleString"; "toString"; "valueOf"].

Definition Error_prototype : list string := ["constructor"; "toString"].

(** [k] is an own property of [v]. *)
Definition has_own (v : value) (k : string) : bool :=
  match v with
  | VObj fs => is_some (assoc k fs)
  | VArr l => String.eqb k "length" || is_some (at_index k l)
  | VStr s => String.eqb k "length" || is_some (at_index k (chars s))
  | VError _ st => String.eqb k "message" || (String.eqb k "stack" && is_some st)
  | _ => false
  end.

(** [k] is a method or accessor [v] inherits from the built-in prototypes. *)
Definition inherited (v : value) (k : string) : bool :=
  existsb (String.eqb k)
    (match v with
     | VArr _ => Array_prototype
     | VStr _ => String_prototype
     | VNum _ => Number_prototype
     | VBool _ => Boolean_prototype
     | VBigInt _ => BigInt_prototype
     | VError _ _ => Error_prototype
     | _ => []
     end ++ Object_prototype)%list.

(** What a read finds: a value of the model, or one of the built-ins, a
    function or (under [__proto__]) a prototype object.  A built-in is
    truthy and has no enumerable property of its own. *)
Inductive member : Type :=
| Data (v : value)
| Builtin.

(** [v[k]] for a [v] that is neither [null] nor [undefined] and any key:
    the own property, else what the prototypes supply, else [undefined].
    An [Error] inherits its [name], a string, which the model takes from
    the base class. *)
Definition lookup (v : value) (k : string) : member :=
  if has_own v k then Data (own v k)
  else if inherited v k then Builtin
  else match v with
       | VError _ _ => if String.eqb k "name" then Data (VStr "Error") else Data VUndefined
       | _ => Data VUndefined
       end.

(** [a === "s"] *)
Definition is_string (v : value) (s : string) : bool :=
  match v with
  | VStr t => String.eqb t s
  | _ => false
  end.

Definition indexed {A : Type} (l : list A) : list (string * A) :=
  combine (map (fun i => decimal (Z.of_nat i)) (seq 0 (length l))) l.

(** The own enumerable properties: what [{ ...v }] copies and what
    [Object.entries(v)] lists. *)
Definition enumerable (v : value) : list (string * value) :=
  match v with
  | VObj fs => fs
  | VArr l => indexed l
  | VStr s => indexed (chars s)
  | _ => []
  end.

(** [delete o.k] *)
Definition delete (k : string) (fs : list (string * value)) : list (string * value) :=
  filter (fun p => negb (String.eqb (fst p) k)) fs.

(** [o.k = v]: an existing key keeps its place, a new one goes last. *)
Fixpoint set (k : string) (v : value) (fs : list (string * value))
  : list (string * value) :=
  match fs with
  | [] => [(k, v)]
  | (k', v') :: r => if String.eqb k k' then (k, v) :: r else (k', v') :: set k v r
  end.

(** ToString, as a template literal applies it.  An array is joined with
    commas, [null] and [undefined] elements printing as nothing.  A plain
    object is converted through its [toString]: the inherited one prints
    "[object Object]"; an own [toString] member is data, not a function, so
    the conversion goes on to [valueOf], which yields no primitive either,
    and throws.  An [Error] prints as its name and message. *)
Fixpoint to_string (v : value) : outcome string :=
  match v with
  | VUndefined => Returns "undefined"
  | VNull => Returns "null"
  | VBool true => Returns "true"
  | VBool false => Returns "false"
  | VNum n => Returns (Number_toString n)
  | VBigInt n => Returns (decimal n)
  | VStr s => Returns s
  | VArr l =>
      (parts <- (fix join (l : list value) : outcome (list string) :=
                   match l with
                   | [] => Returns []
                   | x :: r =>
                       s <- match x with
                            | VUndefined | VNull => Returns EmptyString
                            | _ => to_string x
                            end ;;
                       t <- join r ;;
                       ret (s :: t)
                   end) l ;;
       ret (String.concat "," parts))%outcome
  | VObj fs =>
      if is_some (assoc "toString" fs)
      then Throws (TypeError "Cannot convert object to primitive value")
      else Returns "[object Object]"
  | VError m _ => Returns (if is_empty m then "Error" else "Error: " ++ m)
  end.

(** *** JSON.stringify *)

(** [JSON.stringify] throws exactly when it meets a BigInt. *)
Fixpoint serialisable (v : value) : bool :=
  match v with
  | VBigInt _ => false
  | VArr l => forallb serialisable l
  | VObj fs =>
      (fix all (fs : list (string * value)) : bool :=
         match fs with
         | [] => true
         | (_, x) :: r => serialisable x && all r
         end) fs
  | _ => true
  end.

(** SerializeJSONObject / SerializeJSONArray: the final assembly. *)
Definition bracket (opening closing gap indent : string) (parts : list string)
  : string :=
  match parts with
  | [] => opening ++ closing
  | _ :: _ =>
      if is_empty gap then opening ++ String.concat "," parts ++ closing
      else opening ++ newline ++ indent ++ gap
           ++ String.concat ("," ++ newline ++ indent ++ gap) parts
           ++ newline ++ indent ++ closing
  end.

Definition or_null (o : option string) : string :=
  match o with
  | Some s => s
  | None => "null"
  end.

(** SerializeJSONProperty on a serialisable value; [None] is [undefined]. *)
Fixpoint render (gap indent : string) (v : value) : option string :=
  match v with
  | VUndefined => None
  | VNull => Some "null"
  | VBool true => Some "true"
  | VBool false => Some "false"
  | VNum n => Some (JSON_number n)
  | VBigInt _ => None
  | VStr s => Some (quote s)
  | VArr l =>
      Some (bracket "[" "]" gap indent
              (map (fun x => or_null (render gap (indent ++ gap) x)) l))
  | VObj fs =>
      Some (bracket "{" "}" gap indent
              ((fix members (fs : list (string * value)) : list string :=
                  match fs with
                  | [] => []
                  | (k, x) :: r =>
                      match render gap (indent ++ gap) x with
                      | Some s =>
                          (quote k ++ ":" ++ (if is_empty gap then EmptyString else " ") ++ s)
                            :: members r
                      | None => members r
                      end
                  end) fs))
  | VError _ _ => Some "{}"
  end.

(** [JSON.stringify(v, null, space)] *)
Definition JSON_stringify (v : value) (space : nat) : outcome value :=
  if serialisable v
  then Returns (opt_string (render (spaces (Nat.min space 10)) EmptyString v))
  else Throws (TypeError "Do not know how to serialize a BigInt").

(** *** Parsed JSON *)

(** What [JSON.parse] yields: request bodies are built from these. *)
Inductive json : Type :=
| JNull
| JBool (b : bool)
| JNum (n : Z)
| JStr (s : string)
| JArr (items : list json)
| JObj (fields : list (string * json)).

Fixpoint of_json (j : json) : value :=
  match j with
  | JNull => VNull
  | JBool b => VBool b
  | JNum n => VNum n
  | JStr s => VStr s
  | JArr l => VArr (map of_json l)
  | JObj fs =>
      VObj ((fix fields (fs : list (string * json)) : list (string * value) :=
               match fs with
               | [] => []
               | (k, x) :: r => (k, of_json x) :: fields r
               end) fs)
  end.

(** Structural induction through the lists nested in [json]. *)
Section json_induction.
Variable P : json -> Prop.
Hypothesis P_null : P JNull.
Hypothesis P_bool : forall b, P (JBool b).
Hypothesis P_num : forall n, P (JNum n).
Hypothesis P_str : forall s, P (JStr s).
Hypothesis P_arr : forall l, Forall P l -> P (JArr l).
Hypothesis P_obj : forall fs, Forall (fun kx => P (snd kx)) fs -> P (JObj fs).

Fixpoint json_induction (j : json) : P j :=
  match j with
  | JNull => P_null
  | JBool b => P_bool b
  | JNum n => P_num n
  | JStr s => P_str s
  | JArr l =>
      P_arr l
        ((fix all (l : list json) : Forall P l :=
            match l with
            | [] => Forall_nil P
            | x :: r => Forall_cons x (json_induction x) (all r)
            end) l)
  | JObj fs =>
      P_obj fs
        ((fix all (fs : list (string * json)) : Forall (fun kx => P (snd kx)) fs :=
            match fs with
            | [] => Forall_nil _
            | (k, x) :: r =>
                @Forall_cons _ (fun kx => P (snd kx)) (k, x) r (json_induction x) (all r)
            end) fs)
  end.
End json_induction.

(** The same for [value]. *)
Section value_induction.
Variable P : value -> Prop.
Hypothesis P_undefined : P VUndefined.
Hypothesis P_null : P VNull.
Hypothesis P_bool : forall b, P (VBool b).
Hypothesis P_num : forall n, P (VNum n).
Hypothesis P_bigint : forall n, P (VBigInt n).
Hypothesis P_str : forall s, P (VStr s).
Hypothesis P_arr : forall l, Forall P l -> P (VArr l).
Hypothesis P_obj : forall fs, Forall (fun kx => P (snd kx)) fs -> P (VObj fs).
Hypothesis P_error : forall m st, P (VError m st).

Fixpoint value_induction (v : value) : P v :=
  match v with
  | VUndefined => P_undefined
  | VNull => P_null
  | VBool b => P_bool b
  | VNum n => P_num n
  | VBigInt n => P_bigint n
  | VStr s => P_str s
  | VArr l =>
      P_arr l
        ((fix all (l : list value) : Forall P l :=
            match l with
            | [] => Forall_nil P
            | x :: r => Forall_cons x (value_induction x) (all r)
            end) l)
  | VObj fs =>
      P_obj fs
        ((fix all (fs : list (string * value)) : Forall (fun kx => P (snd kx)) fs :=
            match fs with
            | [] => Forall_nil _
            | (k, x) :: r =>
                @Forall_cons _ (fun kx => P (snd kx)) (k, x) r (value_induction x) (all r)
            end) fs)
  | VError m st => P_error m st
  end.
End value_induction.

End JS.


(* ===================================================================== *)
(** ** src/api/tools.ts: the registration helpers                         *)
(* ===================================================================== *)

Module Tools.
Import JS.
Local Open Scope outcome_scope.

(** The fragment of Zod the helpers and their callers write schemas in. *)
Inductive ZodType : Type :=
| z_string
| z_number
| z_boolean
| z_any
| z_array (item : ZodType)
| z_object (shape : list (string * ZodType))
| z_optional (inner : ZodType).

(** A raw shape object, as [registerTool] forwards it to the SDK. *)
Definition Schema : Type := list (string * ZodType).

(** [(params, client) => Promise<any>] *)
Definition Handler : Type := value -> value -> outcome value.

(** The process-wide fallback the callbacks reach for. *)
Record GlobalThis : Type := { __dataForSeoClient : value }.

(** The callback handed to the SDK: [async (params, _context) => ...],
    run against the globals of the moment. *)
Definition Callback : Type := GlobalThis -> value -> value -> outcome value.

Record RegisteredTool : Type := {
  tool_name : string;
  tool_schema : Schema;
  tool_callback : Callback
}.

(** The SDK's server, seen from here as the registrations it has received
    through [server.tool], in order.  The helpers check nothing about the
    names they register; neither does this model. *)
Definition McpServer : Type := list RegisteredTool.

Definition server_tool (server : McpServer) (name : string) (schema : Schema)
    (cb : Callback) : McpServer :=
  (server ++ [{| tool_name := name; tool_schema := schema; tool_callback := cb |}])%list.

(** [{ content: [{ type: "text", text }] }] *)
Definition text_content (text : value) : value :=
  VObj [("content", VArr [VObj [("type", VStr "text"); ("text", text)]])].

(** The arrow function [registerTool] passes to [server.tool].
    [console.error] writes to the log only and is left out. *)
Definition registerTool_callback (name : string) (handler : Handler) : Callback :=
  fun globalThis params _context =>
    try_catch
      (let clientInstance :=
         or_else (if truthy _context then own _context "client" else _context)
                 (__dataForSeoClient globalThis) in
       result <- handler params clientInstance ;;
       text <- JSON_stringify result 2 ;;
       ret (text_content text))
      (fun error =>
         if is_Error error then
           text <- JSON_stringify
                     (VObj [("error", own error "message");
                            ("stack", own error "stack")]) 2 ;;
           ret (text_content text)
         else
           text <- JSON_stringify
                     (VObj [("error", VStr "Unknown error occurred");
                            ("details", error)]) 2 ;;
           ret (text_content text)).

(** The two halves of the callback, for stating what it does: the client
    it resolves, and the envelope it puts around the handler's outcome. *)
Definition clientInstance (globalThis : GlobalThis) (_context : value) : value :=
  or_else (if truthy _context then own _context "client" else _context)
          (__dataForSeoClient globalThis).

Definition error_report (error : value) : value :=
  if is_Error error
  then VObj [("error", own error "message"); ("stack", own error "stack")]
  else VObj [("error", VStr "Unknown error occurred"); ("details", error)].

Definition envelope (o : outcome value) : outcome value :=
  match o with
  | Returns result =>
      match JSON_stringify result 2 with
      | Returns text => Returns (text_content text)
      | Throws e => text <- JSON_stringify (error_report e) 2 ;; ret (text_content text)
      end
  | Throws e => text <- JSON_stringify (error_report e) 2 ;; ret (text_content text)
  end.

Definition registerTool (server : McpServer) (name : string) (schema : Schema)
    (handler : Handler) : McpServer :=
  server_tool server name schema (registerTool_callback name handler).

Definition registerTaskTool (server : McpServer) (baseName : string)
    (postSchema : Schema) (postHandler : Handler)
    (readyHandler : value -> outcome value)
    (getHandler : value -> value -> outcome value) : McpServer :=
  let server := registerTool server (baseName ++ "_post") postSchema postHandler in
  let server :=
    registerTool server (baseName ++ "_ready") []
      (fun _params client => readyHandler client) in
  registerTool server (baseName ++ "_get") [("id", z_string)]
    (fun params client => id <- get params "id" ;; getHandler id client).

End Tools.

(* ===================================================================== *)
(** ** src/server-http.ts: the HTTP/JSON-RPC bridge                       *)
(* ===================================================================== *)

Module Bridge.
Import JS Tools.

(** Modelled from the spec: the declaration of [toolRegistry], which
    src/server-http.ts imports from src/api/tools.ts; the version of that
    file that declares it is missing.  The registry is a [Map] from tool
    name to {name, description, input schema, handler}; the bridge reads
    exactly these four members, and tests [handler] for presence before the
    call.  The stored handler is called as [handler(arguments, context)]. *)
Record ToolEntry : Type := {
  name : string;
  description : option string;
  inputSchema : Schema;
  handler : option (value -> value -> outcome value)
}.

(** A [Map] with string keys, in insertion order. *)
Definition Registry : Type := list (string * ToolEntry).

(** [toolRegistry.get(key)]: only a string can be a key of this map. *)
Definition Map_get (r : Registry) (key : value) : option ToolEntry :=
  match key with
  | VStr k => assoc k r
  | _ => None
  end.

(** [toolRegistry.values()] *)
Definition Map_values (r : Registry) : list ToolEntry := map snd r.

(** The reads of the registry a request performs, oldest first. *)
Inductive Event : Type :=
| RegistryValues
| RegistryGet (key : value).

(** The module-level state of the server process and the part of its
    environment it reads; [trace] records the registry reads. *)
Record Process : Type := {
  mcpServer : option McpServer;
  DATAFORSEO_LOGIN : option string;
  DATAFORSEO_PASSWORD : option string;
  toolRegistry : Registry;
  trace : list Event
}.

Definition set_mcpServer (s : option McpServer) (p : Process) : Process :=
  {| mcpServer := s;
     DATAFORSEO_LOGIN := DATAFORSEO_LOGIN p;
     DATAFORSEO_PASSWORD := DATAFORSEO_PASSWORD p;
     toolRegistry := toolRegistry p;
     trace := trace p |}.

Definition record (e : Event) (p : Process) : Process :=
  {| mcpServer := mcpServer p;
     DATAFORSEO_LOGIN := DATAFORSEO_LOGIN p;
     DATAFORSEO_PASSWORD := DATAFORSEO_PASSWORD p;
     toolRegistry := toolRegistry p;
     trace := (trace p ++ [e])%list |}.

(** Code that runs in the process: it may throw, and the state survives. *)
Definition M (A : Type) : Type := Process -> outcome A * Process.

Definition retM {A} (a : A) : M A := fun p => (Returns a, p).

Definition bindM {A B} (c : M A) (k : A -> M B) : M B :=
  fun p =>
    match c p with
    | (Returns a, p') => k a p'
    | (Throws e, p') => (Throws e, p')
    end.

Definition lift {A} (c : outcome A) : M A := fun p => (c, p).

Definition try_catchM {A} (c : M A) (h : value -> M A) : M A :=
  fun p =>
    match c p with
    | (Returns a, p') => (Returns a, p')
    | (Throws e, p') => h e p'
    end.

Declare Scope process_scope.
Delimit Scope process_scope with process.
Notation "x <- c ;; k" := (bindM c (fun x => k))
  (at level 61, c at next level, right associativity) : process_scope.
Local Open Scope process_scope.

(** The HTTP response: status line and JSON body. *)
Record Response : Type := { status : Z; body : value }.

(** [res.status(code).json(payload)]: the payload goes through
    [JSON.stringify], which may throw. *)
Definition res_json (code : Z) (payload : value) : M Response :=
  _ <- lift (JSON_stringify payload 0) ;;
  retM {| status := code; body := payload |}.

(** What [express.json()] leaves in [req.body]: the parser is strict and
    accepts objects and arrays only; without a JSON body it leaves [{}]. *)
Inductive Body : Type :=
| BodyObject (fields : list (string * json))
| BodyArray (items : list json).

Definition body_value (b : Body) : value :=
  match b with
  | BodyObject fs => of_json (JObj fs)
  | BodyArray l => of_json (JArr l)
  end.

Definition jsonrpc_error (code : Z) (message : value) (id : value) : value :=
  VObj [("jsonrpc", VStr "2.0");
        ("error", VObj [("code", VNum code); ("message", message)]);
        ("id", id)].

Definition jsonrpc_result (result : value) (id : value) : value :=
  VObj [("jsonrpc", VStr "2.0"); ("result", result); ("id", id)].

(** [o.k = v] and [delete o.k] on a value; only an object can have had the
    property that leads here. *)
Definition assign (o : value) (k : string) (v : value) : value :=
  match o with
  | VObj fs => VObj (set k v fs)
  | _ => o
  end.

Definition remove (o : value) (k : string) : value :=
  match o with
  | VObj fs => VObj (delete k fs)
  | _ => o
  end.

(** [fullSchema.$ref.split('/')]: only a string has [split]. *)
Definition ref_split (ref : value) : outcome (list string) :=
  match ref with
  | VStr s => Returns (split "/" s)
  | _ => Throws (TypeError "fullSchema.$ref.split is not a function")
  end.

(** [{ type: 'string' }] *)
Definition string_items : value := VObj [("type", VStr "string")].

(** The body of the loop over [Object.entries(inputSchema.properties)]. *)
Definition fix_array_items (prop : value) : outcome value :=
  (type <- get prop "type" ;;
   if is_string type "array" && negb (truthy (own prop "items"))
   then ret (assign prop "items" string_items)
   else ret prop)%outcome.

(** [l.map(f)], and a [for ... of] loop that rebuilds what it visits: the
    first throw ends it. *)
Fixpoint for_each {A B : Type} (f : A -> outcome B) (l : list A) : outcome (list B) :=
  match l with
  | [] => Returns []
  | x :: r =>
      (y <- f x ;;
       r' <- for_each f r ;;
       ret (y :: r'))%outcome
  end.

(** The loop itself: the property schemas are updated in place. *)
Definition fix_properties (properties : value) : outcome value :=
  match properties with
  | VObj ps =>
      (ps' <- for_each (fun kp => p' <- fix_array_items (snd kp) ;; ret (fst kp, p')) ps ;;
       ret (VObj ps'))%outcome
  | VArr l =>
      (l' <- for_each fix_array_items l ;;
       ret (VArr l'))%outcome
  | _ => Returns properties
  end.

(** The schema translation inside [getToolsList], in its three steps.
    First: a schema that is a [$ref] into its own [definitions] is replaced
    by a copy of the definition it names.  The definition is read with a
    computed key, so a name [definitions] does not hold but inherits finds
    a built-in, whose copy is the empty object. *)
Definition inline_ref (fullSchema : value) : outcome value :=
  (ref <- get fullSchema "$ref" ;;
   if truthy ref && truthy (own fullSchema "definitions") then
     refParts <- ref_split ref ;;
     let refKey := last refParts EmptyString in
     if truthy (VStr refKey) then
       match lookup (own fullSchema "definitions") refKey with
       | Data definition =>
           if truthy definition then ret (VObj (enumerable definition))
           else ret fullSchema
       | Builtin => ret (VObj [])
       end
     else ret fullSchema
   else ret fullSchema)%outcome.

(** Second: [$ref] and [definitions] are deleted. *)
Definition strip_ref (inputSchema : value) : value :=
  let inputSchema :=
    if truthy (own inputSchema "$ref") then remove inputSchema "$ref"
    else inputSchema in
  if truthy (own inputSchema "definitions") then remove inputSchema "definitions"
  else inputSchema.

(** Third: arrays without items get the default item schema. *)
Definition default_items (inputSchema : value) : outcome value :=
  (if truthy (own inputSchema "properties") then
     properties <- fix_properties (own inputSchema "properties") ;;
     ret (assign inputSchema "properties" properties)
   else ret inputSchema)%outcome.

Definition translate_schema (fullSchema : value) : outcome value :=
  (inputSchema <- inline_ref fullSchema ;;
   default_items (strip_ref inputSchema))%outcome.

(** *** Notions the statements below are written with *)

(** [getMcpServer] has run: the server object exists. *)
Definition initialised (p : Process) : bool :=
  match mcpServer p with
  | Some _ => true
  | None => false
  end.

Definition is_object (v : value) : bool :=
  match v with
  | VObj _ => true
  | _ => false
  end.

(** An object schema: an object whose [properties], if any, is an object
    of objects. *)
Definition object_schema (v : value) : bool :=
  match v with
  | VObj fs =>
      match assoc "properties" fs with
      | None => true
      | Some (VObj ps) => forallb (fun kp => is_object (snd kp)) ps
      | Some _ => false
      end
  | _ => false
  end.

(** A JSON Schema document as the converter emits it: an object schema
    whose [$ref], if any, is a string and whose [definitions], if any, is
    an object of object schemas. *)
Definition schema_document (v : value) : bool :=
  object_schema v
  && match own v "$ref" with
     | VUndefined | VStr _ => true
     | _ => false
     end
  && match own v "definitions" with
     | VUndefined => true
     | VObj ds => forallb (fun kd => object_schema (snd kd)) ds
     | _ => false
     end.

(** What the loop makes of one property schema. *)
Definition with_default_items (prop : value) : value :=
  if is_string (own prop "type") "array" && negb (truthy (own prop "items"))
  then assign prop "items" string_items
  else prop.

(** The process after some more registry reads. *)
Definition extend (events : list Event) (p : Process) : Process :=
  {| mcpServer := mcpServer p;
     DATAFORSEO_LOGIN := DATAFORSEO_LOGIN p;
     DATAFORSEO_PASSWORD := DATAFORSEO_PASSWORD p;
     toolRegistry := toolRegistry p;
     trace := (trace p ++ events)%list |}.

(** A computation that, if it throws, throws an [Error]. *)
Definition throws_only_Errors {A : Type} (o : outcome A) : Prop :=
  match o with
  | Returns _ => True
  | Throws e => is_Error e = true
  end.

Definition non_null (v : value) : bool :=
  match v with
  | VUndefined | VNull => false
  | _ => true
  end.

(** The tools a response lists, when it lists any. *)
Definition listed_tools (r : outcome Response) : option (list value) :=
  match r with
  | Returns resp =>
      match own (own (body resp) "result") "tools" with
      | VArr l => Some l
      | _ => None
      end
  | Throws _ => None
  end.

(** The names in a listing, of the tools whose input schema is not null. *)
Definition listed_names (r : outcome Response) : list value :=
  match listed_tools r with
  | Some l => map (fun t => own t "name") (filter (fun t => non_null (own t "inputSchema")) l)
  | None => []
  end.

(** The handler a key resolves to, if any: [tool && tool.handler]. *)
Definition resolve (r : Registry) (key : value) : option (value -> value -> outcome value) :=
  match Map_get r key with
  | Some entry => handler entry
  | None => None
  end.

Section Server.

(** [zodToJsonSchema] of the zod-to-json-schema package. *)
Variable zodToJsonSchema : Schema -> string -> value.

(** The [register...Tools(mcpServer, apiClient)] calls of [getMcpServer],
    one per API category (src/api/*/index.ts), taken as given. *)
Variable registerAllTools : M unit.

(** The server object itself is not used by the callers. *)
Definition getMcpServer : M unit :=
  fun p =>
    match mcpServer p with
    | Some _ => (Returns tt, p)
    | None =>
        if negb (truthy (opt_string (DATAFORSEO_LOGIN p)))
           || negb (truthy (opt_string (DATAFORSEO_PASSWORD p)))
        then (Throws (Error "DataForSEO credentials not provided"), p)
        else registerAllTools (set_mcpServer (Some []) p)
    end.

(** The function mapped over the registry by [getToolsList]. *)
Definition describe_tool (tool : ToolEntry) : outcome value :=
  (let fullSchema := zodToJsonSchema (inputSchema tool) (name tool) in
   inputSchema <- translate_schema fullSchema ;;
   ret (VObj [("name", VStr (name tool));
              ("description",
               or_else (opt_string (description tool))
                       (VStr ("DataForSEO API tool: " ++ name tool)));
              ("inputSchema", inputSchema)]))%outcome.

(** [console.log] writes to the log only and is left out. *)
Definition getToolsList : M (list value) :=
  fun p =>
    (for_each describe_tool (Map_values (toolRegistry p)), record RegistryValues p).

(** [toolRegistry.get(key)] *)
Definition registry_get (key : value) : M (option ToolEntry) :=
  fun p => (Returns (Map_get (toolRegistry p) key), record (RegistryGet key) p).

Definition initialize_result : value :=
  VObj [("protocolVersion", VStr "2024-11-05");
        ("capabilities", VObj [("tools", VObj [])]);
        ("serverInfo", VObj [("name", VStr "DataForSEO MCP Server");
                             ("version", VStr "1.0.0")])].

(** The inner [catch] of the [tools/call] case. *)
Definition call_failed (id : value) (error : value) : M Response :=
  message <- lift (get error "message") ;;
  res_json 500 (jsonrpc_error (-32603) message id).

(** [case 'tools/call':] *)
Definition tools_call (params id : value) : M Response :=
  if negb (truthy (get_opt params "name")) then
    res_json 400 (jsonrpc_error (-32602) (VStr "Missing tool name") id)
  else
    try_catchM
      (tool <- registry_get (own params "name") ;;
       match tool with
       | None =>
           name <- lift (to_string (own params "name")) ;;
           res_json 404
             (jsonrpc_error (-32601) (VStr ("Tool not found: " ++ name)) id)
       | Some entry =>
           match handler entry with
           | None =>
               name <- lift (to_string (own params "name")) ;;
               res_json 404
                 (jsonrpc_error (-32601) (VStr ("Tool not found: " ++ name)) id)
           | Some call =>
               result <- lift (call (or_else (own params "arguments") (VObj []))
                                    (VObj [])) ;;
               res_json 200 (jsonrpc_result result id)
           end
       end)
      (call_failed id).

(** The [try] block of the handler. *)
Definition handle_request (req_body : Body) : M Response :=
  _ <- getMcpServer ;;
  let jsonrpc := own (body_value req_body) "jsonrpc" in
  let method := own (body_value req_body) "method" in
  let params := own (body_value req_body) "params" in
  let id := own (body_value req_body) "id" in
  if negb (is_string jsonrpc "2.0") then
    res_json 400 (jsonrpc_error (-32600) (VStr "Invalid Request") (or_else id VNull))
  else if is_string method "initialize" then
    res_json 200 (jsonrpc_result initialize_result id)
  else if is_string method "tools/list" then
    toolsList <- getToolsList ;;
    res_json 200 (jsonrpc_result (VObj [("tools", VArr toolsList)]) id)
  else if is_string method "tools/call" then
    tools_call params id
  else
    printed <- lift (to_string method) ;;
    res_json 404
      (jsonrpc_error (-32601) (VStr ("Method not found: " ++ printed)) id).

(** The outer [catch] of the handler; [console.error] is left out. *)
Definition request_failed (req_body : Body) (error : value) : M Response :=
  message <- lift (get error "message") ;;
  res_json 500
    (VObj [("jsonrpc", VStr "2.0");
           ("error", VObj [("code", VNum (-32603));
                           ("message", VStr "Internal error");
                           ("data", message)]);
           ("id", or_else (get_opt (body_value req_body) "id") VNull)]).

(** [app.post('/mcp', async (req, res) => ...)] *)
Definition post_mcp (req_body : Body) : M Response :=
  try_catchM (handle_request req_body) (request_failed req_body).

(** The [catch] of the [/tools] handler. *)
Definition listing_failed (error : value) : M Response :=
  message <- lift (get error "message") ;;
  res_json 500
    (VObj [("error", VStr "Failed to list tools"); ("message", message)]).

(** [app.get('/tools', (req, res) => ...)] *)
Definition get_tools : M Response :=
  try_catchM
    (_ <- getMcpServer ;;
     toolsList <- getToolsList ;;
     res_json 200
       (VObj [("jsonrpc", VStr "2.0");
              ("result", VObj [("tools", VArr toolsList)])]))
    listing_failed.

End Server.

(** The text on the wire. *)
Definition wire (r : Response) : outcome value := JSON_stringify (body r) 0.

End Bridge.

(* ===================================================================== *)
(** ** Sample data: a task tool over a stub provider                      *)
(* ===================================================================== *)

Module Sample.
Import JS Tools Bridge.

(** No fallback client has been stored on [globalThis]. *)
Definition no_globals : GlobalThis := {| __dataForSeoClient := VUndefined |}.

(** A provider that knows one finished task, ["123"]. *)
Definition stub_post : Handler :=
  fun _ _ => Returns (VObj [("id", VStr "123")]).

Definition stub_ready : value -> outcome value :=
  fun _ => Returns (VArr [VStr "123"]).

Definition stub_get : value -> value -> outcome value :=
  fun id _ =>
    if is_string id "123" then Returns (VObj [("done", VBool true)])
    else Throws (Error "task not found").

Definition keyword_schema : Schema :=
  [("keyword", z_string); ("tags", z_array z_any)].

(** [registerTaskTool(server, "x", ...)] on a fresh server. *)
Definition x_server : McpServer :=
  registerTaskTool [] "x" keyword_schema stub_post stub_ready stub_get.

Definition callback_of (server : McpServer) (name : string) : Callback :=
  match find (fun t => String.eqb (tool_name t) name) server with
  | Some t => tool_callback t
  | None => fun _ _ _ => Throws (Error ("no such tool: " ++ name))
  end.

(** The registry holding the tools of a server: each callback stored as
    the handler, with the empty description, as docs/BUGFIX_CALLTOOL_ERROR.md
    shows the insertion. *)
Definition registry_of (server : McpServer) : Registry :=
  map (fun t =>
         (tool_name t,
          {| name := tool_name t;
             description := Some EmptyString;
             inputSchema := tool_schema t;
             handler := Some (tool_callback t no_globals) |}))
      server.

Definition x_process : Process :=
  {| mcpServer := Some x_server;
     DATAFORSEO_LOGIN := Some "login";
     DATAFORSEO_PASSWORD := Some "password";
     toolRegistry := registry_of x_server;
     trace := [] |}.

(** A tool whose stored handler throws. *)
Definition failing_entry : ToolEntry :=
  {| name := "boom";
     description := None;
     inputSchema := [];
     handler := Some (fun _ _ => Throws (Error "provider unreachable")) |}.

Definition failing_process : Process :=
  {| mcpServer := Some [];
     DATAFORSEO_LOGIN := Some "login";
     DATAFORSEO_PASSWORD := Some "password";
     toolRegistry := [("boom", failing_entry)];
     trace := [] |}.

(** A process started without credentials: [getMcpServer] failed at
    start-up, the server listens all the same, and each request tries
    again. *)
Definition unconfigured_process : Process :=
  {| mcpServer := None;
     DATAFORSEO_LOGIN := None;
     DATAFORSEO_PASSWORD := None;
     toolRegistry := [];
     trace := [] |}.

(** A converter in the manner of zod-to-json-schema, for the samples: the
    schema proper sits under [definitions], and an array of [z.any()] gets
    no [items]. *)
Fixpoint json_schema (t : ZodType) : value :=
  match t with
  | z_string => VObj [("type", VStr "string")]
  | z_number => VObj [("type", VStr "number")]
  | z_boolean => VObj [("type", VStr "boolean")]
  | z_any => VObj []
  | z_array z_any => VObj [("type", VStr "array")]
  | z_array item => VObj [("type", VStr "array"); ("items", json_schema item)]
  | z_object shape =>
      VObj [("type", VStr "object");
            ("properties",
             VObj ((fix props (l : list (string * ZodType)) : list (string * value) :=
                      match l with
                      | [] => []
                      | (k, x) :: r => (k, json_schema x) :: props r
                      end) shape))]
  | z_optional inner => json_schema inner
  end.

Definition sample_converter (schema : Schema) (name : string) : value :=
  VObj [("$ref", VStr ("#/definitions/" ++ name));
        ("definitions", VObj [(name, json_schema (z_object schema))]);
        ("$schema", VStr "http://json-schema.org/draft-07/schema#")].

(** Nothing left to register. *)
Definition no_registrations : M unit := retM tt.

(** [{"done":true}], compact and with two-space indentation. *)
Definition compact_done : string :=
  "{" ++ dquote ++ "done" ++ dquote ++ ":true}".

Definition pretty_done : string :=
  "{" ++ newline ++ "  " ++ dquote ++ "done" ++ dquote ++ ": true" ++ newline ++ "}".

(** Request bodies. *)
Definition call_x_get : Body :=
  BodyObject [("jsonrpc", JStr "2.0");
              ("method", JStr "tools/call");
              ("params", JObj [("name", JStr "x_get");
                               ("arguments", JObj [("id", JStr "123")])]);
              ("id", JNum 1)].

Definition call_tool (tool : string) (id : json) : Body :=
  BodyObject [("jsonrpc", JStr "2.0");
              ("method", JStr "tools/call");
              ("params", JObj [("name", JStr tool)]);
              ("id", id)].

Definition list_tools (id : json) : Body :=
  BodyObject [("jsonrpc", JStr "2.0"); ("method", JStr "tools/list"); ("id", id)].

Definition initialize_without_id : Body :=
  BodyObject [("jsonrpc", JStr "2.0"); ("method", JStr "initialize")].

Definition old_version (id : json) : Body :=
  BodyObject [("jsonrpc", JStr "1.0"); ("method", JStr "tools/list"); ("id", id)].

End Sample.

(* ===================================================================== *)
(** ** test/filtering.test.ts: the allow-list helpers                     *)
(* ===================================================================== *)

Module Filtering.
Import JS.

(** Strings are taken as ASCII text: the white space [trim] removes is tab,
    line feed, vertical tab, form feed, carriage return and space, and the
    letters the case conversions touch are [a-z] and [A-Z]. *)
Definition is_space (c : ascii) : bool :=
  let n := nat_of_ascii c in
  (Nat.leb 9 n && Nat.leb n 13) || Nat.eqb n 32.

Fixpoint trimStart (s : string) : string :=
  match s with
  | EmptyString => EmptyString
  | String c r => if is_space c then trimStart r else s
  end.

Fixpoint trimEnd (s : string) : string :=
  match s with
  | EmptyString => EmptyString
  | String c r =>
      match trimEnd r with
      | EmptyString => if is_space c then EmptyString else String c EmptyString
      | String d r' => String c (String d r')
      end
  end.

(** [s.trim()] *)
Definition trim (s : string) : string := trimEnd (trimStart s).

Definition upper_char (c : ascii) : ascii :=
  let n := nat_of_ascii c in
  if Nat.leb 97 n && Nat.leb n 122 then ascii_of_nat (n - 32) else c.

Definition lower_char (c : ascii) : ascii :=
  let n := nat_of_ascii c in
  if Nat.leb 65 n && Nat.leb n 90 then ascii_of_nat (n + 32) else c.

(** [s.toUpperCase()] and [s.toLowerCase()] *)
Fixpoint toUpperCase (s : string) : string :=
  match s with
  | EmptyString => EmptyString
  | String c r => String (upper_char c) (toUpperCase r)
  end.

Fixpoint toLowerCase (s : string) : string :=
  match s with
  | EmptyString => EmptyString
  | String c r => String (lower_char c) (toLowerCase r)
  end.

(** A [Set<string>]: its members in insertion order, each once. *)
Definition StringSet : Type := list string.

(** [set.has(x)] *)
Definition Set_has (set : StringSet) (x : string) : bool :=
  existsb (String.eqb x) set.

(** [set.add(x)] *)
Definition Set_add (set : StringSet) (x : string) : StringSet :=
  if Set_has set x then set else (set ++ [x])%list.

(** [new Set(l)] *)
Definition Set_from (l : list string) : StringSet := fold_left Set_add l [].

(** [parseEnabledModules]: [undefined] and the empty string give [null]. *)
Definition parseEnabledModules (envValue : option string) : option StringSet :=
  match envValue with
  | None => None
  | Some v =>
      if is_empty v then None
      else Some (Set_from (map (fun m => toUpperCase (trim m)) (split "," v)))
  end.

Definition isModuleEnabled (module : string) (enabledModules : option StringSet)
  : bool :=
  match enabledModules with
  | None => true
  | Some set => Set_has set module
  end.

Definition parseEnabledTools (envValue : option string) : option StringSet :=
  match envValue with
  | None => None
  | Some v =>
      if is_empty v then None
      else Some (Set_from (map (fun t => toLowerCase (trim t)) (split "," v)))
  end.

Definition isToolEnabled (name : string) (enabledTools : option StringSet) : bool :=
  match enabledTools with
  | None => true
  | Some set => Set_has set (toLowerCase name)
  end.

(** A string that does not begin with white space. *)
Definition starts_clean (s : string) : Prop :=
  match s with
  | EmptyString => True
  | String c _ => is_space c = false
  end.

(** A string of white space and commas only. *)
Definition blank (s : string) : bool :=
  forallb (fun c => is_space c || Ascii.eqb c ",") (list_ascii_of_string s).

End Filtering.

(* ===================================================================== *)
(** ** Further notions and sample data for the bridge                     *)
(* ===================================================================== *)

Module Notions.
Import JS Tools Bridge.

(** Both credentials are in the environment, and not empty. *)
Definition configured (p : Process) : bool :=
  truthy (opt_string (DATAFORSEO_LOGIN p))
  && truthy (opt_string (DATAFORSEO_PASSWORD p)).

Definition error_code (resp : Response) : value :=
  own (own (body resp) "error") "code".

(** A response whose status line agrees with its JSON-RPC body: 200 with
    no error member, 400 with -32600 or -32602, 404 with -32601, 500 with
    -32603. *)
Definition coherent (resp : Response) : Prop :=
  own (body resp) "jsonrpc" = VStr "2.0"
  /\ ((status resp = 200%Z /\ own (body resp) "error" = VUndefined)
      \/ (status resp = 400%Z
          /\ (error_code resp = VNum (-32600) \/ error_code resp = VNum (-32602)))
      \/ (status resp = 404%Z /\ error_code resp = VNum (-32601))
      \/ (status resp = 500%Z /\ error_code resp = VNum (-32603))).

(** The registry reads a request calls for, read off the request alone. *)
Definition reads (req_body : Body) : list Event :=
  let b := body_value req_body in
  if negb (is_string (own b "jsonrpc") "2.0") then []
  else if is_string (own b "method") "initialize" then []
  else if is_string (own b "method") "tools/list" then [RegistryValues]
  else if is_string (own b "method") "tools/call" then
    if truthy (get_opt (own b "params") "name")
    then [RegistryGet (own (own b "params") "name")]
    else []
  else [].

(** Registrations cannot unset the module's [mcpServer] variable: they are
    handed the server object, not the variable. *)
Definition keeps_server (registerAllTools : M unit) : Prop :=
  forall p, initialised p = true -> initialised (snd (registerAllTools p)) = true.

(** The body [GET /tools] answers with when listing fails. *)
Definition listing_failure (message : value) : value :=
  VObj [("error", VStr "Failed to list tools"); ("message", message)].

(** Sample data. *)

(** A tool that echoes its arguments. *)
Definition echo_entry : ToolEntry :=
  {| name := "echo";
     description := Some "Echo the arguments";
     inputSchema := [];
     handler := Some (fun args _ => Returns args) |}.

(** A tool whose handler resolves to a BigInt. *)
Definition bigint_entry : ToolEntry :=
  {| name := "count";
     description := None;
     inputSchema := [];
     handler := Some (fun _ _ => Returns (VBigInt 7)) |}.

Definition echo_process : Process :=
  {| mcpServer := Some [];
     DATAFORSEO_LOGIN := Some "login";
     DATAFORSEO_PASSWORD := Some "password";
     toolRegistry := [("echo", echo_entry); ("count", bigint_entry)];
     trace := [] |}.

(** A configured process before its first request. *)
Definition fresh_process : Process :=
  {| mcpServer := None;
     DATAFORSEO_LOGIN := Some "login";
     DATAFORSEO_PASSWORD := Some "password";
     toolRegistry := [];
     trace := [] |}.

(** Registrations that put one tool into the registry and then throw. *)
Definition failing_registrations : M unit :=
  fun p =>
    (Throws (Error "Tool echo is already registered"),
     {| mcpServer := mcpServer p;
        DATAFORSEO_LOGIN := DATAFORSEO_LOGIN p;
        DATAFORSEO_PASSWORD := DATAFORSEO_PASSWORD p;
        toolRegistry := (toolRegistry p ++ [("echo", echo_entry)])%list;
        trace := trace p |}).

(** A converter that has no schema for the tool named "count". *)
Definition partial_converter (schema : Schema) (name : string) : value :=
  if String.eqb name "count" then VNull else Sample.sample_converter schema name.

Definition call_with (tool : string) (arguments : json) (id : json) : Body :=
  BodyObject [("jsonrpc", JStr "2.0");
              ("method", JStr "tools/call");
              ("params", JObj [("name", JStr tool); ("arguments", arguments)]);
              ("id", id)].

(** A call whose [name] is any JSON value. *)
Definition call_named (tool : json) (id : json) : Body :=
  BodyObject [("jsonrpc", JStr "2.0");
              ("method", JStr "tools/call");
              ("params", JObj [("name", tool)]);
              ("id", id)].

Definition call_without_name (id : json) : Body :=
  BodyObject [("jsonrpc", JStr "2.0");
              ("method", JStr "tools/call");
              ("params", JObj [("arguments", JObj [])]);
              ("id", id)].

Definition unknown_method (id : json) : Body :=
  BodyObject [("jsonrpc", JStr "2.0"); ("method", JStr "resources/list"); ("id", id)].

(** A tool whose schema has an array inside an object:
    [{ filters: z.object({ tags: z.array(z.any()) }) }]. *)
Definition nested_schema : Schema :=
  [("filters", z_object [("tags", z_array z_any)])].

Definition search_entry : ToolEntry :=
  {| name := "search";
     description := Some "Search with filters";
     inputSchema := nested_schema;
     handler := Some (fun args _ => Returns args) |}.

Definition search_process : Process :=
  {| mcpServer := Some [];
     DATAFORSEO_LOGIN := Some "login";
     DATAFORSEO_PASSWORD := Some "password";
     toolRegistry := [("search", search_entry)];
     trace := [] |}.

(** A schema document with a [$ref] into its definitions. *)
Definition keyword_document : value :=
  Sample.sample_converter Sample.keyword_schema "x_post".

End Notions.

(* ===================================================================== *)
(** ** Facts about the JavaScript fragment                                *)
(* ===================================================================== *)

Module JSFacts.
Import JS.

Lemma of_json_object (fs : list (string * json)) :
  of_json (JObj fs) = VObj (map (fun kx => (fst kx, of_json (snd kx))) fs).
Proof.
  cbn. f_equal.
  induction fs as [|[k x] r IH]; cbn; [reflexivity|].
  now rewrite IH.
Qed.

Lemma serialisable_object (fs : list (string * value)) :
  serialisable (VObj fs) = forallb (fun kx => serialisable (snd kx)) fs.
Proof.
  cbn. induction fs as [|[k x] r IH]; cbn; [reflexivity|].
  now rewrite IH.
Qed.

(** Whatever [JSON.parse] produced can be serialised again. *)
Lemma serialisable_of_json (j : json) : serialisable (of_json j) = true.
Proof.
  induction j as [| b | n | s | l IH | fs IH] using json_induction;
    try reflexivity.
  - cbn. induction IH as [|x r Hx _ IHr]; cbn; [reflexivity|].
    now rewrite Hx, IHr.
  - rewrite of_json_object, serialisable_object.
    induction IH as [|[k x] r Hx _ IHr]; cbn; [reflexivity|].
    cbn in Hx. now rewrite Hx, IHr.
Qed.

Lemma assoc_map {A B : Type} (f : A -> B) (k : string) (l : list (string * A)) :
  assoc k (map (fun kx => (fst kx, f (snd kx))) l) = option_map f (assoc k l).
Proof.
  induction l as [|[k' a] r IH]; cbn; [reflexivity|].
  destruct (String.eqb k k'); [reflexivity | exact IH].
Qed.

Lemma at_index_map {A B : Type} (f : A -> B) (k : string) (l : list A) :
  at_index k (map f l) = option_map f (at_index k l).
Proof.
  unfold at_index. destruct (index_of_key k) as [i|]; [|reflexivity].
  apply nth_error_map.
Qed.

(** A member read off parsed JSON is parsed JSON, or [undefined]. *)
Lemma own_of_json (j : json) (k : string) :
  own (of_json j) k = VUndefined \/ exists x, own (of_json j) k = of_json x.
Proof.
  destruct j as [| b | n | s | l | fs]; try (left; reflexivity).
  - cbn. destruct (String.eqb k "length").
    + right. now exists (JNum (Z.of_nat (String.length s))).
    + destruct (at_index k (chars s)) as [v|] eqn:E; [|left; reflexivity].
      right. unfold at_index in E.
      destruct (index_of_key k) as [i|]; [|discriminate].
      unfold chars in E. rewrite nth_error_map in E.
      destruct (nth_error _ i) as [c|]; [|discriminate].
      injection E as <-. now exists (JStr (String c EmptyString)).
  - cbn. destruct (String.eqb k "length").
    + right. exists (JNum (Z.of_nat (length l))). now rewrite length_map.
    + rewrite at_index_map.
      destruct (at_index k l) as [x|]; [right; now exists x | left; reflexivity].
  - rewrite of_json_object. cbn. rewrite assoc_map.
    destruct (assoc k fs) as [x|]; [right; now exists x | left; reflexivity].
Qed.

Lemma serialisable_own_of_json (j : json) (k : string) :
  serialisable (own (of_json j) k) = true.
Proof.
  destruct (own_of_json j k) as [-> | [x ->]];
    [reflexivity | apply serialisable_of_json].
Qed.

Lemma serialisable_or_else (a b : value) :
  serialisable a = true -> serialisable b = true -> serialisable (or_else a b) = true.
Proof. unfold or_else. now destruct (truthy a). Qed.

Lemma assoc_set_same (k : string) (v : value) (fs : list (string * value)) :
  assoc k (set k v fs) = Some v.
Proof.
  induction fs as [|[k' v'] r IH]; cbn.
  - now rewrite String.eqb_refl.
  - destruct (String.eqb k k') eqn:E; cbn.
    + now rewrite String.eqb_refl.
    + now rewrite E.
Qed.

Lemma assoc_delete_other (k k' : string) (fs : list (string * value)) :
  k' <> k -> assoc k' (delete k fs) = assoc k' fs.
Proof.
  intros N. induction fs as [|[k0 v0] r IH]; cbn; [reflexivity|].
  destruct (String.eqb_spec k0 k) as [->|D]; cbn.
  - destruct (String.eqb_spec k' k); [contradiction | exact IH].
  - destruct (String.eqb k' k0); [reflexivity | exact IH].
Qed.

Lemma is_string_true (v : value) (s : string) :
  is_string v s = true <-> v = VStr s.
Proof.
  destruct v; cbn; try (split; [discriminate | intros H; discriminate H]).
  split.
  - intros H. apply String.eqb_eq in H. now subst.
  - intros H. injection H as ->. apply String.eqb_refl.
Qed.

(** *** ToString *)

(** What ToString throws, when it throws, is the [TypeError] of a failed
    conversion to a primitive. *)
Lemma to_string_throws (v e : value) :
  to_string v = Throws e ->
  e = TypeError "Cannot convert object to primitive value".
Proof.
  revert e.
  induction v as [| | b | n | n | s | l IH | fs _ | m st] using value_induction;
    intros e; try discriminate.
  - now destruct b.
  - cbn [to_string].
    match goal with
    | |- bind ?j _ = _ -> _ =>
        assert (J : forall e0, j = Throws e0 ->
                      e0 = TypeError "Cannot convert object to primitive value")
    end.
    { induction IH as [|x r Hx _ IHr]; intros e0; [discriminate|].
      destruct (match x with
                | VUndefined | VNull => Returns EmptyString
                | _ => to_string x
                end) as [sx | ex] eqn:X.
      - cbn [bind]. match goal with
                    | |- bind ?j _ = _ -> _ => destruct j as [t | et] eqn:T
                    end; [discriminate|].
        cbn [bind]. intros [= <-]. now apply IHr.
      - cbn [bind]. intros [= <-]. destruct x; try discriminate X; now apply Hx. }
    match goal with
    | |- bind ?j _ = _ -> _ => destruct j as [parts | e0]
    end; [discriminate|].
    cbn [bind]. intros [= <-]. now apply J.
  - cbn [to_string]. destruct (is_some _); [|discriminate]. now intros [= <-].
Qed.

(** A string prints as itself. *)
Lemma to_string_string (s : string) : to_string (VStr s) = Returns s.
Proof. reflexivity. Qed.

(** *** Reads with a computed key *)

(** On a plain object: the own member, else a built-in for the names of
    [Object.prototype], else [undefined]. *)
Lemma lookup_object (fs : list (string * value)) (k : string) :
  lookup (VObj fs) k
  = match assoc k fs with
    | Some v => Data v
    | None => if existsb (String.eqb k) Object_prototype then Builtin else Data VUndefined
    end.
Proof. unfold lookup. cbn [has_own own]. now destruct (assoc k fs). Qed.

(** Numbers print as JavaScript prints them: in full up to 21 digits, in
    exponent form from 1e21 on, and as the nearest Number where the integer
    is not one. *)
Lemma Number_toString_examples :
  Number_toString 0 = "0"
  /\ Number_toString (-32601) = "-32601"
  /\ Number_toString (2 ^ 53 + 1) = "9007199254740992"
  /\ Number_toString (2 ^ 64) = "18446744073709552000"
  /\ Number_toString (10 ^ 21) = "1e+21"
  /\ Number_toString (- 2 ^ 70) = "-1.1805916207174113e+21"
  /\ Number_toString (10 ^ 23) = "1e+23"
  /\ Number_toString (2 ^ 1024) = "Infinity"
  /\ JSON_number (2 ^ 1024) = "null".
Proof. vm_compute. now repeat split. Qed.

Lemma to_string_examples :
  to_string (VArr [VNum 1; VNull; VArr [VStr "a"; VUndefined]; VObj []])
  = Returns "1,,a,,[object Object]"
  /\ to_string (VObj [("toString", VNum 1)])
     = Throws (TypeError "Cannot convert object to primitive value")
  /\ to_string (VArr [VNum 1; VObj [("toString", VNull)]])
     = Throws (TypeError "Cannot convert object to primitive value").
Proof. now repeat split. Qed.

(** [JSON.stringify] on a serialisable value never throws. *)
Lemma JSON_stringify_serialisable (v : value) (space : nat) :
  serialisable v = true ->
  JSON_stringify v space
  = Returns (opt_string (render (spaces (Nat.min space 10)) EmptyString v)).
Proof. unfold JSON_stringify. now intros ->. Qed.

(** What it throws, when it throws, is a [TypeError]. *)
Lemma JSON_stringify_throws (v : value) (space : nat) (e : value) :
  JSON_stringify v space = Throws e ->
  e = TypeError "Do not know how to serialize a BigInt".
Proof.
  unfold JSON_stringify. destruct (serialisable v); [discriminate|].
  now intros [= <-].
Qed.

End JSFacts.

(* ===================================================================== *)
(** ** The registration helpers                                           *)
(* ===================================================================== *)

Module ToolsSpec.
Import JS Tools JSFacts Sample.

(** The callback resolves a client, runs the handler and puts the envelope
    around what comes out. *)
Lemma callback_envelope (name : string) (handler : Handler)
    (g : GlobalThis) (params ctx : value) :
  registerTool_callback name handler g params ctx
  = envelope (handler params (clientInstance g ctx)).
Proof.
  unfold registerTool_callback, envelope, clientInstance, error_report, try_catch, bind.
  destruct (handler params _) as [result | e].
  - destruct (JSON_stringify result 2) as [text | e]; [reflexivity|].
    now destruct (is_Error e).
  - now destruct (is_Error e).
Qed.

(** A thrown [Error] is reported with its message and stack. *)
Lemma envelope_reports_Error (m : string) (st : option string) :
  envelope (Throws (VError m st))
  = Returns (text_content
               (opt_string (render "  " EmptyString
                              (VObj [("error", VStr m); ("stack", opt_string st)])))).
Proof.
  unfold envelope, error_report. cbn [is_Error own String.eqb Ascii.eqb Bool.eqb].
  rewrite JSON_stringify_serialisable; [reflexivity|].
  now destruct st.
Qed.

(** Any other thrown value that can be serialised is reported as the
    details of an unknown error. *)
Lemma envelope_reports_details (e : value) :
  is_Error e = false -> serialisable e = true ->
  envelope (Throws e)
  = Returns (text_content
               (opt_string (render "  " EmptyString
                              (VObj [("error", VStr "Unknown error occurred");
                                     ("details", e)])))).
Proof.
  intros NE S. unfold envelope, error_report. rewrite NE.
  rewrite JSON_stringify_serialisable; [reflexivity|].
  rewrite serialisable_object. cbn. now rewrite S.
Qed.

(** The envelope lets an exception through exactly when the handler threw
    something that is neither an [Error] nor serialisable. *)
Lemma envelope_throws_iff (o : outcome value) :
  (exists e, envelope o = Throws e)
  <-> exists x, o = Throws x /\ is_Error x = false /\ serialisable x = false.
Proof.
  split.
  - intros [e H]. destruct o as [result | x].
    + exfalso. unfold envelope in H.
      destruct (JSON_stringify result 2) as [text | x] eqn:J; [discriminate|].
      apply JSON_stringify_throws in J. subst x.
      vm_compute in H. discriminate.
    + exists x. split; [reflexivity|].
      destruct (is_Error x) eqn:NE.
      * destruct x; try discriminate NE.
        rewrite envelope_reports_Error in H. discriminate.
      * split; [reflexivity|].
        destruct (serialisable x) eqn:S; [|reflexivity].
        rewrite (envelope_reports_details x NE S) in H. discriminate.
  - intros (x & -> & NE & NS). unfold envelope, error_report, JSON_stringify.
    rewrite NE, serialisable_object. cbn [forallb snd serialisable andb].
    rewrite NS. cbn. eauto.
Qed.

(** A handler that throws an [Error] never makes the callback throw. *)
Lemma callback_catches_Error (name : string) (handler : Handler)
    (g : GlobalThis) (params ctx : value) (m : string) (st : option string) :
  handler params (clientInstance g ctx) = Throws (VError m st) ->
  registerTool_callback name handler g params ctx
  = Returns (text_content
               (opt_string (render "  " EmptyString
                              (VObj [("error", VStr m); ("stack", opt_string st)])))).
Proof.
  intros H. now rewrite callback_envelope, H, envelope_reports_Error.
Qed.

(** C1 (the code departs from the claim).  The claim: whenever the inner
    handler throws, the wrapper catches the error and returns one textual
    block with a JSON error object, and no exception ever leaves the wrapped
    callable.  The code: a handler that rejects with a value that is not an
    [Error] and that [JSON.stringify] cannot serialise, here the object
    [{ code: 10n }], sends the catch block into [JSON.stringify], whose
    [TypeError] leaves the callable; nothing is returned. *)
Theorem callback_lets_TypeError_escape :
  forall (name : string) (g : GlobalThis) (params ctx : value),
    registerTool_callback name
      (fun _ _ => Throws (VObj [("code", VBigInt 10)])) g params ctx
    = Throws (TypeError "Do not know how to serialize a BigInt").
Proof. reflexivity. Qed.

(** C6, as stated, at the sample: the text returned for [{"done":true}] is
    not the compact string [{"done":true}]. *)
Lemma x_get_text_is_not_compact :
  callback_of x_server "x_get" no_globals (VObj [("id", VStr "123")]) (VObj [])
  <> Returns (text_content (VStr compact_done)).
Proof. vm_compute. discriminate. Qed.

Lemma JSON_stringify_of_json (j : json) (space : nat) :
  exists s, JSON_stringify (of_json j) space = Returns (VStr s).
Proof.
  rewrite JSON_stringify_serialisable by apply serialisable_of_json.
  destruct j as [| [|] | n | s | l | fs]; cbn [of_json render opt_string]; eauto.
Qed.

(** C6 (amended).  For every handler that returns a value [v] which
    [JSON.stringify] serialises, the wrapped callable returns exactly one
    block of type "text" whose text is [JSON.stringify(v, null, 2)], the
    serialisation of [v] indented by two spaces; every parsed JSON value is
    serialised to a string; and for [x_get] against a provider returning
    [{"done":true}] the text is that object on three lines. *)
Theorem callback_wraps_result :
  (forall (name : string) (handler : Handler) (g : GlobalThis)
          (params ctx v text : value),
      handler params (clientInstance g ctx) = Returns v ->
      JSON_stringify v 2 = Returns text ->
      registerTool_callback name handler g params ctx = Returns (text_content text))
  /\ (forall j : json, exists s, JSON_stringify (of_json j) 2 = Returns (VStr s))
  /\ callback_of x_server "x_get" no_globals (VObj [("id", VStr "123")]) (VObj [])
     = Returns (text_content (VStr pretty_done)).
Proof.
  split; [|split].
  - intros name handler g params ctx v text Hv Ht.
    rewrite callback_envelope, Hv. unfold envelope. now rewrite Ht.
  - intros j. apply JSON_stringify_of_json.
  - reflexivity.
Qed.

Lemma callback_wraps_result_witness :
  registerTool_callback "serp_live" (fun _ _ => Returns (VArr [VNum 1; VNum 2]))
    no_globals (VObj []) (VObj [])
  = Returns (text_content
               (VStr ("[" ++ newline ++ "  1," ++ newline ++ "  2" ++ newline ++ "]"))).
Proof.
  apply (proj1 callback_wraps_result "serp_live"
           (fun _ _ => Returns (VArr [VNum 1; VNum 2]))
           no_globals (VObj []) (VObj []) (VArr [VNum 1; VNum 2])).
  - reflexivity.
  - reflexivity.
Defined.

Lemma append_cancel (a b c : string) : a ++ b = a ++ c -> b = c.
Proof.
  induction a as [|x a IH]; cbn; [trivial|].
  intros H. injection H as H. now apply IH.
Qed.

(** C7.  [registerTaskTool(server, x, ...)] registers exactly three tools,
    named [x_post], [x_ready] and [x_get], three different names: [x_post]
    with the supplied schema and handler; [x_ready] with the empty schema,
    its handler called on the client alone, whatever the parameters;
    [x_get] with the schema [{ id: string }], its handler called on
    [params.id]. *)
Theorem registerTaskTool_registers_three :
  forall (server : McpServer) (baseName : string) (postSchema : Schema)
         (postHandler : Handler) (readyHandler : value -> outcome value)
         (getHandler : value -> value -> outcome value),
  exists post ready fetch : RegisteredTool,
    registerTaskTool server baseName postSchema postHandler readyHandler getHandler
    = (server ++ [post; ready; fetch])%list
    /\ tool_name post = baseName ++ "_post"
    /\ tool_name ready = baseName ++ "_ready"
    /\ tool_name fetch = baseName ++ "_get"
    /\ NoDup [tool_name post; tool_name ready; tool_name fetch]
    /\ tool_schema post = postSchema
    /\ tool_schema ready = []
    /\ tool_schema fetch = [("id", z_string)]
    /\ (forall g params ctx,
          tool_callback post g params ctx
          = envelope (postHandler params (clientInstance g ctx)))
    /\ (forall g params ctx,
          tool_callback ready g params ctx
          = envelope (readyHandler (clientInstance g ctx)))
    /\ (forall g params ctx,
          tool_callback fetch g params ctx
          = envelope (bind (get params "id")
                           (fun id => getHandler id (clientInstance g ctx)))).
Proof.
  intros server baseName postSchema postHandler readyHandler getHandler.
  unfold registerTaskTool, registerTool, server_tool.
  eexists _, _, _. split.
  - rewrite <- !app_assoc. cbn [app]. reflexivity.
  - cbn [tool_name tool_schema tool_callback].
    repeat split; try (intros; apply callback_envelope).
    repeat constructor; cbn [In]; intros H;
      repeat (destruct H as [H | H]; [apply append_cancel in H; discriminate H|]);
      exact H.
Qed.

End ToolsSpec.

(* ===================================================================== *)
(** ** The HTTP/JSON-RPC bridge                                           *)
(* ===================================================================== *)

Module BridgeSpec.
Import JS Tools Bridge JSFacts Sample Notions.

(** *** The process and the response writer *)

Lemma extend_nil (p : Process) : extend [] p = p.
Proof. destruct p. unfold extend. cbn. now rewrite app_nil_r. Qed.

Lemma getMcpServer_initialised (registerAllTools : M unit) (p : Process) :
  initialised p = true -> getMcpServer registerAllTools p = (Returns tt, p).
Proof.
  unfold initialised, getMcpServer. now destruct (mcpServer p).
Qed.

Lemma res_json_ok (code : Z) (payload : value) (p : Process) :
  serialisable payload = true ->
  res_json code payload p = (Returns {| status := code; body := payload |}, p).
Proof.
  intros S. unfold res_json, bindM, lift, retM.
  now rewrite JSON_stringify_serialisable.
Qed.

Lemma res_json_cases (code : Z) (payload : value) (p : Process) :
  res_json code payload p = (Returns {| status := code; body := payload |}, p)
  \/ res_json code payload p
     = (Throws (TypeError "Do not know how to serialize a BigInt"), p).
Proof.
  unfold res_json, bindM, lift, retM, JSON_stringify.
  destruct (serialisable payload); [left | right]; reflexivity.
Qed.

Lemma body_value_of_json (b : Body) : exists j, body_value b = of_json j.
Proof. destruct b; eexists; reflexivity. Qed.

(** The members of a request body are parsed JSON: they serialise. *)
Lemma serialisable_member (b : Body) (k : string) :
  serialisable (own (body_value b) k) = true.
Proof.
  destruct (body_value_of_json b) as [j ->]. apply serialisable_own_of_json.
Qed.

Lemma get_opt_body (b : Body) (k : string) :
  get_opt (body_value b) k = own (body_value b) k.
Proof. now destruct b. Qed.

Lemma serialisable_jsonrpc_error (code : Z) (message id : value) :
  serialisable message = true -> serialisable id = true ->
  serialisable (jsonrpc_error code message id) = true.
Proof.
  intros Hm Hi. unfold jsonrpc_error.
  rewrite !serialisable_object. cbn. now rewrite Hm, Hi.
Qed.

Lemma serialisable_jsonrpc_result (result id : value) :
  serialisable id = true ->
  serialisable (jsonrpc_result result id) = serialisable result.
Proof.
  intros Hi. unfold jsonrpc_result.
  rewrite serialisable_object. cbn. rewrite Hi.
  now destruct (serialisable result).
Qed.

(** *** Malformed envelopes *)




(** *** Nothing but [Error]s reaches the outer catch *)

Lemma get_throws_Error (v : value) (k : string) :
  throws_only_Errors (get v k).
Proof. now destruct v. Qed.

Lemma to_string_throws_Error (v : value) : throws_only_Errors (to_string v).
Proof.
  destruct (to_string v) as [s | e] eqn:E; [exact I|].
  cbn. now rewrite (to_string_throws v e E).
Qed.

Lemma get_message_of_Error (e : value) :
  is_Error e = true ->
  exists m, get e "message" = Returns (VStr m).
Proof. destruct e; try discriminate. intros _. now eexists. Qed.

Lemma bind_throws_only_Errors {A B : Type} (c : outcome A) (k : A -> outcome B) :
  throws_only_Errors c -> (forall a, throws_only_Errors (k a)) ->
  throws_only_Errors (bind c k).
Proof. destruct c as [a | e]; cbn; auto. Qed.

Lemma for_each_throws_only_Errors {A B : Type} (f : A -> outcome B) (l : list A) :
  (forall x, throws_only_Errors (f x)) -> throws_only_Errors (for_each f l).
Proof.
  intros Hf. induction l as [|x r IH]; cbn [for_each]; [exact I|].
  apply bind_throws_only_Errors; [apply Hf|]. intros y.
  apply bind_throws_only_Errors; [exact IH|]. intros r'. exact I.
Qed.

Lemma fix_array_items_throws_only_Errors (prop : value) :
  throws_only_Errors (fix_array_items prop).
Proof.
  unfold fix_array_items.
  apply bind_throws_only_Errors; [apply get_throws_Error|].
  intros t. now destruct (_ && _).
Qed.

Lemma fix_properties_throws_only_Errors (properties : value) :
  throws_only_Errors (fix_properties properties).
Proof.
  destruct properties; try exact I; cbn [fix_properties].
  - apply bind_throws_only_Errors; [|intros; exact I].
    apply for_each_throws_only_Errors, fix_array_items_throws_only_Errors.
  - apply bind_throws_only_Errors; [|intros; exact I].
    apply for_each_throws_only_Errors. intros kp.
    apply bind_throws_only_Errors; [|intros; exact I].
    apply fix_array_items_throws_only_Errors.
Qed.

Lemma translate_schema_throws_only_Errors (fullSchema : value) :
  throws_only_Errors (translate_schema fullSchema).
Proof.
  unfold translate_schema.
  apply bind_throws_only_Errors.
  - unfold inline_ref.
    apply bind_throws_only_Errors; [apply get_throws_Error|]. intros ref.
    destruct (_ && _); [|exact I].
    apply bind_throws_only_Errors; [now destruct ref|]. intros parts.
    destruct (truthy (VStr _)); [|exact I].
    destruct (lookup _ _) as [definition|]; [|exact I].
    now destruct (truthy definition).
  - intros s. unfold default_items. destruct (truthy _); [|exact I].
    apply bind_throws_only_Errors; [|intros; exact I].
    apply fix_properties_throws_only_Errors.
Qed.

Lemma describe_tool_throws_only_Errors
    (zodToJsonSchema : Schema -> string -> value) (tool : ToolEntry) :
  throws_only_Errors (describe_tool zodToJsonSchema tool).
Proof.
  unfold describe_tool.
  apply bind_throws_only_Errors; [|intros; exact I].
  apply translate_schema_throws_only_Errors.
Qed.

Lemma request_failed_returns (req_body : Body) (e : value) (p : Process) :
  is_Error e = true ->
  exists resp,
    request_failed req_body e p = (Returns resp, p)
    /\ status resp = 500%Z
    /\ own (body resp) "jsonrpc" = VStr "2.0"
    /\ own (own (body resp) "error") "code" = VNum (-32603)
    /\ own (own (body resp) "error") "message" = VStr "Internal error"
    /\ own (body resp) "id" = or_else (own (body_value req_body) "id") VNull.
Proof.
  intros He. destruct (get_message_of_Error e He) as [m Hm].
  unfold request_failed, bindM, lift. rewrite Hm, get_opt_body.
  rewrite res_json_ok.
  - eexists. split; [reflexivity|]. now repeat split.
  - rewrite !serialisable_object. cbn.
    rewrite serialisable_or_else; [reflexivity | apply serialisable_member | reflexivity].
Qed.

(** *** The [tools/call] case *)

Lemma call_failed_cases (id e : value) (p : Process) :
  (exists resp,
      call_failed id e p = (Returns resp, p)
      /\ status resp = 500%Z
      /\ body resp = jsonrpc_error (-32603) (own e "message") id)
  \/ (exists x, call_failed id e p = (Throws x, p) /\ is_Error x = true).
Proof.
  unfold call_failed, bindM, lift.
  destruct (get e "message") as [m | x] eqn:G.
  - assert (m = own e "message") as -> by (destruct e; now inversion G).
    destruct (res_json_cases 500 (jsonrpc_error (-32603) (own e "message") id) p)
      as [-> | ->].
    + left. eexists. now repeat split.
    + right. eexists. now split.
  - right. exists x. split; [reflexivity|].
    pose proof (get_throws_Error e "message") as T. now rewrite G in T.
Qed.

(** The lookup comes first, and is recorded. *)
Lemma try_registry_get {A : Type} (key : value) (k : option ToolEntry -> M A)
    (h : value -> M A) (p : Process) :
  try_catchM (bindM (registry_get key) k) h p
  = try_catchM (k (Map_get (toolRegistry p) key)) h (record (RegistryGet key) p).
Proof. reflexivity. Qed.

(** The "Tool not found" answer: the name is printed into the message, and
    when it cannot be printed the inner catch answers instead. *)
Lemma tool_not_found_cases (v id : value) (p : Process) :
  serialisable id = true ->
  (exists s,
      to_string v = Returns s
      /\ try_catchM
           (bindM (lift (to_string v))
              (fun name =>
                 res_json 404
                   (jsonrpc_error (-32601) (VStr ("Tool not found: " ++ name)) id)))
           (call_failed id) p
         = (Returns {| status := 404;
                       body := jsonrpc_error (-32601)
                                 (VStr ("Tool not found: " ++ s)) id |}, p))
  \/ (to_string v = Throws (TypeError "Cannot convert object to primitive value")
      /\ try_catchM
           (bindM (lift (to_string v))
              (fun name =>
                 res_json 404
                   (jsonrpc_error (-32601) (VStr ("Tool not found: " ++ name)) id)))
           (call_failed id) p
         = (Returns {| status := 500;
                       body := jsonrpc_error (-32603)
                                 (VStr "Cannot convert object to primitive value")
                                 id |}, p)).
Proof.
  intros Hid. unfold try_catchM, bindM, lift.
  destruct (to_string v) as [s | e] eqn:E.
  - left. exists s. split; [reflexivity|].
    now rewrite res_json_ok by (now apply serialisable_jsonrpc_error).
  - right. apply to_string_throws in E. subst e. split; [reflexivity|].
    unfold call_failed, bindM, lift. cbn [get TypeError own String.eqb Ascii.eqb Bool.eqb].
    now rewrite res_json_ok by (now apply serialisable_jsonrpc_error).
Qed.

Lemma tools_call_safe (params id : value) (p : Process) :
  serialisable id = true ->
  exists r events,
    tools_call params id p = (r, extend events p)
    /\ throws_only_Errors r
    /\ forall resp, r = Returns resp ->
         own (body resp) "jsonrpc" = VStr "2.0" /\ own (body resp) "id" = id.
Proof.
  intros Hid. unfold tools_call.
  destruct (truthy (get_opt params "name")); cbn [negb].
  - rewrite try_registry_get.
    set (p1 := record (RegistryGet (own params "name")) p).
    assert (NotFound :
      exists r events,
        try_catchM
          (bindM (lift (to_string (own params "name")))
             (fun name =>
                res_json 404
                  (jsonrpc_error (-32601) (VStr ("Tool not found: " ++ name)) id)))
          (call_failed id) p1 = (r, extend events p)
        /\ throws_only_Errors r
        /\ forall resp, r = Returns resp ->
             own (body resp) "jsonrpc" = VStr "2.0" /\ own (body resp) "id" = id).
    { destruct (tool_not_found_cases (own params "name") id p1 Hid)
        as [(s & _ & ->) | (_ & ->)];
        (eexists _, [_]; split; [reflexivity|]; split; [exact I|];
         now intros resp [= <-]). }
    destruct (Map_get (toolRegistry p) (own params "name")) as [entry|];
      [|exact NotFound].
    destruct (handler entry) as [call|]; [|exact NotFound].
    clear NotFound. unfold try_catchM, bindM, lift.
    assert (Failed : forall e,
      exists r events,
        call_failed id e p1 = (r, extend events p)
        /\ throws_only_Errors r
        /\ forall resp, r = Returns resp ->
             own (body resp) "jsonrpc" = VStr "2.0" /\ own (body resp) "id" = id).
    { intros e.
      destruct (call_failed_cases id e p1) as [(resp & -> & _ & B) | (x & -> & X)].
      - eexists _, [_]. split; [reflexivity|]. split; [exact I|].
        intros resp' [= <-]. now rewrite B.
      - eexists _, [_]. split; [reflexivity|]. split; [exact X|]. discriminate. }
    destruct (call _ _) as [result | e]; [|apply Failed].
    destruct (res_json_cases 200 (jsonrpc_result result id) p1) as [-> | ->];
      [|apply Failed].
    eexists _, [_]. split; [reflexivity|]. split; [exact I|].
    now intros resp [= <-].
  - rewrite res_json_ok by (now apply serialisable_jsonrpc_error).
    exists (Returns {| status := 400;
                       body := jsonrpc_error (-32602) (VStr "Missing tool name") id |}), [].
    rewrite extend_nil. split; [reflexivity|]. split; [exact I|].
    now intros resp [= <-].
Qed.

(** The "Method not found" answer: the method is printed into the message,
    and when it cannot be printed the handler throws. *)
Lemma method_not_found_cases (v id : value) (p : Process) :
  serialisable id = true ->
  (exists s,
      to_string v = Returns s
      /\ bindM (lift (to_string v))
           (fun printed =>
              res_json 404
                (jsonrpc_error (-32601) (VStr ("Method not found: " ++ printed)) id)) p
         = (Returns {| status := 404;
                       body := jsonrpc_error (-32601)
                                 (VStr ("Method not found: " ++ s)) id |}, p))
  \/ (to_string v = Throws (TypeError "Cannot convert object to primitive value")
      /\ bindM (lift (to_string v))
           (fun printed =>
              res_json 404
                (jsonrpc_error (-32601) (VStr ("Method not found: " ++ printed)) id)) p
         = (Throws (TypeError "Cannot convert object to primitive value"), p)).
Proof.
  intros Hid. unfold bindM, lift.
  destruct (to_string v) as [s | e] eqn:E.
  - left. exists s. split; [reflexivity|].
    now rewrite res_json_ok by (now apply serialisable_jsonrpc_error).
  - right. apply to_string_throws in E. now subst e.
Qed.

(** *** The whole handler *)

Lemma handle_request_safe
    (zodToJsonSchema : Schema -> string -> value) (registerAllTools : M unit)
    (req_body : Body) (p : Process) :
  initialised p = true ->
  exists r events,
    handle_request zodToJsonSchema registerAllTools req_body p = (r, extend events p)
    /\ throws_only_Errors r
    /\ forall resp, r = Returns resp ->
         own (body resp) "jsonrpc" = VStr "2.0"
         /\ (own (body resp) "id" = own (body_value req_body) "id"
             \/ own (body resp) "id" = or_else (own (body_value req_body) "id") VNull).
Proof.
  intros Hp. unfold handle_request, bindM.
  rewrite (getMcpServer_initialised registerAllTools p Hp).
  pose proof (serialisable_member req_body "id") as Hid.
  set (id := own (body_value req_body) "id") in *.
  destruct (is_string (own (body_value req_body) "jsonrpc") "2.0"); cbn [negb].
  2:{ rewrite res_json_ok.
      - eexists _, []. rewrite extend_nil. split; [reflexivity|]. split; [exact I|].
        intros resp [= <-]. split; [reflexivity | now right].
      - apply serialisable_jsonrpc_error; [reflexivity|].
        now apply serialisable_or_else. }
  destruct (is_string (own (body_value req_body) "method") "initialize").
  { rewrite res_json_ok by (now rewrite serialisable_jsonrpc_result).
    eexists _, []. rewrite extend_nil. split; [reflexivity|]. split; [exact I|].
    intros resp [= <-]. split; [reflexivity | now left]. }
  destruct (is_string (own (body_value req_body) "method") "tools/list").
  { unfold getToolsList.
    pose proof (for_each_throws_only_Errors (describe_tool zodToJsonSchema)
                  (Map_values (toolRegistry p))
                  (describe_tool_throws_only_Errors zodToJsonSchema)) as T.
    destruct (for_each _ _) as [tools | e].
    - destruct (res_json_cases 200 (jsonrpc_result (VObj [("tools", VArr tools)]) id)
                  (record RegistryValues p)) as [-> | ->].
      + eexists _, [_]. split; [reflexivity|]. split; [exact I|].
        intros resp [= <-]. split; [reflexivity | now left].
      + eexists _, [_]. split; [reflexivity|]. split; [reflexivity|]. discriminate.
    - eexists _, [_]. split; [reflexivity|]. split; [exact T|]. discriminate. }
  destruct (is_string (own (body_value req_body) "method") "tools/call").
  { destruct (tools_call_safe (own (body_value req_body) "params") id p Hid)
      as (r & events & -> & T & B).
    exists r, events. split; [reflexivity|]. split; [exact T|].
    intros resp Hr. destruct (B resp Hr) as [B1 B2]. split; [exact B1 | now left]. }
  unfold lift.
  pose proof (to_string_throws_Error (own (body_value req_body) "method")) as T.
  destruct (to_string _) as [s | e].
  - rewrite res_json_ok by (now apply serialisable_jsonrpc_error).
    eexists _, []. rewrite extend_nil. split; [reflexivity|]. split; [exact I|].
    intros resp [= <-]. split; [reflexivity | now left].
  - eexists _, []. rewrite extend_nil. split; [reflexivity|]. split; [exact T|].
    discriminate.
Qed.

(** In an initialised server every request gets a JSON-RPC response: no
    exception leaves the handler, and the process changes by its trace
    only.  The response carries the request's [id], or [id || null]. *)
Lemma post_mcp_responds
    (zodToJsonSchema : Schema -> string -> value) (registerAllTools : M unit)
    (req_body : Body) (p : Process) :
  initialised p = true ->
  exists resp events,
    post_mcp zodToJsonSchema registerAllTools req_body p
    = (Returns resp, extend events p)
    /\ own (body resp) "jsonrpc" = VStr "2.0"
    /\ (own (body resp) "id" = own (body_value req_body) "id"
        \/ own (body resp) "id" = or_else (own (body_value req_body) "id") VNull).
Proof.
  intros Hp. unfold post_mcp, try_catchM.
  destruct (handle_request_safe zodToJsonSchema registerAllTools req_body p Hp)
    as (r & events & -> & T & B).
  destruct r as [resp | e].
  - exists resp, events. split; [reflexivity|]. now apply B.
  - destruct (request_failed_returns req_body e (extend events p) T)
      as (resp & -> & _ & J & _ & _ & Hid).
    exists resp, events. split; [reflexivity|]. split; [exact J | now right].
Qed.

Ltac decide_method :=
  cbn [is_string negb String.eqb Ascii.eqb Bool.eqb].

(** C2, as stated, at three requests naming a tool that is present in the
    request and resolves to nothing in the registry, none of which is
    answered with HTTP 404 and -32601: a server started without credentials
    answers 500 and -32603 from the outer catch; the name [""] is present
    but falsy, and is answered as a missing name, with 400 and -32602; and a
    name that is an object with a [toString] member cannot be printed into
    the message, so that the inner catch answers, with 500 and -32603. *)
Lemma unknown_tool_otherwise_answered :
  (resolve (toolRegistry unconfigured_process) (VStr "x_delete") = None
   /\ exists resp,
        post_mcp sample_converter no_registrations (call_tool "x_delete" (JNum 4))
          unconfigured_process
        = (Returns resp, unconfigured_process)
        /\ status resp = 500%Z
        /\ own (own (body resp) "error") "code" = VNum (-32603))
  /\ (resolve (toolRegistry x_process) (VStr EmptyString) = None
      /\ exists resp,
           post_mcp sample_converter no_registrations
             (call_tool EmptyString (JNum 4)) x_process
           = (Returns resp, x_process)
           /\ status resp = 400%Z
           /\ own (own (body resp) "error") "code" = VNum (-32602))
  /\ (resolve (toolRegistry x_process) (VObj [("toString", VNum 1)]) = None
      /\ exists resp p',
           post_mcp sample_converter no_registrations
             (call_named (JObj [("toString", JNum 1)]) (JNum 4)) x_process
           = (Returns resp, p')
           /\ status resp = 500%Z
           /\ own (own (body resp) "error") "code" = VNum (-32603)).
Proof.
  split; [|split]; (split; [reflexivity|]).
  - eexists. split; [reflexivity|]. split; reflexivity.
  - eexists. split; [reflexivity|]. split; reflexivity.
  - eexists _, _. split; [reflexivity|]. split; reflexivity.
Qed.

(** C2 (amended).  Whenever the [getMcpServer()] call of the handler
    returns, a JSON-RPC 2.0 request with method [tools/call] whose
    [params.name] is truthy (which is how the handler tests that it is
    present), prints in a template literal (as every string does), and
    resolves to no registry entry with a handler, is answered with HTTP 404
    and JSON-RPC error -32601, the message naming the tool, under the
    request's id; the handler returns this response, no exception leaves
    it, and all it did to the process is the one registry lookup. *)
Theorem unknown_tool_not_found :
  forall (zodToJsonSchema : Schema -> string -> value) (registerAllTools : M unit)
         (req_body : Body) (p p1 : Process) (printed : string),
    getMcpServer registerAllTools p = (Returns tt, p1) ->
    own (body_value req_body) "jsonrpc" = VStr "2.0" ->
    own (body_value req_body) "method" = VStr "tools/call" ->
    truthy (get_opt (own (body_value req_body) "params") "name") = true ->
    to_string (own (own (body_value req_body) "params") "name") = Returns printed ->
    resolve (toolRegistry p1) (own (own (body_value req_body) "params") "name") = None ->
    post_mcp zodToJsonSchema registerAllTools req_body p
    = (Returns
         {| status := 404;
            body :=
              jsonrpc_error (-32601) (VStr ("Tool not found: " ++ printed))
                (own (body_value req_body) "id") |},
       record (RegistryGet (own (own (body_value req_body) "params") "name")) p1).
Proof.
  intros conv reg req p p1 printed G Hj Hm Hn Hs Hr.
  unfold post_mcp, try_catchM at 1, handle_request, bindM at 1.
  rewrite G, Hj, Hm. decide_method.
  unfold tools_call. rewrite Hn. cbn [negb].
  rewrite try_registry_get.
  set (name := own (own (body_value req) "params") "name") in *.
  assert (E : try_catchM
                (bindM (lift (to_string name))
                   (fun name =>
                      res_json 404
                        (jsonrpc_error (-32601) (VStr ("Tool not found: " ++ name))
                           (own (body_value req) "id"))))
                (call_failed (own (body_value req) "id"))
                (record (RegistryGet name) p1)
              = (Returns
                   {| status := 404;
                      body := jsonrpc_error (-32601)
                                (VStr ("Tool not found: " ++ printed))
                                (own (body_value req) "id") |},
                 record (RegistryGet name) p1)).
  { destruct (tool_not_found_cases name (own (body_value req) "id")
                (record (RegistryGet name) p1) (serialisable_member req "id"))
      as [(s & S & ->) | (S & _)].
    - rewrite Hs in S. now injection S as <-.
    - rewrite Hs in S. discriminate. }
  unfold resolve in Hr.
  destruct (Map_get (toolRegistry p1) name) as [entry|].
  - rewrite Hr. now rewrite E.
  - now rewrite E.
Qed.

Lemma unknown_tool_not_found_witness :
  post_mcp sample_converter no_registrations (call_tool "x_delete" (JNum 4)) x_process
  = (Returns
       {| status := 404;
          body := jsonrpc_error (-32601) (VStr "Tool not found: x_delete") (VNum 4) |},
     record (RegistryGet (VStr "x_delete")) x_process).
Proof.
  apply (unknown_tool_not_found sample_converter no_registrations
           (call_tool "x_delete" (JNum 4)) x_process x_process "x_delete");
    reflexivity.
Defined.

(** C3.  In an initialised server, a JSON-RPC 2.0 [tools/call] request
    naming a registered tool whose stored handler throws is answered with
    HTTP 500 and a JSON-RPC error object of code -32603; when what was
    thrown is an [Error], the response is the JSON-RPC error carrying that
    error's message and the request's id.  The process is as before but
    for the recorded lookup: the server stays initialised, the registry is
    untouched, and every later request is answered too. *)
Theorem failing_handler_reported :
  forall (zodToJsonSchema : Schema -> string -> value) (registerAllTools : M unit)
         (req_body : Body) (p : Process) (entry : ToolEntry)
         (call : value -> value -> outcome value) (e : value),
    initialised p = true ->
    own (body_value req_body) "jsonrpc" = VStr "2.0" ->
    own (body_value req_body) "method" = VStr "tools/call" ->
    truthy (get_opt (own (body_value req_body) "params") "name") = true ->
    Map_get (toolRegistry p) (own (own (body_value req_body) "params") "name")
    = Some entry ->
    handler entry = Some call ->
    call (or_else (own (own (body_value req_body) "params") "arguments") (VObj []))
         (VObj []) = Throws e ->
    exists (resp : Response) (p' : Process),
      post_mcp zodToJsonSchema registerAllTools req_body p = (Returns resp, p')
      /\ status resp = 500%Z
      /\ own (body resp) "jsonrpc" = VStr "2.0"
      /\ own (own (body resp) "error") "code" = VNum (-32603)
      /\ (forall m st, e = VError m st ->
            body resp
            = jsonrpc_error (-32603) (VStr m) (own (body_value req_body) "id"))
      /\ initialised p' = true
      /\ toolRegistry p' = toolRegistry p
      /\ forall later : Body,
            exists resp' p'',
              post_mcp zodToJsonSchema registerAllTools later p' = (Returns resp', p'').
Proof.
  intros conv reg req p entry call e Hp Hj Hm Hn Hg Hh Hc.
  set (p1 := record (RegistryGet (own (own (body_value req) "params") "name")) p).
  assert (Later : initialised p1 = true /\ toolRegistry p1 = toolRegistry p
                  /\ forall later : Body,
                       exists resp' p'', post_mcp conv reg later p1 = (Returns resp', p'')).
  { split; [exact Hp|]. split; [reflexivity|]. intros later.
    destruct (post_mcp_responds conv reg later p1 Hp) as (resp' & events & -> & _).
    eauto. }
  unfold post_mcp, try_catchM, handle_request, bindM.
  rewrite (getMcpServer_initialised reg p Hp), Hj, Hm. decide_method.
  unfold tools_call. rewrite Hn. cbn [negb].
  unfold try_catchM, bindM, registry_get. rewrite Hg, Hh. unfold lift. rewrite Hc.
  fold p1.
  destruct (call_failed_cases (own (body_value req) "id") e p1)
    as [(resp & E & St & B) | (x & E & X)]; rewrite E.
  - exists resp, p1. split; [reflexivity|]. split; [exact St|]. rewrite B.
    split; [reflexivity|]. split; [reflexivity|]. split; [|exact Later].
    now intros m st ->.
  - destruct (request_failed_returns req x p1 X)
      as (resp & -> & St & J & C & _).
    exists resp, p1. split; [reflexivity|]. split; [exact St|].
    split; [exact J|]. split; [exact C|]. split; [|exact Later].
    intros m st ->. exfalso.
    unfold call_failed, bindM, lift in E. cbn [get own String.eqb Ascii.eqb Bool.eqb] in E.
    rewrite res_json_ok in E; [discriminate|].
    apply serialisable_jsonrpc_error; [reflexivity | apply serialisable_member].
Qed.

Lemma failing_handler_reported_witness :
  exists (resp : Response) (p' : Process),
    post_mcp sample_converter no_registrations (call_tool "boom" (JStr "req-9"))
      failing_process = (Returns resp, p')
    /\ status resp = 500%Z
    /\ body resp = jsonrpc_error (-32603) (VStr "provider unreachable") (VStr "req-9").
Proof.
  destruct (failing_handler_reported sample_converter no_registrations
              (call_tool "boom" (JStr "req-9")) failing_process failing_entry
              (fun _ _ => Throws (Error "provider unreachable"))
              (Error "provider unreachable")
              eq_refl eq_refl eq_refl eq_refl eq_refl eq_refl eq_refl)
    as (resp & p' & E & St & _ & _ & B & _).
  exists resp, p'. split; [exact E|]. split; [exact St|].
  exact (B "provider unreachable" (Some "Error: provider unreachable") eq_refl).
Defined.

(** Whenever the request's id is truthy, the response carries it back
    unchanged, on every branch. *)
Lemma truthy_id_carried_back
    (zodToJsonSchema : Schema -> string -> value) (registerAllTools : M unit)
    (req_body : Body) (p : Process) :
  initialised p = true ->
  truthy (own (body_value req_body) "id") = true ->
  exists resp events,
    post_mcp zodToJsonSchema registerAllTools req_body p
    = (Returns resp, extend events p)
    /\ own (body resp) "id" = own (body_value req_body) "id".
Proof.
  intros Hp T.
  destruct (post_mcp_responds zodToJsonSchema registerAllTools req_body p Hp)
    as (resp & events & E & _ & [H | H]).
  - eauto.
  - exists resp, events. split; [exact E|]. rewrite H. unfold or_else. now rewrite T.
Qed.

(** *** The sample server, end to end *)

(** A call of [x_get] for the finished task: HTTP 200, the provider's
    answer as indented JSON text, the id of the request. *)
Lemma x_get_end_to_end :
  post_mcp sample_converter no_registrations call_x_get x_process
  = (Returns {| status := 200;
                body := jsonrpc_result (text_content (VStr pretty_done)) (VNum 1) |},
     record (RegistryGet (VStr "x_get")) x_process).
Proof. reflexivity. Qed.

(** When it is the handler inside the callback that throws, the stored
    handler returns the error as content, and the answer is a result with
    HTTP 200. *)
Lemma inner_failure_is_a_result :
  exists resp p',
    post_mcp sample_converter no_registrations
      (BodyObject [("jsonrpc", JStr "2.0");
                   ("method", JStr "tools/call");
                   ("params", JObj [("name", JStr "x_get");
                                    ("arguments", JObj [("id", JStr "999")])]);
                   ("id", JNum 2)])
      x_process = (Returns resp, p')
    /\ status resp = 200%Z
    /\ own (body resp) "result"
       = text_content
           (opt_string
              (render "  " EmptyString
                 (VObj [("error", VStr "task not found");
                        ("stack", VStr "Error: task not found")]))).
Proof. eexists _, _. split; [reflexivity|]. split; reflexivity. Qed.

(** Without credentials the server cannot be initialised, and every
    request, well-formed or not, is answered by the outer catch: this is
    why the statements above are about an initialised server. *)
Lemma unconfigured_server_answers_500 (zodToJsonSchema : Schema -> string -> value)
    (registerAllTools : M unit) (req_body : Body) :
  exists resp,
    post_mcp zodToJsonSchema registerAllTools req_body unconfigured_process
    = (Returns resp, unconfigured_process)
    /\ status resp = 500%Z
    /\ own (body resp) "error"
       = VObj [("code", VNum (-32603));
               ("message", VStr "Internal error");
               ("data", VStr "DataForSEO credentials not provided")].
Proof.
  unfold post_mcp, try_catchM, handle_request, bindM. cbn [getMcpServer unconfigured_process mcpServer DATAFORSEO_LOGIN opt_string truthy negb orb].
  destruct (request_failed_returns req_body
              (Error "DataForSEO credentials not provided") unconfigured_process eq_refl)
    as (resp & E & St & _).
  exists resp. split; [exact E|]. split; [exact St|].
  unfold request_failed, bindM, lift in E. cbn [get Error own String.eqb Ascii.eqb Bool.eqb] in E.
  rewrite res_json_ok in E.
  - injection E as <-. reflexivity.
  - rewrite !serialisable_object. cbn. rewrite get_opt_body.
    rewrite serialisable_or_else; [reflexivity | apply serialisable_member | reflexivity].
Qed.

(** C5 (the code departs from the claim).  The claim: every response
    carries the request's id unchanged, or null when there was none, on
    every branch.  The code: the branches that answer with the bare [id]
    (here [initialize]) drop the member altogether when the request had no
    id, so the response goes out without any id; and the branches that
    answer with [id || null] (here the -32600 rejection) turn the ids 0 and
    the empty string into null. *)
Theorem id_not_carried_back :
  forall (zodToJsonSchema : Schema -> string -> value) (registerAllTools : M unit),
    (exists resp,
        post_mcp zodToJsonSchema registerAllTools initialize_without_id x_process
        = (Returns resp, x_process)
        /\ status resp = 200%Z
        /\ own (body resp) "id" = VUndefined
        /\ wire resp
           = JSON_stringify
               (VObj [("jsonrpc", VStr "2.0"); ("result", initialize_result)]) 0)
    /\ (exists resp,
          post_mcp zodToJsonSchema registerAllTools (old_version (JNum 0)) x_process
          = (Returns resp, x_process)
          /\ status resp = 400%Z
          /\ own (body resp) "id" = VNull)
    /\ (exists resp,
          post_mcp zodToJsonSchema registerAllTools (old_version (JStr EmptyString))
            x_process
          = (Returns resp, x_process)
          /\ status resp = 400%Z
          /\ own (body resp) "id" = VNull).
Proof.
  intros conv reg. split; [|split].
  - eexists. split; [reflexivity|]. now repeat split.
  - eexists. split; [reflexivity|]. now repeat split.
  - eexists. split; [reflexivity|]. now repeat split.
Qed.

(** *** The two listings *)

Lemma request_failed_lists_nothing (req_body : Body) (e : value) (p : Process) :
  listed_tools (fst (request_failed req_body e p)) = None.
Proof.
  unfold request_failed, bindM, lift.
  destruct (get e "message") as [m | x]; [|reflexivity].
  match goal with
  | |- context [res_json ?c ?payload p] =>
      destruct (res_json_cases c payload p) as [-> | ->]; reflexivity
  end.
Qed.

Lemma listing_failed_lists_nothing (e : value) (p : Process) :
  listed_tools (fst (listing_failed e p)) = None.
Proof.
  unfold listing_failed, bindM, lift.
  destruct (get e "message") as [m | x]; [|reflexivity].
  match goal with
  | |- context [res_json ?c ?payload p] =>
      destruct (res_json_cases c payload p) as [-> | ->]; reflexivity
  end.
Qed.

Lemma for_each_Forall2 {A B : Type} (f : A -> outcome B) (l : list A) (l' : list B) :
  for_each f l = Returns l' -> Forall2 (fun x y => f x = Returns y) l l'.
Proof.
  revert l'. induction l as [|x r IH]; cbn [for_each]; intros l' H.
  - injection H as <-. constructor.
  - destruct (f x) as [y|] eqn:Fx; [|discriminate]. cbn [bind] in H.
    destruct (for_each f r) as [r'|]; [|discriminate]. cbn [bind ret] in H.
    injection H as <-. constructor; [exact Fx | now apply IH].
Qed.

Lemma non_null_assign (o : value) (k : string) (v : value) :
  non_null (assign o k v) = non_null o.
Proof. now destruct o. Qed.

Lemma non_null_remove (o : value) (k : string) :
  non_null (remove o k) = non_null o.
Proof. now destruct o. Qed.

Lemma translate_schema_non_null (fullSchema out : value) :
  translate_schema fullSchema = Returns out -> non_null out = true.
Proof.
  unfold translate_schema. destruct (inline_ref fullSchema) as [s|] eqn:I; [|discriminate].
  cbn [bind]. intros D.
  assert (Hs : non_null s = true).
  { unfold inline_ref in I. destruct (get fullSchema "$ref") as [ref|] eqn:G; [|discriminate].
    assert (Hf : non_null fullSchema = true) by (now destruct fullSchema).
    cbn [bind] in I. destruct (_ && _); [|now injection I as <-].
    destruct (ref_split ref) as [parts|]; [|discriminate]. cbn [bind] in I.
    destruct (truthy (VStr _)); [|now injection I as <-].
    destruct (lookup _ _) as [definition|]; [|now injection I as <-].
    destruct (truthy definition); now injection I as <-. }
  assert (Hstrip : non_null (strip_ref s) = true).
  { unfold strip_ref.
    repeat (destruct (truthy _); rewrite ?non_null_remove); exact Hs. }
  unfold default_items in D. destruct (truthy _).
  - destruct (fix_properties _) as [props|]; [|discriminate]. cbn [bind ret] in D.
    injection D as <-. now rewrite non_null_assign.
  - now injection D as <-.
Qed.

(** What [describe_tool] returns for a tool: its name, and an input schema
    that is neither null nor undefined. *)
Lemma describe_tool_returns
    (zodToJsonSchema : Schema -> string -> value) (tool : ToolEntry) (d : value) :
  describe_tool zodToJsonSchema tool = Returns d ->
  own d "name" = VStr (name tool) /\ non_null (own d "inputSchema") = true.
Proof.
  unfold describe_tool.
  destruct (translate_schema _) as [out|] eqn:T; [|discriminate].
  cbn [bind ret]. intros [= <-]. split; [reflexivity|].
  exact (translate_schema_non_null _ _ T).
Qed.

Lemma getToolsList_returns
    (zodToJsonSchema : Schema -> string -> value) (p : Process) (tools : list value) :
  fst (getToolsList zodToJsonSchema p) = Returns tools ->
  Forall (fun t => non_null (own t "inputSchema") = true) tools
  /\ map (fun t => own t "name") tools
     = map (fun t => VStr (name t)) (Map_values (toolRegistry p)).
Proof.
  unfold getToolsList. cbn [fst]. intros H. apply for_each_Forall2 in H.
  induction H as [|tool d r r' Hd _ IH]; [split; [constructor | reflexivity]|].
  destruct (describe_tool_returns _ _ _ Hd) as [Hn Hs]. destruct IH as [IH1 IH2].
  split; [now constructor|]. cbn [map]. now rewrite Hn, IH2.
Qed.

(** What either endpoint lists is what [getToolsList] returned, in the
    process as [getMcpServer] left it. *)
Lemma endpoints_send_getToolsList
    (zodToJsonSchema : Schema -> string -> value) (registerAllTools : M unit)
    (req_body : Body) (p : Process) (tools : list value) :
  own (body_value req_body) "jsonrpc" = VStr "2.0" ->
  own (body_value req_body) "method" = VStr "tools/list" ->
  listed_tools (fst (post_mcp zodToJsonSchema registerAllTools req_body p)) = Some tools
  \/ listed_tools (fst (get_tools zodToJsonSchema registerAllTools p)) = Some tools ->
  fst (getToolsList zodToJsonSchema (snd (getMcpServer registerAllTools p)))
  = Returns tools.
Proof.
  intros Hj Hm.
  unfold post_mcp, get_tools, try_catchM, handle_request, bindM.
  destruct (getMcpServer registerAllTools p) as [[[] | e] p1]; cbn [snd].
  2:{ rewrite request_failed_lists_nothing, listing_failed_lists_nothing.
      intros [H | H]; discriminate H. }
  rewrite Hj, Hm. decide_method.
  unfold getToolsList. cbn [fst].
  destruct (for_each _ _) as [listing | e].
  2:{ rewrite request_failed_lists_nothing, listing_failed_lists_nothing.
      intros [H | H]; discriminate H. }
  unfold res_json, bindM, lift, retM, JSON_stringify.
  rewrite serialisable_jsonrpc_result by apply serialisable_member.
  rewrite !serialisable_object. cbn [forallb snd serialisable andb].
  rewrite !andb_true_r.
  destruct (forallb serialisable listing).
  - cbn. now intros [[= <-] | [= <-]].
  - rewrite request_failed_lists_nothing, listing_failed_lists_nothing.
    intros [H | H]; discriminate H.
Qed.

(** The sample server lists its three tools on both endpoints. *)
Lemma sample_listing :
  listed_names (fst (get_tools sample_converter no_registrations x_process))
  = [VStr "x_post"; VStr "x_ready"; VStr "x_get"].
Proof. reflexivity. Qed.

(** *** The schema translation *)

(** Only an object can have a [type] that is the string "array", or a
    truthy [properties]. *)
Lemma own_type_array_is_object (prop : value) :
  own prop "type" = VStr "array" -> is_object prop = true.
Proof. destruct prop; cbn; try discriminate; reflexivity. Qed.

Lemma truthy_properties_is_object (s : value) :
  truthy (own s "properties") = true -> is_object s = true.
Proof. destruct s; cbn; try discriminate; reflexivity. Qed.

Lemma with_default_items_non_object (x : value) :
  is_object x = false -> with_default_items x = x.
Proof.
  intros N. unfold with_default_items.
  destruct (is_string (own x "type") "array") eqn:Ty; [|reflexivity].
  apply is_string_true, own_type_array_is_object in Ty. congruence.
Qed.

(** What the loop body does to a property schema: if it is of type "array"
    afterwards it has items, and if it was of type "array" without items it
    has the default ones. *)
Lemma with_default_items_spec (prop : value) :
  (own (with_default_items prop) "type" = VStr "array" ->
   truthy (own (with_default_items prop) "items") = true)
  /\ (own prop "type" = VStr "array" -> truthy (own prop "items") = false ->
      own (with_default_items prop) "items" = string_items).
Proof.
  unfold with_default_items.
  destruct (is_string (own prop "type") "array") eqn:Ty; cbn [andb].
  - pose proof Ty as O. apply is_string_true, own_type_array_is_object in O.
    destruct prop as [| | | | | | | fs |]; try discriminate. clear O.
    destruct (truthy (own (VObj fs) "items")) eqn:It; cbn [negb].
    + split; [trivial | discriminate].
    + cbn [assign own]. rewrite assoc_set_same. split; reflexivity.
  - split; intros E; rewrite E in Ty; discriminate.
Qed.

Lemma fix_array_items_returns (prop prop' : value) :
  fix_array_items prop = Returns prop' -> prop' = with_default_items prop.
Proof.
  unfold fix_array_items, with_default_items.
  destruct (get prop "type") as [t|] eqn:G; [|discriminate].
  assert (t = own prop "type") as -> by (destruct prop; now inversion G).
  cbn [bind]. destruct (_ && _); now intros [= <-].
Qed.

Lemma fix_array_items_object (prop : value) :
  is_object prop = true -> fix_array_items prop = Returns (with_default_items prop).
Proof.
  destruct prop; try discriminate. intros _.
  unfold fix_array_items, with_default_items. cbn [get bind].
  now destruct (_ && _).
Qed.

(** A member of a value that is neither an object nor an array is never an
    object. *)
Lemma own_of_scalar (v : value) (k : string) :
  is_object v = false -> (forall l, v <> VArr l) -> is_object (own v k) = false.
Proof.
  intros NO NA. destruct v; try reflexivity; try discriminate NO.
  - cbn [own]. destruct (String.eqb k "length"); [reflexivity|].
    unfold at_index, chars. destruct (index_of_key k) as [i|]; [|reflexivity].
    rewrite nth_error_map. now destruct (nth_error _ i).
  - now contradiction (NA items).
  - cbn [own]. destruct (String.eqb k "message"); [reflexivity|].
    destruct (String.eqb k "stack"); [now destruct stack | reflexivity].
Qed.

(** When the loop returns, each member of [properties] is what it was, put
    through the loop body. *)
Lemma fix_properties_returns (properties properties' : value) (k : string) :
  fix_properties properties = Returns properties' ->
  own properties' k = with_default_items (own properties k).
Proof.
  destruct properties as [| | | | | | l | ps |];
    try (intros [= <-]; symmetry; apply with_default_items_non_object;
         apply own_of_scalar; [reflexivity | discriminate]).
  - cbn [fix_properties].
    destruct (for_each fix_array_items l) as [l'|] eqn:F; [|discriminate].
    cbn [bind ret]. intros [= <-]. apply for_each_Forall2 in F.
    cbn [own]. rewrite (Forall2_length F).
    destruct (String.eqb k "length"); [reflexivity|].
    unfold at_index. destruct (index_of_key k) as [i|]; [|reflexivity].
    clear k. revert i. induction F as [|x y r r' Hxy _ IH]; intros [|i]; cbn;
      try reflexivity.
    + now apply fix_array_items_returns in Hxy.
    + apply IH.
  - cbn [fix_properties].
    destruct (for_each _ ps) as [ps'|] eqn:F; [|discriminate].
    cbn [bind ret]. intros [= <-]. apply for_each_Forall2 in F.
    cbn [own]. induction F as [|[k1 x] [k2 y] r r' Hxy _ IH]; [reflexivity|].
    cbn [fst snd] in Hxy.
    destruct (fix_array_items x) as [x'|] eqn:Fx; [|discriminate].
    cbn [bind ret] in Hxy. injection Hxy as <- <-.
    cbn [assoc]. destruct (String.eqb k k1); [|exact IH].
    cbn [from_option]. now apply fix_array_items_returns.
Qed.

Lemma own_of_falsy (x : value) (k : string) :
  truthy x = false -> is_object (own x k) = false.
Proof.
  intros F. destruct x; try reflexivity; try discriminate.
  destruct s; [|discriminate]. cbn [own].
  destruct (String.eqb k "length"); [reflexivity|].
  unfold at_index. destruct (index_of_key k) as [[|i]|]; reflexivity.
Qed.

Lemma default_items_returns (s out : value) (k : string) :
  default_items s = Returns out ->
  own (own out "properties") k = with_default_items (own (own s "properties") k).
Proof.
  unfold default_items. destruct (truthy (own s "properties")) eqn:T.
  - destruct (fix_properties _) as [props|] eqn:F; [|discriminate].
    cbn [bind ret]. intros [= <-].
    apply truthy_properties_is_object in T.
    destruct s as [| | | | | | | fs |]; try discriminate.
    cbn [assign own]. rewrite assoc_set_same. cbn [from_option].
    exact (fix_properties_returns _ _ k F).
  - intros [= <-]. symmetry. apply with_default_items_non_object.
    now apply own_of_falsy.
Qed.

Lemma own_remove_other (o : value) (k k' : string) :
  k' <> k -> own (remove o k) k' = own o k'.
Proof.
  intros N. destruct o; try reflexivity. cbn [remove own].
  now rewrite assoc_delete_other.
Qed.

Lemma own_strip_ref_properties (s : value) :
  own (strip_ref s) "properties" = own s "properties".
Proof.
  unfold strip_ref.
  repeat (destruct (truthy _); rewrite ?own_remove_other by discriminate);
    reflexivity.
Qed.

(** The translation, when it returns: the source is the schema the first
    step settled on, and the properties of the result are those of the
    source put through the loop body. *)
Lemma translate_schema_returns (fullSchema out : value) :
  translate_schema fullSchema = Returns out ->
  exists source,
    inline_ref fullSchema = Returns source
    /\ forall k,
         own (own out "properties") k
         = with_default_items (own (own source "properties") k).
Proof.
  unfold translate_schema.
  destruct (inline_ref fullSchema) as [source|]; [|discriminate].
  cbn [bind]. intros D. exists source. split; [reflexivity|]. intros k.
  rewrite (default_items_returns _ _ k D). now rewrite own_strip_ref_properties.
Qed.

Lemma describe_tool_inverts
    (zodToJsonSchema : Schema -> string -> value) (tool : ToolEntry) (d : value) :
  describe_tool zodToJsonSchema tool = Returns d ->
  exists out,
    translate_schema (zodToJsonSchema (inputSchema tool) (name tool)) = Returns out
    /\ d = VObj [("name", VStr (name tool));
                 ("description",
                  or_else (opt_string (description tool))
                          (VStr ("DataForSEO API tool: " ++ name tool)));
                 ("inputSchema", out)].
Proof.
  unfold describe_tool. destruct (translate_schema _) as [out|]; [|discriminate].
  cbn [bind ret]. intros [= <-]. now exists out.
Qed.

(** *** Schema documents are translated without a throw *)

Lemma object_schema_properties (s : value) :
  object_schema s = true ->
  is_object s = true
  /\ (own s "properties" = VUndefined
      \/ exists ps, own s "properties" = VObj ps
                    /\ forallb (fun kp => is_object (snd kp)) ps = true).
Proof.
  destruct s as [| | | | | | | fs |]; try discriminate. cbn [object_schema own].
  destruct (assoc "properties" fs) as [[| | | | | | | ps |]|]; try discriminate.
  - intros H. split; [reflexivity|]. right. now exists ps.
  - intros _. split; [reflexivity|]. now left.
Qed.

Lemma fix_properties_object (ps : list (string * value)) :
  forallb (fun kp => is_object (snd kp)) ps = true ->
  exists props, fix_properties (VObj ps) = Returns props.
Proof.
  intros H. cbn [fix_properties].
  assert (E : exists ps',
             for_each (fun kp => bind (fix_array_items (snd kp))
                                      (fun p' => ret (fst kp, p'))) ps
             = Returns ps').
  { induction ps as [|[k x] r IH]; [now exists []|].
    cbn [forallb snd] in H. apply andb_prop in H as [Hx Hr].
    destruct (IH Hr) as [r' Er].
    cbn [for_each snd fst]. rewrite (fix_array_items_object x Hx). cbn [bind ret].
    rewrite Er. cbn [bind ret]. eauto. }
  destruct E as [ps' ->]. cbn [bind ret]. eauto.
Qed.

Lemma default_items_total (s : value) :
  (own s "properties" = VUndefined
   \/ exists ps, own s "properties" = VObj ps
                 /\ forallb (fun kp => is_object (snd kp)) ps = true) ->
  exists out, default_items s = Returns out.
Proof.
  intros [U | (ps & P & A)]; unfold default_items.
  - rewrite U. cbn [truthy]. eauto.
  - rewrite P. cbn [truthy]. destruct (fix_properties_object ps A) as [props ->].
    cbn [bind ret]. eauto.
Qed.

Lemma assoc_forallb {A : Type} (f : A -> bool) (k : string) (l : list (string * A)) (a : A) :
  forallb (fun kx => f (snd kx)) l = true -> assoc k l = Some a -> f a = true.
Proof.
  induction l as [|[k' y] r IH]; [discriminate|].
  cbn [forallb snd assoc]. intros H K. apply andb_prop in H as [Hy Hr].
  destruct (String.eqb k k'); [now injection K as <- | now apply IH].
Qed.

Lemma inline_ref_document (fullSchema : value) :
  schema_document fullSchema = true ->
  exists source, inline_ref fullSchema = Returns source /\ object_schema source = true.
Proof.
  unfold schema_document. intros H.
  apply andb_prop in H as [H Hd]. apply andb_prop in H as [Ho Hr].
  assert (G : get fullSchema "$ref" = Returns (own fullSchema "$ref"))
    by (destruct fullSchema; try discriminate; reflexivity).
  unfold inline_ref. rewrite G. cbn [bind].
  destruct (truthy (own fullSchema "$ref") && truthy (own fullSchema "definitions")) eqn:C;
    [|now exists fullSchema].
  apply andb_prop in C as [C1 C2].
  destruct (own fullSchema "$ref") as [| | | | | r | | |]; try discriminate.
  cbn [ref_split bind].
  destruct (own fullSchema "definitions") as [| | | | | | | ds |]; try discriminate.
  destruct (truthy (VStr (last _ _))); [|now exists fullSchema].
  rewrite lookup_object.
  destruct (assoc _ ds) as [d|] eqn:K.
  - pose proof (assoc_forallb object_schema _ ds d Hd K) as Od.
    destruct d as [| | | | | | | dfs |]; try discriminate.
    exists (VObj dfs). split; [reflexivity | exact Od].
  - destruct (existsb _ _); [now exists (VObj []) | now exists fullSchema].
Qed.

Lemma translate_schema_document (fullSchema : value) :
  schema_document fullSchema = true ->
  exists out, translate_schema fullSchema = Returns out.
Proof.
  intros H. destruct (inline_ref_document fullSchema H) as (source & I & O).
  destruct (object_schema_properties source O) as [_ P].
  rewrite <- own_strip_ref_properties in P.
  destruct (default_items_total (strip_ref source) P) as [out D].
  exists out. unfold translate_schema. now rewrite I.
Qed.

Lemma for_each_total {A B : Type} (f : A -> outcome B) (l : list A) :
  (forall x, In x l -> exists y, f x = Returns y) ->
  exists l', for_each f l = Returns l'.
Proof.
  induction l as [|x r IH]; intros H.
  - now exists [].
  - destruct (H x (or_introl eq_refl)) as (y & Fy).
    destruct IH as (r' & Fr); [intros z Hz; apply H; now right|].
    exists (y :: r'). cbn [for_each]. now rewrite Fy, Fr.
Qed.

(** With a converter that yields schema documents, the listing is returned. *)
Lemma getToolsList_total
    (zodToJsonSchema : Schema -> string -> value) (p : Process) :
  (forall tool, In tool (Map_values (toolRegistry p)) ->
     schema_document (zodToJsonSchema (inputSchema tool) (name tool)) = true) ->
  exists tools, fst (getToolsList zodToJsonSchema p) = Returns tools.
Proof.
  intros W. unfold getToolsList. cbn [fst].
  apply for_each_total. intros tool Ht.
  destruct (translate_schema_document _ (W tool Ht)) as (out & T).
  unfold describe_tool. rewrite T. cbn [bind ret]. eauto.
Qed.

(** What the first step settles on, for a document whose [$ref] is a
    string and whose [definitions] is an object. *)
Lemma inline_ref_resolves (fullSchema : value) (r : string)
    (ds : list (string * value)) :
  own fullSchema "$ref" = VStr r ->
  own fullSchema "definitions" = VObj ds ->
  inline_ref fullSchema
  = if negb (is_empty r)
    then if negb (is_empty (last (split "/" r) EmptyString))
         then match assoc (last (split "/" r) EmptyString) ds with
              | Some d =>
                  if truthy d then Returns (VObj (enumerable d))
                  else Returns fullSchema
              | None =>
                  if existsb (String.eqb (last (split "/" r) EmptyString))
                       Object_prototype
                  then Returns (VObj [])
                  else Returns fullSchema
              end
         else Returns fullSchema
    else Returns fullSchema.
Proof.
  intros Hr Hd.
  assert (G : get fullSchema "$ref" = Returns (VStr r)).
  { destruct fullSchema; try (cbn in Hr; discriminate Hr); cbn [get]; now rewrite Hr. }
  unfold inline_ref. rewrite G. cbn [bind]. rewrite Hd.
  cbn [truthy andb ref_split bind ret]. rewrite andb_true_r.
  destruct (negb (is_empty r)); [|reflexivity].
  destruct (negb (is_empty (last (split "/" r) EmptyString))); [|reflexivity].
  rewrite lookup_object.
  destruct (assoc _ ds) as [d|]; [reflexivity|]. now destruct (existsb _ _).
Qed.

(** The properties of a listed schema are those of the definition the
    document's [$ref] names, each put through the loop body: a property of
    type "array" has items afterwards, the default ones where the
    definition gave none, and nothing else of it has changed. *)
Lemma top_level_arrays_have_items
    (zodToJsonSchema : Schema -> string -> value) (p : Process) (tools : list value) :
  fst (getToolsList zodToJsonSchema p) = Returns tools ->
  Forall2
    (fun tool listed =>
       forall (r : string) (ds d : list (string * value)),
         own (zodToJsonSchema (inputSchema tool) (name tool)) "$ref" = VStr r ->
         own (zodToJsonSchema (inputSchema tool) (name tool)) "definitions" = VObj ds ->
         r <> EmptyString ->
         last (split "/" r) EmptyString <> EmptyString ->
         assoc (last (split "/" r) EmptyString) ds = Some (VObj d) ->
         forall k,
           let before := own (own (VObj d) "properties") k in
           let after := own (own (own listed "inputSchema") "properties") k in
           (own after "type" = VStr "array" -> truthy (own after "items") = true)
           /\ (own before "type" = VStr "array" ->
               truthy (own before "items") = false ->
               own after "items" = string_items)
           /\ after = with_default_items before)
    (Map_values (toolRegistry p)) tools.
Proof.
  intros H. unfold getToolsList in H. cbn [fst] in H.
  apply for_each_Forall2 in H.
  induction H as [|tool listed r0 r' Hd _ IH]; constructor; [|exact IH].
  intros r ds d Hr Hds N1 N2 A k.
  destruct (describe_tool_inverts zodToJsonSchema tool listed Hd) as (out & T & ->).
  destruct (translate_schema_returns _ _ T) as (source & I & K).
  rewrite (inline_ref_resolves _ r ds Hr Hds), A in I.
  destruct r; [now contradiction N1|].
  destruct (last _ _); [now contradiction N2|].
  cbn [is_empty negb truthy enumerable] in I. injection I as <-.
  cbn zeta. change (own (VObj _) "inputSchema") with out.
  rewrite (K k). split; [|split; [|reflexivity]]; apply with_default_items_spec.
Qed.

(** C8 (the code departs from the claim).  The claim: every property of
    type "array" in a tool's translated schema has an items sub-schema,
    [{ type: "string" }] where the source gave none.  The code: the loop
    visits the members of the schema's own [properties] and nothing below
    them, so an array declared inside an object property is sent as the
    converter produced it, without items, by [tools/list] and by
    [GET /tools] alike.  Here the tool [search] is registered with the
    schema [{ filters: z.object({ tags: z.array(z.any()) }) }]. *)
Theorem nested_array_without_items :
  forall registerAllTools : M unit,
  exists tools listed,
    fst (get_tools sample_converter registerAllTools search_process)
    = Returns {| status := 200;
                 body := VObj [("jsonrpc", VStr "2.0");
                               ("result", VObj [("tools", VArr tools)])] |}
    /\ listed_tools
         (fst (post_mcp sample_converter registerAllTools (list_tools (JNum 1))
                 search_process))
       = Some tools
    /\ tools = [listed]
    /\ own listed "name" = VStr "search"
    /\ own (own (own (own listed "inputSchema") "properties") "filters") "type"
       = VStr "object"
    /\ own (own (own (own (own listed "inputSchema") "properties") "filters")
                "properties") "tags"
       = VObj [("type", VStr "array")].
Proof.
  intros reg. eexists _, _. split; [reflexivity|]. split; [reflexivity|].
  split; [reflexivity|]. now repeat split.
Qed.

(** The sample: [tags] was declared as an array of anything, and is listed
    with string items. *)
Lemma sample_tags_get_string_items :
  exists tools first,
    fst (getToolsList sample_converter x_process) = Returns tools
    /\ nth_error tools 0 = Some first
    /\ own (own (own first "inputSchema") "properties") "tags"
       = VObj [("type", VStr "array"); ("items", string_items)].
Proof. eexists _, _. split; [reflexivity|]. split; reflexivity. Qed.



(** *** What is listed can be sent *)

Lemma serialisable_assoc (k : string) (fs : list (string * value)) :
  serialisable (VObj fs) = true -> serialisable (from_option (assoc k fs)) = true.
Proof.
  rewrite serialisable_object.
  induction fs as [|[k' x] r IH]; cbn [forallb snd assoc]; [reflexivity|].
  intros H. apply andb_prop in H as [Hx Hr].
  destruct (String.eqb k k'); [exact Hx | now apply IH].
Qed.

Lemma serialisable_nth (l : list value) (i : nat) :
  forallb serialisable l = true ->
  serialisable (from_option (nth_error l i)) = true.
Proof.
  revert i. induction l as [|x r IH]; intros [|i]; cbn; try reflexivity;
    intros H; apply andb_prop in H as [Hx Hr]; [exact Hx | now apply IH].
Qed.

Lemma serialisable_chars (s : string) : forallb serialisable (chars s) = true.
Proof.
  unfold chars. induction (list_ascii_of_string s) as [|c r IH]; [reflexivity|].
  exact IH.
Qed.

Lemma serialisable_at_index (k : string) (l : list value) :
  forallb serialisable l = true ->
  serialisable (from_option (at_index k l)) = true.
Proof.
  intros H. unfold at_index. destruct (index_of_key k) as [i|]; [|reflexivity].
  now apply serialisable_nth.
Qed.

(** A member of a serialisable value is serialisable. *)
Lemma serialisable_own (v : value) (k : string) :
  serialisable v = true -> serialisable (own v k) = true.
Proof.
  destruct v as [| | b | n | n | s | l | fs | m st]; try reflexivity.
  - intros _. cbn [own]. destruct (String.eqb k "length"); [reflexivity|].
    apply serialisable_at_index, serialisable_chars.
  - intros H. cbn [own]. destruct (String.eqb k "length"); [reflexivity|].
    now apply serialisable_at_index.
  - apply serialisable_assoc.
  - intros _. cbn [own]. destruct (String.eqb k "message"); [reflexivity|].
    destruct (String.eqb k "stack"); [now destruct st | reflexivity].
Qed.

Lemma serialisable_indexed (l : list value) :
  forallb serialisable l = true ->
  forallb (fun kx => serialisable (snd kx)) (indexed l) = true.
Proof.
  unfold indexed. generalize (map (fun i => decimal (Z.of_nat i)) (seq 0 (length l))).
  induction l as [|x r IH]; intros [|k ks] H; try reflexivity.
  cbn [forallb] in H. apply andb_prop in H as [Hx Hr].
  cbn [combine forallb snd]. now rewrite Hx, IH.
Qed.

(** So is the copy of its own enumerable properties. *)
Lemma serialisable_enumerable (v : value) :
  serialisable v = true -> serialisable (VObj (enumerable v)) = true.
Proof.
  destruct v as [| | b | n | n | s | l | fs | m st]; try reflexivity.
  - intros _. rewrite serialisable_object. cbn [enumerable].
    apply serialisable_indexed, serialisable_chars.
  - intros H. rewrite serialisable_object. cbn [enumerable].
    now apply serialisable_indexed.
  - trivial.
Qed.

Lemma serialisable_remove (o : value) (k : string) :
  serialisable o = true -> serialisable (remove o k) = true.
Proof.
  destruct o as [| | | | | | | fs |]; try (intros H; exact H).
  cbn [remove]. rewrite !serialisable_object. unfold delete.
  induction fs as [|[k' x] r IH]; [reflexivity|].
  cbn [forallb snd filter fst]. intros H. apply andb_prop in H as [Hx Hr].
  destruct (negb (String.eqb k' k)); [|now apply IH].
  cbn [forallb snd]. now rewrite Hx, IH.
Qed.

Lemma serialisable_assign (o : value) (k : string) (v : value) :
  serialisable o = true -> serialisable v = true ->
  serialisable (assign o k v) = true.
Proof.
  destruct o as [| | | | | | | fs |]; try (intros H _; exact H).
  cbn [assign]. rewrite !serialisable_object. intros H Hv.
  induction fs as [|[k' x] r IH]; cbn [set forallb snd].
  - now rewrite Hv.
  - cbn [forallb snd] in H. apply andb_prop in H as [Hx Hr].
    destruct (String.eqb k k'); cbn [forallb snd].
    + now rewrite Hv, Hr.
    + now rewrite Hx, IH.
Qed.

Lemma serialisable_with_default_items (prop : value) :
  serialisable prop = true -> serialisable (with_default_items prop) = true.
Proof.
  intros H. unfold with_default_items. destruct (_ && _); [|exact H].
  now apply serialisable_assign.
Qed.

Lemma for_each_forallb {A B : Type} (f : A -> outcome B) (P : A -> bool) (Q : B -> bool)
    (l : list A) (l' : list B) :
  (forall x y, f x = Returns y -> P x = true -> Q y = true) ->
  for_each f l = Returns l' -> forallb P l = true -> forallb Q l' = true.
Proof.
  intros Hf H. apply for_each_Forall2 in H.
  induction H as [|x y r r' Hxy _ IH]; [reflexivity|].
  cbn [forallb]. intros HP. apply andb_prop in HP as [Hx Hr].
  now rewrite (Hf x y Hxy Hx), IH.
Qed.

Lemma serialisable_fix_properties (properties properties' : value) :
  fix_properties properties = Returns properties' ->
  serialisable properties = true -> serialisable properties' = true.
Proof.
  destruct properties as [| | | | | | l | ps |];
    try (now intros [= <-]); cbn [fix_properties].
  - destruct (for_each fix_array_items l) as [l'|] eqn:F; [|discriminate].
    cbn [bind ret]. intros [= <-]. cbn [serialisable].
    apply (for_each_forallb _ _ _ _ _ (fun x y Hxy Hx =>
             eq_ind_r (fun y => serialisable y = true)
                      (serialisable_with_default_items x Hx)
                      (fix_array_items_returns x y Hxy)) F).
  - destruct (for_each _ ps) as [ps'|] eqn:F; [|discriminate].
    cbn [bind ret]. intros [= <-]. rewrite !serialisable_object.
    apply (for_each_forallb _ _ _ _ _) with (2 := F).
    intros [k x] [k' y] Hxy Hx. cbn [fst snd] in *.
    destruct (fix_array_items x) as [x'|] eqn:Fx; [|discriminate].
    cbn [bind ret] in Hxy. injection Hxy as <- <-.
    rewrite (fix_array_items_returns _ _ Fx).
    now apply serialisable_with_default_items.
Qed.

Lemma serialisable_inline_ref (fullSchema source : value) :
  inline_ref fullSchema = Returns source ->
  serialisable fullSchema = true -> serialisable source = true.
Proof.
  unfold inline_ref. intros I S.
  destruct (get fullSchema "$ref") as [ref|]; [|discriminate]. cbn [bind] in I.
  destruct (_ && _); [|now injection I as <-].
  destruct (ref_split ref) as [parts|]; [|discriminate]. cbn [bind] in I.
  destruct (truthy (VStr _)); [|now injection I as <-].
  unfold lookup in I.
  destruct (has_own _ _).
  - destruct (truthy _); injection I as <-; [|exact S].
    now apply serialisable_enumerable, serialisable_own, serialisable_own.
  - destruct (inherited _ _); [now injection I as <-|].
    assert (D : forall d,
               (if truthy d then ret (VObj (enumerable d)) else ret fullSchema)
               = Returns source ->
               serialisable d = true -> serialisable source = true).
    { intros d H Sd. destruct (truthy d); injection H as <-; [|exact S].
      now apply serialisable_enumerable. }
    destruct (own fullSchema "definitions") as [| | | | | | | |m st];
      try (now apply (D VUndefined I)).
    destruct (String.eqb _ "name"); [now apply (D (VStr "Error") I)|].
    now apply (D VUndefined I).
Qed.

(** The translation of a serialisable schema is serialisable. *)
Lemma serialisable_translate_schema (fullSchema out : value) :
  translate_schema fullSchema = Returns out ->
  serialisable fullSchema = true -> serialisable out = true.
Proof.
  unfold translate_schema. intros T S.
  destruct (inline_ref fullSchema) as [source|] eqn:I; [|discriminate].
  cbn [bind] in T. apply (serialisable_inline_ref _ _ I) in S.
  assert (S' : serialisable (strip_ref source) = true).
  { unfold strip_ref.
    repeat (destruct (truthy _); try apply serialisable_remove); exact S. }
  unfold default_items in T. destruct (truthy _); [|now injection T as <-].
  destruct (fix_properties _) as [props|] eqn:F; [|discriminate].
  cbn [bind ret] in T. injection T as <-.
  apply serialisable_assign; [exact S'|].
  apply (serialisable_fix_properties _ _ F). now apply serialisable_own.
Qed.

Lemma serialisable_listing
    (zodToJsonSchema : Schema -> string -> value) (p : Process) (tools : list value) :
  (forall tool, In tool (Map_values (toolRegistry p)) ->
     serialisable (zodToJsonSchema (inputSchema tool) (name tool)) = true) ->
  fst (getToolsList zodToJsonSchema p) = Returns tools ->
  forallb serialisable tools = true.
Proof.
  unfold getToolsList. cbn [fst]. intros W H. apply for_each_Forall2 in H.
  induction H as [|tool d r r' Hd _ IH]; [reflexivity|].
  cbn [forallb]. rewrite IH by (intros t Ht; apply W; now right).
  rewrite andb_true_r.
  destruct (describe_tool_inverts _ _ _ Hd) as (out & T & ->).
  rewrite serialisable_object. cbn [forallb snd serialisable andb].
  rewrite (serialisable_translate_schema _ _ T) by (apply W; now left).
  now destruct (description tool) as [[|c s0]|].
Qed.

Lemma filter_all {A : Type} (f : A -> bool) (l : list A) :
  Forall (fun x => f x = true) l -> filter f l = l.
Proof.
  induction 1 as [|x r Hx _ IH]; [reflexivity|]. cbn. now rewrite Hx, IH.
Qed.

(** C9.  Whatever the state of the process and its registry, the JSON-RPC
    method [tools/list] and the endpoint [GET /tools] list the same tool
    names with non-null input schemas; when a listing is returned, it names
    exactly the tools of the registry, each with an input schema that is
    not null; and a listing is returned: whenever [getMcpServer()] returns
    and the converter yields, for the tools of the registry, schema
    documents that can be serialised, both endpoints answer with the very
    list [getToolsList] returns, which names every tool of the registry, in
    order. *)
Theorem listings_agree :
  forall (zodToJsonSchema : Schema -> string -> value) (registerAllTools : M unit)
         (req_body : Body) (p : Process),
    own (body_value req_body) "jsonrpc" = VStr "2.0" ->
    own (body_value req_body) "method" = VStr "tools/list" ->
    listed_names (fst (post_mcp zodToJsonSchema registerAllTools req_body p))
    = listed_names (fst (get_tools zodToJsonSchema registerAllTools p))
    /\ (forall tools,
          listed_tools (fst (get_tools zodToJsonSchema registerAllTools p)) = Some tools ->
          Forall (fun t => non_null (own t "inputSchema") = true) tools
          /\ map (fun t => own t "name") tools
             = map (fun t => VStr (name t))
                   (Map_values (toolRegistry (snd (getMcpServer registerAllTools p)))))
    /\ (forall p1,
          getMcpServer registerAllTools p = (Returns tt, p1) ->
          (forall tool, In tool (Map_values (toolRegistry p1)) ->
             schema_document (zodToJsonSchema (inputSchema tool) (name tool)) = true
             /\ serialisable (zodToJsonSchema (inputSchema tool) (name tool)) = true) ->
          exists tools,
            fst (getToolsList zodToJsonSchema p1) = Returns tools
            /\ listed_tools (fst (post_mcp zodToJsonSchema registerAllTools req_body p))
               = Some tools
            /\ listed_tools (fst (get_tools zodToJsonSchema registerAllTools p))
               = Some tools
            /\ listed_names (fst (post_mcp zodToJsonSchema registerAllTools req_body p))
               = map (fun t => VStr (name t)) (Map_values (toolRegistry p1))
            /\ listed_names (fst (get_tools zodToJsonSchema registerAllTools p))
               = map (fun t => VStr (name t)) (Map_values (toolRegistry p1))).
Proof.
  intros conv reg req p Hj Hm.
  assert (Agree :
    listed_names (fst (post_mcp conv reg req p))
    = listed_names (fst (get_tools conv reg p))
    /\ (forall tools,
          listed_tools (fst (get_tools conv reg p)) = Some tools ->
          Forall (fun t => non_null (own t "inputSchema") = true) tools
          /\ map (fun t => own t "name") tools
             = map (fun t => VStr (name t))
                   (Map_values (toolRegistry (snd (getMcpServer reg p)))))).
  { unfold listed_names, post_mcp, get_tools, try_catchM, handle_request, bindM.
    destruct (getMcpServer reg p) as [[[] | e] p1]; cbn [snd].
    2:{ rewrite request_failed_lists_nothing, listing_failed_lists_nothing.
        split; [reflexivity | discriminate]. }
    rewrite Hj, Hm. decide_method.
    pose proof (getToolsList_returns conv p1) as R.
    unfold getToolsList in *. cbn [fst] in R.
    destruct (for_each _ _) as [tools | e].
    2:{ rewrite request_failed_lists_nothing, listing_failed_lists_nothing.
        split; [reflexivity | discriminate]. }
    specialize (R tools eq_refl).
    unfold res_json, bindM, lift, retM, JSON_stringify.
    rewrite serialisable_jsonrpc_result by apply serialisable_member.
    rewrite !serialisable_object. cbn [forallb snd serialisable andb].
    rewrite !andb_true_r.
    destruct (forallb serialisable tools).
    - cbn. split; [reflexivity|]. now intros tools' [= <-].
    - rewrite request_failed_lists_nothing, listing_failed_lists_nothing.
      split; [reflexivity | discriminate]. }
  destruct Agree as [A1 A2]. split; [exact A1|]. split; [exact A2|].
  intros p1 G W.
  destruct (getToolsList_total conv p1 (fun tool H => proj1 (W tool H)))
    as (tools & L).
  pose proof (serialisable_listing conv p1 tools (fun tool H => proj2 (W tool H)) L)
    as S.
  destruct (getToolsList_returns conv p1 tools L) as [NN Names].
  assert (Post : fst (post_mcp conv reg req p)
                 = Returns {| status := 200;
                              body := jsonrpc_result (VObj [("tools", VArr tools)])
                                        (own (body_value req) "id") |}).
  { unfold post_mcp, try_catchM, handle_request, bindM.
    rewrite G, Hj, Hm. decide_method.
    unfold getToolsList in L |- *. cbn [fst] in L. rewrite L.
    rewrite res_json_ok; [reflexivity|].
    rewrite serialisable_jsonrpc_result by apply serialisable_member.
    rewrite serialisable_object. cbn [forallb snd serialisable andb].
    now rewrite S. }
  assert (Get : fst (get_tools conv reg p)
                = Returns {| status := 200;
                             body := VObj [("jsonrpc", VStr "2.0");
                                           ("result", VObj [("tools", VArr tools)])] |}).
  { unfold get_tools, try_catchM, bindM.
    rewrite G. unfold getToolsList in L |- *. cbn [fst] in L. rewrite L.
    rewrite res_json_ok; [reflexivity|].
    rewrite !serialisable_object. cbn [forallb snd serialisable andb].
    now rewrite S. }
  exists tools. split; [exact L|].
  unfold listed_names. rewrite Post, Get. cbn [listed_tools body own jsonrpc_result
    assoc String.eqb Ascii.eqb Bool.eqb from_option].
  rewrite (filter_all _ _ NN), Names. now repeat split.
Qed.

Lemma listings_agree_witness :
  listed_names (fst (post_mcp sample_converter no_registrations
                       (list_tools (JNum 2)) x_process))
  = [VStr "x_post"; VStr "x_ready"; VStr "x_get"]
  /\ listed_names (fst (get_tools sample_converter no_registrations x_process))
     = [VStr "x_post"; VStr "x_ready"; VStr "x_get"].
Proof.
  destruct (proj2 (proj2 (listings_agree sample_converter no_registrations
                            (list_tools (JNum 2)) x_process eq_refl eq_refl))
              x_process eq_refl)
    as (tools & _ & _ & _ & P & G).
  - intros tool H. cbn in H.
    destruct H as [<- | [<- | [<- | []]]]; split; reflexivity.
  - split; [exact P | exact G].
Defined.

End BridgeSpec.

(* ===================================================================== *)
(** ** The allow-list helpers                                             *)
(* ===================================================================== *)

Module FilteringSpec.
Import JS Filtering.

Lemma Set_has_add (set : StringSet) (a x : string) :
  Set_has (Set_add set a) x = Set_has set x || String.eqb x a.
Proof.
  unfold Set_add. destruct (Set_has set a) eqn:H.
  - destruct (String.eqb_spec x a) as [->|_]; [now rewrite H | now rewrite orb_false_r].
  - unfold Set_has. rewrite existsb_app. cbn. now rewrite orb_false_r.
Qed.

(** Membership in [new Set(l)] is membership in [l]. *)
Lemma Set_has_from (l : list string) (x : string) :
  Set_has (Set_from l) x = existsb (String.eqb x) l.
Proof.
  unfold Set_from.
  assert (G : forall acc, Set_has (fold_left Set_add l acc) x
                          = Set_has acc x || existsb (String.eqb x) l).
  { induction l as [|a r IH]; intros acc; cbn [fold_left existsb].
    - now rewrite orb_false_r.
    - rewrite IH, Set_has_add. now rewrite orb_assoc. }
  now rewrite G.
Qed.

Lemma Set_has_from_In (l : list string) (x : string) :
  Set_has (Set_from l) x = true <-> In x l.
Proof.
  rewrite Set_has_from, existsb_exists. split.
  - intros (y & Hy & E). apply String.eqb_eq in E. now subst.
  - intros H. exists x. split; [exact H | apply String.eqb_refl].
Qed.

Lemma lower_upper_char (c : ascii) : lower_char (upper_char c) = lower_char c.
Proof. destruct c as [[] [] [] [] [] [] [] []]; reflexivity. Qed.

Lemma lower_lower_char (c : ascii) : lower_char (lower_char c) = lower_char c.
Proof. destruct c as [[] [] [] [] [] [] [] []]; reflexivity. Qed.

Lemma upper_upper_char (c : ascii) : upper_char (upper_char c) = upper_char c.
Proof. destruct c as [[] [] [] [] [] [] [] []]; reflexivity. Qed.

Lemma is_space_upper_char (c : ascii) : is_space (upper_char c) = is_space c.
Proof. destruct c as [[] [] [] [] [] [] [] []]; reflexivity. Qed.

Lemma toLowerCase_toUpperCase (s : string) :
  toLowerCase (toUpperCase s) = toLowerCase s.
Proof. induction s as [|c r IH]; cbn; [reflexivity|]. now rewrite lower_upper_char, IH. Qed.

Lemma toLowerCase_idempotent (s : string) :
  toLowerCase (toLowerCase s) = toLowerCase s.
Proof. induction s as [|c r IH]; cbn; [reflexivity|]. now rewrite lower_lower_char, IH. Qed.

Lemma toUpperCase_idempotent (s : string) :
  toUpperCase (toUpperCase s) = toUpperCase s.
Proof. induction s as [|c r IH]; cbn; [reflexivity|]. now rewrite upper_upper_char, IH. Qed.

(** *** Trimming *)

Lemma trimStart_clean (s : string) : starts_clean (trimStart s).
Proof.
  induction s as [|c r IH]; cbn; [exact I|].
  destruct (is_space c) eqn:E; [exact IH | exact E].
Qed.

Lemma trimStart_of_clean (s : string) : starts_clean s -> trimStart s = s.
Proof. destruct s as [|c r]; cbn; [reflexivity|]. now intros ->. Qed.

Lemma trimEnd_clean (s : string) : starts_clean s -> starts_clean (trimEnd s).
Proof.
  destruct s as [|c r]; cbn; [trivial|]. intros H.
  destruct (trimEnd r); cbn; [now rewrite H | exact H].
Qed.

Lemma trimEnd_idempotent (s : string) : trimEnd (trimEnd s) = trimEnd s.
Proof.
  induction s as [|c r IH]; cbn; [reflexivity|].
  destruct (trimEnd r) as [|d r'] eqn:E.
  - destruct (is_space c) eqn:Sp; cbn; [reflexivity | now rewrite Sp].
  - cbn [trimEnd] in IH |- *. cbn [trimEnd]. 
    change (trimEnd (String c (String d r')))
      with (match trimEnd (String d r') with
            | EmptyString => if is_space c then EmptyString else String c EmptyString
            | String d' r'' => String c (String d' r'')
            end).
    now rewrite IH.
Qed.

Lemma trim_idempotent (s : string) : trim (trim s) = trim s.
Proof.
  unfold trim.
  rewrite (trimStart_of_clean (trimEnd (trimStart s)))
    by apply trimEnd_clean, trimStart_clean.
  apply trimEnd_idempotent.
Qed.

Lemma trimStart_toUpperCase (s : string) :
  trimStart (toUpperCase s) = toUpperCase (trimStart s).
Proof.
  induction s as [|c r IH]; cbn; [reflexivity|].
  rewrite is_space_upper_char. now destruct (is_space c).
Qed.

Lemma trimEnd_toUpperCase (s : string) :
  trimEnd (toUpperCase s) = toUpperCase (trimEnd s).
Proof.
  induction s as [|c r IH]; cbn; [reflexivity|].
  rewrite IH, is_space_upper_char.
  destruct (trimEnd r); cbn; [now destruct (is_space c) | reflexivity].
Qed.

Lemma trim_toUpperCase (s : string) : trim (toUpperCase s) = toUpperCase (trim s).
Proof. unfold trim. now rewrite trimStart_toUpperCase, trimEnd_toUpperCase. Qed.

(** *** What the filters let through *)

(** The expectations of the test file, on the model. *)
Lemma filtering_tests :
  parseEnabledModules None = None
  /\ parseEnabledModules (Some EmptyString) = None
  /\ parseEnabledModules (Some "SERP,BUSINESS_DATA,LABS")
     = Some ["SERP"; "BUSINESS_DATA"; "LABS"]
  /\ parseEnabledModules (Some "serp,business_data") = Some ["SERP"; "BUSINESS_DATA"]
  /\ parseEnabledModules (Some "  SERP  ,  BUSINESS_DATA  ")
     = Some ["SERP"; "BUSINESS_DATA"]
  /\ isModuleEnabled "ANYTHING" None = true
  /\ isModuleEnabled "LABS" (Some ["SERP"; "BUSINESS_DATA"]) = false
  /\ parseEnabledTools (Some "SERP_Google_Maps_Live") = Some ["serp_google_maps_live"]
  /\ isToolEnabled "Serp_Google_Maps_Live" (Some ["serp_google_maps_live"]) = true
  /\ isToolEnabled "backlinks_summary" (Some ["serp_google_maps_live"]) = false.
Proof. repeat split. Qed.

(** X1.  Whether a tool is enabled does not depend on the case its name is
    written in, whatever the filter. *)
Theorem tool_filter_ignores_case :
  forall (name : string) (enabledTools : option StringSet),
    isToolEnabled (toUpperCase name) enabledTools = isToolEnabled name enabledTools
    /\ isToolEnabled (toLowerCase name) enabledTools = isToolEnabled name enabledTools.
Proof.
  intros name [set|]; cbn [isToolEnabled]; [|now split].
  now rewrite toLowerCase_toUpperCase, toLowerCase_idempotent.
Qed.

(** X2.  Without the variable, or with the empty string, every tool is
    enabled.  With any other value a tool is enabled exactly when one of
    the comma-separated entries, trimmed, equals its name up to case. *)
Theorem tool_filter_characterised :
  (forall name,
      isToolEnabled name (parseEnabledTools None) = true
      /\ isToolEnabled name (parseEnabledTools (Some EmptyString)) = true)
  /\ forall (v name : string),
       v <> EmptyString ->
       (isToolEnabled name (parseEnabledTools (Some v)) = true
        <-> exists entry, In entry (split "," v)
                          /\ toLowerCase (trim entry) = toLowerCase name).
Proof.
  split; [now split|].
  intros v name Hv. unfold parseEnabledTools.
  destruct v as [|c r]; [now contradiction Hv|]. cbn [is_empty isToolEnabled].
  rewrite Set_has_from_In, in_map_iff. split.
  - intros (entry & E & H). now exists entry.
  - intros (entry & H & E). now exists entry.
Qed.

Lemma tool_filter_characterised_witness :
  isToolEnabled "SERP_Google_Maps_Live"
    (parseEnabledTools (Some "  serp_google_maps_live  ,  backlinks_summary  ")) = true.
Proof.
  apply (proj2 tool_filter_characterised
           "  serp_google_maps_live  ,  backlinks_summary  " "SERP_Google_Maps_Live").
  - discriminate.
  - exists "  serp_google_maps_live  ". split; [now left | reflexivity].
Defined.

(** X3.  The module filter upper-cases and trims the entries of the
    variable, not the module asked about: with a filter in force, a module
    is enabled exactly when some entry, trimmed and upper-cased, is that
    very string, so only names in upper case and without surrounding white
    space can be enabled. *)
Theorem module_filter_is_case_sensitive :
  forall (v module : string),
    v <> EmptyString ->
    (isModuleEnabled module (parseEnabledModules (Some v)) = true
     <-> exists entry, In entry (split "," v) /\ toUpperCase (trim entry) = module)
    /\ (isModuleEnabled module (parseEnabledModules (Some v)) = true ->
        toUpperCase module = module /\ trim module = module).
Proof.
  intros v module Hv. unfold parseEnabledModules.
  destruct v as [|c r]; [now contradiction Hv|]. cbn [is_empty isModuleEnabled].
  rewrite Set_has_from_In, in_map_iff. split.
  { split; intros (entry & A & B); now exists entry. }
  intros (entry & <- & _). split.
  - apply toUpperCase_idempotent.
  - now rewrite trim_toUpperCase, trim_idempotent.
Qed.

Lemma module_filter_is_case_sensitive_witness :
  isModuleEnabled "SERP" (parseEnabledModules (Some "serp, labs")) = true
  /\ isModuleEnabled "serp" (parseEnabledModules (Some "serp, labs")) = false.
Proof.
  split.
  - apply (proj1 (module_filter_is_case_sensitive "serp, labs" "SERP" ltac:(discriminate))).
    exists "serp". split; [now left | reflexivity].
  - reflexivity.
Defined.

Lemma split_blank (v : string) :
  blank v = true ->
  Forall (fun entry => forallb is_space (list_ascii_of_string entry) = true)
         (split "," v).
Proof.
  unfold blank. induction v as [|c r IH]; cbn [split list_ascii_of_string forallb].
  - intros _. now repeat constructor.
  - intros H. apply andb_prop in H as [Hc Hr]. specialize (IH Hr).
    destruct (Ascii.eqb c ",") eqn:E.
    + constructor; [reflexivity | exact IH].
    + rewrite orb_false_r in Hc.
      destruct (split "," r) as [|h t].
      * constructor; [cbn; now rewrite Hc | constructor].
      * inversion IH as [|? ? Hh Ht]; subst.
        constructor; [cbn; now rewrite Hc, Hh | exact Ht].
Qed.

Lemma trim_spaces (s : string) :
  forallb is_space (list_ascii_of_string s) = true -> trim s = EmptyString.
Proof.
  unfold trim. induction s as [|c r IH]; cbn; [reflexivity|].
  intros H. apply andb_prop in H as [-> Hr]. now apply IH.
Qed.

Lemma Set_from_blanks (l : list string) :
  l <> [] -> Forall (fun entry => entry = EmptyString) l -> Set_from l = [EmptyString].
Proof.
  assert (Again : forall l,
             Forall (fun entry => entry = EmptyString) l ->
             fold_left Set_add l [EmptyString] = [EmptyString]).
  { induction 1 as [|x r -> _ IH]; [reflexivity | exact IH]. }
  destruct l as [|x r]; [intros N; now contradiction N|].
  intros _ F. inversion F as [|? ? -> Fr]; subst.
  unfold Set_from. cbn [fold_left]. now apply Again.
Qed.

Lemma split_not_nil (sep : ascii) (s : string) : split sep s <> [].
Proof.
  destruct s as [|c r]; cbn [split]; [discriminate|].
  destruct (Ascii.eqb c sep); [discriminate|]. now destruct (split sep r).
Qed.

(** X4.  A variable that is set but holds only white space and commas does
    not switch the filter off: both parsers return the set whose only
    member is the empty string, a filter that enables no tool and no
    module, whatever its (non-empty) name. *)
Theorem blank_filter_disables_everything :
  forall (v name : string),
    v <> EmptyString ->
    blank v = true ->
    name <> EmptyString ->
    parseEnabledTools (Some v) = Some [EmptyString]
    /\ parseEnabledModules (Some v) = Some [EmptyString]
    /\ isToolEnabled name (parseEnabledTools (Some v)) = false
    /\ isModuleEnabled name (parseEnabledModules (Some v)) = false.
Proof.
  intros v name Hv Hb Hn.
  assert (L : toLowerCase name <> EmptyString) by (now destruct name).
  pose proof (split_blank _ Hb) as F.
  assert (T : parseEnabledTools (Some v) = Some [EmptyString]).
  { unfold parseEnabledTools. destruct v as [|c r]; [now contradiction Hv|].
    cbn [is_empty]. f_equal. apply Set_from_blanks.
    - intros E. apply map_eq_nil in E. now apply split_not_nil in E.
    - apply Forall_map. eapply Forall_impl; [|exact F].
      intros entry H. cbn beta. now rewrite (trim_spaces entry H). }
  assert (M : parseEnabledModules (Some v) = Some [EmptyString]).
  { unfold parseEnabledModules. destruct v as [|c r]; [now contradiction Hv|].
    cbn [is_empty]. f_equal. apply Set_from_blanks.
    - intros E. apply map_eq_nil in E. now apply split_not_nil in E.
    - apply Forall_map. eapply Forall_impl; [|exact F].
      intros entry H. cbn beta. now rewrite (trim_spaces entry H). }
  rewrite T, M. split; [reflexivity|]. split; [reflexivity|].
  cbn [isToolEnabled isModuleEnabled Set_has existsb orb].
  split; apply not_true_is_false; rewrite orb_false_r; intros E;
    apply String.eqb_eq in E; congruence.
Qed.

Lemma blank_filter_disables_everything_witness :
  parseEnabledTools (Some " , ") = Some [EmptyString]
  /\ parseEnabledModules (Some " , ") = Some [EmptyString]
  /\ isToolEnabled "SERP" (parseEnabledTools (Some " , ")) = false
  /\ isModuleEnabled "SERP" (parseEnabledModules (Some " , ")) = false.
Proof.
  apply (blank_filter_disables_everything " , " "SERP");
    [discriminate | reflexivity | discriminate].
Defined.

End FilteringSpec.

(* ===================================================================== *)
(** ** More on the registration helpers                                   *)
(* ===================================================================== *)

Module ToolsMore.
Import JS Tools Bridge JSFacts Sample ToolsSpec.

(** X5.  The client a handler receives: the context's [client] when the
    context has a truthy one, whatever is stored on [globalThis]; and
    otherwise the value stored on [globalThis], whatever it is. *)
Theorem client_resolution :
  forall (name : string) (handler : Handler) (g : GlobalThis) (params ctx : value),
    (truthy ctx = true -> truthy (own ctx "client") = true ->
     registerTool_callback name handler g params ctx
     = envelope (handler params (own ctx "client")))
    /\ (truthy ctx = false \/ truthy (own ctx "client") = false ->
        registerTool_callback name handler g params ctx
        = envelope (handler params (__dataForSeoClient g))).
Proof.
  intros name handler g params ctx. rewrite callback_envelope.
  unfold clientInstance, or_else. split.
  - intros C1 C2. now rewrite C1, C2.
  - intros [C | C].
    + rewrite C. cbv iota. now rewrite C.
    + destruct (truthy ctx) eqn:T; cbv iota.
      * now rewrite C.
      * now rewrite T.
Qed.

Lemma client_resolution_witness :
  registerTool_callback "whoami" (fun _ client => Returns client)
    {| __dataForSeoClient := VStr "global client" |}
    (VObj []) (VObj [("client", VStr "context client")])
  = envelope (Returns (VStr "context client"))
  /\ registerTool_callback "whoami" (fun _ client => Returns client)
       {| __dataForSeoClient := VStr "global client" |} (VObj []) (VObj [])
     = envelope (Returns (VStr "global client")).
Proof.
  split.
  - apply (proj1 (client_resolution "whoami" (fun _ client => Returns client)
                    {| __dataForSeoClient := VStr "global client" |}
                    (VObj []) (VObj [("client", VStr "context client")])));
      reflexivity.
  - apply (proj2 (client_resolution "whoami" (fun _ client => Returns client)
                    {| __dataForSeoClient := VStr "global client" |}
                    (VObj []) (VObj []))).
    now right.
Defined.

(** X6.  A handler that resolves to a value [JSON.stringify] refuses does
    not make the callback throw: the refusal happens inside the [try], and
    the callback answers as for a handler that threw that [TypeError]. *)
Theorem unserialisable_result_reported :
  forall (name : string) (handler : Handler) (g : GlobalThis)
         (params ctx v : value),
    handler params (clientInstance g ctx) = Returns v ->
    serialisable v = false ->
    registerTool_callback name handler g params ctx
    = envelope (Throws (TypeError "Do not know how to serialize a BigInt"))
    /\ exists text,
         registerTool_callback name handler g params ctx
         = Returns (text_content (VStr text)).
Proof.
  intros name handler g params ctx v Hv Hs.
  rewrite callback_envelope, Hv.
  assert (E : envelope (Returns v)
              = envelope (Throws (TypeError "Do not know how to serialize a BigInt"))).
  { unfold envelope at 1. unfold JSON_stringify at 1. now rewrite Hs. }
  rewrite E. split; [reflexivity|].
  unfold TypeError. rewrite envelope_reports_Error. cbn. eauto.
Qed.

Lemma unserialisable_result_reported_witness :
  exists text,
    registerTool_callback "count" (fun _ _ => Returns (VArr [VNum 1; VBigInt 2]))
      no_globals (VObj []) (VObj [])
    = Returns (text_content (VStr text)).
Proof.
  apply (unserialisable_result_reported "count"
           (fun _ _ => Returns (VArr [VNum 1; VBigInt 2]))
           no_globals (VObj []) (VObj []) (VArr [VNum 1; VBigInt 2]));
    reflexivity.
Defined.

Lemma render_none (gap indent : string) (v : value) :
  render gap indent v = None -> v = VUndefined \/ exists n, v = VBigInt n.
Proof.
  destruct v as [| | [|] | | n | | | |]; cbn; try discriminate; eauto.
Qed.

Lemma JSON_stringify_returns (v text : value) (space : nat) :
  JSON_stringify v space = Returns text ->
  (text = VUndefined /\ v = VUndefined) \/ exists s, text = VStr s.
Proof.
  unfold JSON_stringify. destruct (serialisable v) eqn:S; [|discriminate].
  intros [= <-]. destruct (render _ _ v) as [s|] eqn:R; cbn; [eauto|].
  left. split; [reflexivity|].
  destruct (render_none _ _ _ R) as [-> | [n ->]]; [reflexivity | discriminate].
Qed.

(** X7.  Whatever the handler does, a callback that returns returns exactly
    one block of type "text", for success and failure alike.  The text is a
    string, unless the handler resolved to a value for which
    [JSON.stringify] returns [undefined] ([undefined] itself), in which
    case the text is [undefined]; every report of an error has a string
    for its text. *)
Theorem callback_result_shape :
  forall (name : string) (handler : Handler) (g : GlobalThis)
         (params ctx r : value),
    registerTool_callback name handler g params ctx = Returns r ->
    exists text,
      r = text_content text
      /\ ((exists s, text = VStr s)
          \/ (text = VUndefined
              /\ exists v,
                   handler params (clientInstance g ctx) = Returns v
                   /\ JSON_stringify v 2 = Returns VUndefined)).
Proof.
  intros name handler g params ctx r. rewrite callback_envelope.
  assert (Report : forall e,
            bind (JSON_stringify (error_report e) 2) (fun text => ret (text_content text))
            = Returns r -> exists s, r = text_content (VStr s)).
  { intros e H. destruct (JSON_stringify _ 2) as [text|] eqn:J; [|discriminate].
    cbn in H. injection H as <-.
    destruct (JSON_stringify_returns _ _ _ J) as [[_ U] | [s ->]]; [|eauto].
    unfold error_report in U. destruct (is_Error e); discriminate. }
  unfold envelope. destruct (handler params _) as [v | e].
  2:{ intros H. destruct (Report e H) as [s ->]. eauto. }
  destruct (JSON_stringify v 2) as [text | e] eqn:J.
  2:{ intros H. destruct (Report e H) as [s ->]. eauto. }
  intros [= <-]. exists text. split; [reflexivity|].
  destruct (JSON_stringify_returns _ _ _ J) as [[-> ->] | [s ->]]; [|eauto].
  right. split; [reflexivity|]. now exists VUndefined.
Qed.

Lemma callback_result_shape_witness :
  exists text,
    text_content VUndefined = text_content text
    /\ ((exists s, text = VStr s)
        \/ (text = VUndefined
            /\ exists v,
                 @Returns value VUndefined = Returns v
                 /\ JSON_stringify v 2 = Returns VUndefined)).
Proof.
  apply (callback_result_shape "nothing" (fun _ _ => Returns VUndefined)
           no_globals (VObj []) (VObj []) (text_content VUndefined)).
  reflexivity.
Defined.

Lemma last_three {A : Type} (l : list A) (a b c d : A) :
  last (l ++ [a; b; c]) d = c.
Proof.
  induction l as [|x r IH]; [reflexivity|].
  cbn [app]. destruct (r ++ [a; b; c])%list eqn:E; [now destruct r | exact IH].
Qed.

(** X8.  The [_get] tool of a task triple does no checking of its own: with
    parameters that are [null] or [undefined] the read of [params.id]
    throws and the tool answers with that error, [getHandler] not being
    called; with any other parameters [getHandler] is called on [params.id]
    as it is, [undefined] when there is none. *)
Theorem task_get_without_id :
  forall (server : McpServer) (baseName : string) (postSchema : Schema)
         (postHandler : Handler) (readyHandler : value -> outcome value)
         (getHandler : value -> value -> outcome value)
         (d : RegisteredTool) (g : GlobalThis) (ctx : value),
    let fetch :=
      last (registerTaskTool server baseName postSchema postHandler
              readyHandler getHandler) d in
    tool_name fetch = baseName ++ "_get"
    /\ tool_callback fetch g VUndefined ctx
       = envelope (Throws (TypeError "Cannot read properties of undefined (reading 'id')"))
    /\ tool_callback fetch g VNull ctx
       = envelope (Throws (TypeError "Cannot read properties of null (reading 'id')"))
    /\ forall params,
         non_null params = true ->
         tool_callback fetch g params ctx
         = envelope (getHandler (own params "id") (clientInstance g ctx)).
Proof.
  intros server baseName postSchema postHandler readyHandler getHandler d g ctx.
  unfold registerTaskTool, registerTool, server_tool.
  rewrite <- !app_assoc. cbn [app]. rewrite last_three. cbn zeta.
  cbn [tool_name tool_callback].
  split; [reflexivity|]. rewrite !callback_envelope.
  split; [reflexivity|]. split; [reflexivity|].
  intros params N. rewrite callback_envelope.
  now destruct params.
Qed.

Lemma task_get_without_id_witness :
  callback_of x_server "x_get" no_globals (VObj [("task", VStr "123")]) (VObj [])
  = envelope (stub_get VUndefined (clientInstance no_globals (VObj []))).
Proof.
  exact (proj2 (proj2 (proj2
           (task_get_without_id [] "x" keyword_schema stub_post stub_ready stub_get
              {| tool_name := EmptyString; tool_schema := [];
                 tool_callback := fun _ _ _ => Throws VUndefined |}
              no_globals (VObj []))))
           (VObj [("task", VStr "123")]) eq_refl).
Defined.

End ToolsMore.

(* ===================================================================== *)
(** ** More on the bridge                                                 *)
(* ===================================================================== *)

Module BridgeMore.
Import JS Tools Bridge Notions JSFacts Sample BridgeSpec.

(** *** The remaining branches of the dispatch *)

(** X9.  In an initialised server, a JSON-RPC 2.0 [tools/call] request
    whose [params.name] is missing or falsy, or that has no [params] at
    all, is answered with HTTP 400 and error -32602 "Missing tool name";
    the registry is not consulted. *)
Theorem missing_tool_name :
  forall (zodToJsonSchema : Schema -> string -> value) (registerAllTools : M unit)
         (req_body : Body) (p : Process),
    initialised p = true ->
    own (body_value req_body) "jsonrpc" = VStr "2.0" ->
    own (body_value req_body) "method" = VStr "tools/call" ->
    truthy (get_opt (own (body_value req_body) "params") "name") = false ->
    post_mcp zodToJsonSchema registerAllTools req_body p
    = (Returns
         {| status := 400;
            body := jsonrpc_error (-32602) (VStr "Missing tool name")
                      (own (body_value req_body) "id") |},
       p).
Proof.
  intros conv reg req p Hp Hj Hm Hn.
  unfold post_mcp, try_catchM, handle_request, bindM.
  rewrite (getMcpServer_initialised reg p Hp), Hj, Hm. decide_method.
  unfold tools_call. rewrite Hn. cbn [negb].
  rewrite res_json_ok; [reflexivity|].
  apply serialisable_jsonrpc_error; [reflexivity | apply serialisable_member].
Qed.

Lemma missing_tool_name_witness :
  post_mcp sample_converter no_registrations (call_without_name (JNum 5)) x_process
  = (Returns
       {| status := 400;
          body := jsonrpc_error (-32602) (VStr "Missing tool name") (VNum 5) |},
     x_process).
Proof.
  apply (missing_tool_name sample_converter no_registrations
           (call_without_name (JNum 5)) x_process); reflexivity.
Defined.

(** X10.  In an initialised server, a JSON-RPC 2.0 request whose method is
    none of [initialize], [tools/list], [tools/call] (or is missing, or is
    not a string) is answered with HTTP 404 and error -32601, the message
    naming the method as a template literal prints it.  When the method
    cannot be printed (an object with a [toString] member of its own, or an
    array holding one), the [TypeError] reaches the outer catch, and the
    answer is HTTP 500 with error -32603 and the [TypeError]'s message as
    data.  The registry is not consulted. *)
Theorem method_not_found :
  forall (zodToJsonSchema : Schema -> string -> value) (registerAllTools : M unit)
         (req_body : Body) (p : Process),
    initialised p = true ->
    own (body_value req_body) "jsonrpc" = VStr "2.0" ->
    is_string (own (body_value req_body) "method") "initialize" = false ->
    is_string (own (body_value req_body) "method") "tools/list" = false ->
    is_string (own (body_value req_body) "method") "tools/call" = false ->
    (forall printed,
        to_string (own (body_value req_body) "method") = Returns printed ->
        post_mcp zodToJsonSchema registerAllTools req_body p
        = (Returns
             {| status := 404;
                body := jsonrpc_error (-32601)
                          (VStr ("Method not found: " ++ printed))
                          (own (body_value req_body) "id") |},
           p))
    /\ (forall e,
          to_string (own (body_value req_body) "method") = Throws e ->
          post_mcp zodToJsonSchema registerAllTools req_body p
          = (Returns
               {| status := 500;
                  body :=
                    VObj [("jsonrpc", VStr "2.0");
                          ("error",
                           VObj [("code", VNum (-32603));
                                 ("message", VStr "Internal error");
                                 ("data",
                                  VStr "Cannot convert object to primitive value")]);
                          ("id", or_else (own (body_value req_body) "id") VNull)] |},
             p)).
Proof.
  intros conv reg req p Hp Hj H1 H2 H3.
  assert (E : post_mcp conv reg req p
              = try_catchM
                  (bindM (lift (to_string (own (body_value req) "method")))
                     (fun printed =>
                        res_json 404
                          (jsonrpc_error (-32601)
                             (VStr ("Method not found: " ++ printed))
                             (own (body_value req) "id"))))
                  (request_failed req) p).
  { unfold post_mcp, try_catchM, handle_request, bindM at 1.
    now rewrite (getMcpServer_initialised reg p Hp), Hj, H1, H2, H3. }
  rewrite E. unfold try_catchM.
  destruct (method_not_found_cases (own (body_value req) "method")
              (own (body_value req) "id") p (serialisable_member req "id"))
    as [(s & S & ->) | (S & ->)]; split.
  - intros printed P. rewrite P in S. now injection S as <-.
  - intros e P. rewrite P in S. discriminate.
  - intros printed P. rewrite P in S. discriminate.
  - intros e _. unfold request_failed, bindM, lift.
    cbn [get TypeError own String.eqb Ascii.eqb Bool.eqb]. rewrite get_opt_body.
    rewrite res_json_ok; [reflexivity|].
    rewrite !serialisable_object. cbn.
    rewrite serialisable_or_else; [reflexivity | apply serialisable_member | reflexivity].
Qed.

Lemma method_not_found_witness :
  post_mcp sample_converter no_registrations (unknown_method (JStr "a")) x_process
  = (Returns
       {| status := 404;
          body := jsonrpc_error (-32601) (VStr "Method not found: resources/list")
                    (VStr "a") |},
     x_process)
  /\ exists resp,
       post_mcp sample_converter no_registrations
         (BodyObject [("jsonrpc", JStr "2.0");
                      ("method", JObj [("toString", JNum 1)]);
                      ("id", JStr "a")])
         x_process
       = (Returns resp, x_process)
       /\ status resp = 500%Z.
Proof.
  split.
  - apply (proj1 (method_not_found sample_converter no_registrations
                    (unknown_method (JStr "a")) x_process
                    eq_refl eq_refl eq_refl eq_refl eq_refl)).
    reflexivity.
  - eexists. split.
    + apply (proj2 (method_not_found sample_converter no_registrations
                      (BodyObject [("jsonrpc", JStr "2.0");
                                   ("method", JObj [("toString", JNum 1)]);
                                   ("id", JStr "a")])
                      x_process eq_refl eq_refl eq_refl eq_refl eq_refl)
               (TypeError "Cannot convert object to primitive value")).
      reflexivity.
    + reflexivity.
Defined.

(** X11.  In an initialised server, a [tools/call] naming a registered tool
    whose stored handler returns a serialisable value is answered with HTTP
    200 and that value as the JSON-RPC result, under the request's id.  The
    handler is called once, on [params.arguments], or on [{}] when the
    request carries none (or a falsy one), with the empty context; the
    registry is read once. *)
Theorem successful_call :
  forall (zodToJsonSchema : Schema -> string -> value) (registerAllTools : M unit)
         (req_body : Body) (p : Process) (entry : ToolEntry)
         (call : value -> value -> outcome value) (result : value),
    initialised p = true ->
    own (body_value req_body) "jsonrpc" = VStr "2.0" ->
    own (body_value req_body) "method" = VStr "tools/call" ->
    truthy (get_opt (own (body_value req_body) "params") "name") = true ->
    Map_get (toolRegistry p) (own (own (body_value req_body) "params") "name")
    = Some entry ->
    handler entry = Some call ->
    call (or_else (own (own (body_value req_body) "params") "arguments") (VObj []))
         (VObj []) = Returns result ->
    serialisable result = true ->
    post_mcp zodToJsonSchema registerAllTools req_body p
    = (Returns {| status := 200;
                  body := jsonrpc_result result (own (body_value req_body) "id") |},
       record (RegistryGet (own (own (body_value req_body) "params") "name")) p).
Proof.
  intros conv reg req p entry call result Hp Hj Hm Hn Hg Hh Hc Hs.
  unfold post_mcp, try_catchM, handle_request, bindM.
  rewrite (getMcpServer_initialised reg p Hp), Hj, Hm. decide_method.
  unfold tools_call. rewrite Hn. cbn [negb].
  unfold try_catchM, bindM, registry_get. rewrite Hg, Hh. unfold lift. rewrite Hc.
  rewrite res_json_ok; [reflexivity|].
  rewrite serialisable_jsonrpc_result; [exact Hs | apply serialisable_member].
Qed.

Lemma successful_call_witness :
  post_mcp sample_converter no_registrations
    (call_tool "echo" (JStr "q")) echo_process
  = (Returns {| status := 200; body := jsonrpc_result (VObj []) (VStr "q") |},
     record (RegistryGet (VStr "echo")) echo_process).
Proof.
  apply (successful_call sample_converter no_registrations
           (call_tool "echo" (JStr "q")) echo_process echo_entry
           (fun args _ => Returns args) (VObj [])); reflexivity.
Defined.

(** X12.  When the stored handler returns a value [JSON.stringify] refuses,
    the refusal of [res.json] is caught by the inner catch: the answer is
    HTTP 500 with error -32603 and the [TypeError]'s message. *)
Theorem unserialisable_answer :
  forall (zodToJsonSchema : Schema -> string -> value) (registerAllTools : M unit)
         (req_body : Body) (p : Process) (entry : ToolEntry)
         (call : value -> value -> outcome value) (result : value),
    initialised p = true ->
    own (body_value req_body) "jsonrpc" = VStr "2.0" ->
    own (body_value req_body) "method" = VStr "tools/call" ->
    truthy (get_opt (own (body_value req_body) "params") "name") = true ->
    Map_get (toolRegistry p) (own (own (body_value req_body) "params") "name")
    = Some entry ->
    handler entry = Some call ->
    call (or_else (own (own (body_value req_body) "params") "arguments") (VObj []))
         (VObj []) = Returns result ->
    serialisable result = false ->
    post_mcp zodToJsonSchema registerAllTools req_body p
    = (Returns {| status := 500;
                  body := jsonrpc_error (-32603)
                            (VStr "Do not know how to serialize a BigInt")
                            (own (body_value req_body) "id") |},
       record (RegistryGet (own (own (body_value req_body) "params") "name")) p).
Proof.
  intros conv reg req p entry call result Hp Hj Hm Hn Hg Hh Hc Hs.
  unfold post_mcp, try_catchM, handle_request, bindM.
  rewrite (getMcpServer_initialised reg p Hp), Hj, Hm. decide_method.
  unfold tools_call. rewrite Hn. cbn [negb].
  unfold try_catchM, bindM, registry_get. rewrite Hg, Hh. unfold lift. rewrite Hc.
  unfold res_json at 1. unfold bindM, lift, JSON_stringify.
  rewrite serialisable_jsonrpc_result by apply serialisable_member. rewrite Hs.
  unfold call_failed, bindM, lift. cbn [get TypeError own String.eqb Ascii.eqb Bool.eqb].
  rewrite res_json_ok; [reflexivity|].
  apply serialisable_jsonrpc_error; [reflexivity | apply serialisable_member].
Qed.

Lemma unserialisable_answer_witness :
  post_mcp sample_converter no_registrations
    (call_tool "count" (JNum 3)) echo_process
  = (Returns {| status := 500;
                body := jsonrpc_error (-32603)
                          (VStr "Do not know how to serialize a BigInt") (VNum 3) |},
     record (RegistryGet (VStr "count")) echo_process).
Proof.
  apply (unserialisable_answer sample_converter no_registrations
           (call_tool "count" (JNum 3)) echo_process bigint_entry
           (fun _ _ => Returns (VBigInt 7)) (VBigInt 7)); reflexivity.
Defined.

(** *** Every answer, and every registry read *)

Lemma coherent_error (code status_ : Z) (message id : value) :
  (status_ = 400%Z /\ (code = -32600 \/ code = -32602)%Z)
  \/ (status_ = 404%Z /\ code = (-32601)%Z)
  \/ (status_ = 500%Z /\ code = (-32603)%Z) ->
  coherent {| status := status_; body := jsonrpc_error code message id |}.
Proof.
  intros H. split; [reflexivity|]. right. unfold error_code. cbn.
  destruct H as [[-> [-> | ->]] | [[-> ->] | [-> ->]]]; auto.
Qed.

Lemma coherent_result (result id : value) :
  coherent {| status := 200; body := jsonrpc_result result id |}.
Proof. split; [reflexivity|]. left. now split. Qed.

Lemma call_failed_profile (id e : value) (p : Process) :
  exists r,
    call_failed id e p = (r, p)
    /\ match r with
       | Returns resp => coherent resp
       | Throws x => is_Error x = true
       end.
Proof.
  destruct (call_failed_cases id e p) as [(resp & -> & St & B) | (x & -> & X)].
  - exists (Returns resp). split; [reflexivity|].
    destruct resp as [st b]. cbn in St, B. subst. apply coherent_error. auto.
  - exists (Throws x). now split.
Qed.

Lemma tools_call_profile (params id : value) (p : Process) :
  serialisable id = true ->
  exists r,
    tools_call params id p
    = (r, extend (if truthy (get_opt params "name")
                  then [RegistryGet (own params "name")] else []) p)
    /\ match r with
       | Returns resp => coherent resp
       | Throws x => is_Error x = true
       end.
Proof.
  intros Hid. unfold tools_call.
  destruct (truthy (get_opt params "name")); cbn [negb].
  2:{ rewrite res_json_ok by (now apply serialisable_jsonrpc_error).
      rewrite extend_nil. eexists. split; [reflexivity|]. apply coherent_error. auto. }
  rewrite try_registry_get.
  change (extend [RegistryGet (own params "name")] p)
    with (record (RegistryGet (own params "name")) p).
  set (p1 := record (RegistryGet (own params "name")) p).
  assert (NotFound :
    exists r,
      try_catchM
        (bindM (lift (to_string (own params "name")))
           (fun name =>
              res_json 404
                (jsonrpc_error (-32601) (VStr ("Tool not found: " ++ name)) id)))
        (call_failed id) p1 = (r, p1)
      /\ match r with
         | Returns resp => coherent resp
         | Throws x => is_Error x = true
         end).
  { destruct (tool_not_found_cases (own params "name") id p1 Hid)
      as [(s & _ & ->) | (_ & ->)];
      (eexists; split; [reflexivity|]; apply coherent_error; auto). }
  destruct (Map_get (toolRegistry p) (own params "name")) as [entry|];
    [|exact NotFound].
  destruct (handler entry) as [call|]; [|exact NotFound].
  clear NotFound. unfold try_catchM, bindM, lift.
  destruct (call _ _) as [result | e]; [|apply call_failed_profile].
  destruct (res_json_cases 200 (jsonrpc_result result id) p1) as [-> | ->];
    [|apply call_failed_profile].
  eexists. split; [reflexivity|]. apply coherent_result.
Qed.

Lemma handle_request_profile
    (zodToJsonSchema : Schema -> string -> value) (registerAllTools : M unit)
    (req_body : Body) (p : Process) :
  initialised p = true ->
  exists r,
    handle_request zodToJsonSchema registerAllTools req_body p
    = (r, extend (reads req_body) p)
    /\ match r with
       | Returns resp => coherent resp
       | Throws x => is_Error x = true
       end.
Proof.
  intros Hp. unfold handle_request, bindM, reads.
  rewrite (getMcpServer_initialised registerAllTools p Hp).
  pose proof (serialisable_member req_body "id") as Hid.
  set (id := own (body_value req_body) "id") in *.
  destruct (is_string (own (body_value req_body) "jsonrpc") "2.0"); cbn [negb].
  2:{ rewrite res_json_ok.
      - rewrite extend_nil. eexists. split; [reflexivity|]. apply coherent_error. auto.
      - apply serialisable_jsonrpc_error; [reflexivity|].
        now apply serialisable_or_else. }
  destruct (is_string (own (body_value req_body) "method") "initialize").
  { rewrite res_json_ok by (now rewrite serialisable_jsonrpc_result).
    rewrite extend_nil. eexists. split; [reflexivity|]. apply coherent_result. }
  destruct (is_string (own (body_value req_body) "method") "tools/list").
  { unfold getToolsList.
    change (extend [RegistryValues] p) with (record RegistryValues p).
    pose proof (for_each_throws_only_Errors (describe_tool zodToJsonSchema)
                  (Map_values (toolRegistry p))
                  (describe_tool_throws_only_Errors zodToJsonSchema)) as T.
    destruct (for_each _ _) as [tools | e].
    - destruct (res_json_cases 200 (jsonrpc_result (VObj [("tools", VArr tools)]) id)
                  (record RegistryValues p)) as [-> | ->].
      + eexists. split; [reflexivity|]. apply coherent_result.
      + eexists. split; [reflexivity|]. reflexivity.
    - eexists. split; [reflexivity|]. exact T. }
  destruct (is_string (own (body_value req_body) "method") "tools/call").
  { apply tools_call_profile. exact Hid. }
  unfold lift.
  pose proof (to_string_throws_Error (own (body_value req_body) "method")) as T.
  destruct (to_string _) as [s | e].
  - rewrite res_json_ok by (now apply serialisable_jsonrpc_error).
    rewrite extend_nil. eexists. split; [reflexivity|]. apply coherent_error. auto.
  - rewrite extend_nil. eexists. split; [reflexivity|]. exact T.
Qed.

Lemma post_mcp_profile
    (zodToJsonSchema : Schema -> string -> value) (registerAllTools : M unit)
    (req_body : Body) (p : Process) :
  initialised p = true ->
  exists resp,
    post_mcp zodToJsonSchema registerAllTools req_body p
    = (Returns resp, extend (reads req_body) p)
    /\ coherent resp.
Proof.
  intros Hp. unfold post_mcp, try_catchM.
  destruct (handle_request_profile zodToJsonSchema registerAllTools req_body p Hp)
    as (r & -> & H).
  destruct r as [resp | e]; [now exists resp|].
  destruct (request_failed_returns req_body e (extend (reads req_body) p) H)
    as (resp & -> & St & J & C & _).
  exists resp. split; [reflexivity|]. split; [exact J|]. right. right. right.
  now split.
Qed.



(** X14.  In an initialised server a request changes nothing in the process
    but the trace, and what it reads from the registry is fixed by the
    request alone: one listing for [tools/list], one lookup for a
    [tools/call] with a truthy name, nothing otherwise; never more than one
    read, and never a write. *)
Theorem registry_reads_follow_the_request :
  forall (zodToJsonSchema : Schema -> string -> value) (registerAllTools : M unit)
         (req_body : Body) (p : Process),
    initialised p = true ->
    snd (post_mcp zodToJsonSchema registerAllTools req_body p)
    = extend (reads req_body) p
    /\ toolRegistry (snd (post_mcp zodToJsonSchema registerAllTools req_body p))
       = toolRegistry p
    /\ mcpServer (snd (post_mcp zodToJsonSchema registerAllTools req_body p))
       = mcpServer p
    /\ length (reads req_body) <= 1.
Proof.
  intros conv reg req p Hp.
  destruct (post_mcp_profile conv reg req p Hp) as (resp & -> & _). cbn [snd].
  split; [reflexivity|]. split; [reflexivity|]. split; [reflexivity|].
  unfold reads. repeat (destruct (is_string _ _); cbn [negb length]); auto.
  destruct (truthy _); cbn; auto.
Qed.

Lemma registry_reads_follow_the_request_witness :
  snd (post_mcp sample_converter no_registrations (list_tools (JNum 1)) x_process)
  = extend [RegistryValues] x_process.
Proof.
  apply (registry_reads_follow_the_request sample_converter no_registrations
           (list_tools (JNum 1)) x_process).
  reflexivity.
Defined.

(** *** Initialisation *)

Lemma getMcpServer_unconfigured (registerAllTools : M unit) (p : Process) :
  initialised p = false -> configured p = false ->
  getMcpServer registerAllTools p
  = (Throws (Error "DataForSEO credentials not provided"), p).
Proof.
  unfold initialised, configured, getMcpServer.
  destruct (mcpServer p); [discriminate|]. intros _ C.
  rewrite <- negb_andb, C. reflexivity.
Qed.

(** X15.  As long as the login or the password is missing from the
    environment, or empty, a server that is not initialised answers every
    [POST /mcp], well-formed or not, with HTTP 500 and error -32603
    "Internal error", the data naming the missing credentials, and every
    [GET /tools] with HTTP 500 and a body that is no JSON-RPC envelope; the
    process is left uninitialised, so that the next request tries again. *)
Theorem credentials_gate :
  forall (zodToJsonSchema : Schema -> string -> value) (registerAllTools : M unit)
         (req_body : Body) (p : Process),
    initialised p = false ->
    configured p = false ->
    post_mcp zodToJsonSchema registerAllTools req_body p
    = (Returns
         {| status := 500;
            body :=
              VObj [("jsonrpc", VStr "2.0");
                    ("error",
                     VObj [("code", VNum (-32603));
                           ("message", VStr "Internal error");
                           ("data", VStr "DataForSEO credentials not provided")]);
                    ("id", or_else (own (body_value req_body) "id") VNull)] |},
       p)
    /\ get_tools zodToJsonSchema registerAllTools p
       = (Returns
            {| status := 500;
               body := listing_failure (VStr "DataForSEO credentials not provided") |},
          p).
Proof.
  intros conv reg req p Hp Hc. split.
  - unfold post_mcp, try_catchM, handle_request, bindM.
    rewrite (getMcpServer_unconfigured reg p Hp Hc).
    unfold request_failed, bindM, lift.
    cbn [get Error own String.eqb Ascii.eqb Bool.eqb]. rewrite get_opt_body.
    rewrite res_json_ok; [reflexivity|].
    rewrite !serialisable_object. cbn.
    rewrite serialisable_or_else; [reflexivity | apply serialisable_member | reflexivity].
  - unfold get_tools, try_catchM, bindM.
    rewrite (getMcpServer_unconfigured reg p Hp Hc).
    unfold listing_failed, bindM, lift.
    cbn [get Error own String.eqb Ascii.eqb Bool.eqb].
    now rewrite res_json_ok.
Qed.

Lemma credentials_gate_witness :
  get_tools sample_converter no_registrations unconfigured_process
  = (Returns
       {| status := 500;
          body := listing_failure (VStr "DataForSEO credentials not provided") |},
     unconfigured_process).
Proof.
  apply (credentials_gate sample_converter no_registrations
           (list_tools (JNum 1)) unconfigured_process); reflexivity.
Defined.

(** X16.  The registrations run at most once.  The first [getMcpServer] of
    a configured process creates the server object before it registers
    anything, and its outcome is that of the registrations; so even when a
    registration throws, the process is initialised afterwards, and every
    later [getMcpServer] returns at once without registering again. *)
Theorem registrations_run_once :
  forall (registerAllTools : M unit) (p : Process),
    keeps_server registerAllTools ->
    initialised p = false ->
    configured p = true ->
    getMcpServer registerAllTools p = registerAllTools (set_mcpServer (Some []) p)
    /\ initialised (snd (getMcpServer registerAllTools p)) = true
    /\ getMcpServer registerAllTools (snd (getMcpServer registerAllTools p))
       = (Returns tt, snd (getMcpServer registerAllTools p)).
Proof.
  intros reg p K Hp Hc.
  assert (E : getMcpServer reg p = reg (set_mcpServer (Some []) p)).
  { unfold initialised, configured, getMcpServer in *.
    destruct (mcpServer p); [discriminate|].
    rewrite <- negb_andb, Hc. reflexivity. }
  assert (I : initialised (snd (getMcpServer reg p)) = true)
    by (rewrite E; now apply K).
  split; [exact E|]. split; [exact I|].
  now apply getMcpServer_initialised.
Qed.

Lemma failing_registrations_keep_server : keeps_server failing_registrations.
Proof. intros p H. exact H. Qed.

Lemma registrations_run_once_witness :
  fst (getMcpServer failing_registrations fresh_process)
  = Throws (Error "Tool echo is already registered")
  /\ getMcpServer failing_registrations
       (snd (getMcpServer failing_registrations fresh_process))
     = (Returns tt, snd (getMcpServer failing_registrations fresh_process)).
Proof.
  destruct (registrations_run_once failing_registrations fresh_process
              failing_registrations_keep_server eq_refl eq_refl) as (E & _ & R).
  split; [now rewrite E | exact R].
Defined.

(** The server whose registrations failed half-way serves what was
    registered before the failure. *)
Lemma partial_registry_is_served :
  exists resp p',
    post_mcp sample_converter failing_registrations (call_tool "echo" (JNum 1))
      (snd (getMcpServer failing_registrations fresh_process))
    = (Returns resp, p')
    /\ status resp = 200%Z.
Proof. eexists _, _. split; reflexivity. Qed.

(** *** [GET /tools] *)

Lemma serialisable_listing_failure (m : string) :
  serialisable (listing_failure (VStr m)) = true.
Proof. reflexivity. Qed.

Lemma get_tools_profile :
  forall (zodToJsonSchema : Schema -> string -> value) (registerAllTools : M unit)
         (p : Process),
    initialised p = true ->
    exists resp,
      get_tools zodToJsonSchema registerAllTools p
      = (Returns resp, record RegistryValues p)
      /\ ((status resp = 200%Z
           /\ exists tools,
                fst (getToolsList zodToJsonSchema p) = Returns tools
                /\ body resp
                   = VObj [("jsonrpc", VStr "2.0");
                           ("result", VObj [("tools", VArr tools)])])
          \/ (status resp = 500%Z
              /\ own (body resp) "jsonrpc" = VUndefined
              /\ exists m, body resp = listing_failure (VStr m))).
Proof.
  intros conv reg p Hp. unfold get_tools, try_catchM, bindM.
  rewrite (getMcpServer_initialised reg p Hp). unfold getToolsList. cbn [fst].
  pose proof (for_each_throws_only_Errors (describe_tool conv)
                (Map_values (toolRegistry p))
                (describe_tool_throws_only_Errors conv)) as T.
  assert (Failed : forall e, is_Error e = true ->
            exists resp,
              listing_failed e (record RegistryValues p)
              = (Returns resp, record RegistryValues p)
              /\ status resp = 500%Z
              /\ own (body resp) "jsonrpc" = VUndefined
              /\ exists m, body resp = listing_failure (VStr m)).
  { intros e He. destruct (get_message_of_Error e He) as [m Hm].
    unfold listing_failed, bindM, lift. rewrite Hm.
    rewrite res_json_ok by apply serialisable_listing_failure.
    eexists. split; [reflexivity|]. split; [reflexivity|]. split; [reflexivity|].
    now exists m. }
  destruct (for_each _ _) as [tools | e].
  - match goal with
    | |- context [res_json 200 ?payload ?q] =>
        destruct (res_json_cases 200 payload q) as [-> | ->]
    end.
    + eexists. split; [reflexivity|]. left. split; [reflexivity|]. now exists tools.
    + destruct (Failed (TypeError "Do not know how to serialize a BigInt") eq_refl)
        as (resp & -> & H).
      exists resp. split; [reflexivity | now right].
  - destruct (Failed e T) as (resp & -> & H). exists resp.
    split; [reflexivity | now right].
Qed.

(** X17.  In an initialised server [GET /tools] always answers, after one
    reading of the registry: with HTTP 200 and the listing [getToolsList]
    returned, or, when the listing or its serialisation fails, with HTTP
    500 and the body [{ error: "Failed to list tools", message }], which
    has neither a jsonrpc member nor an error code. *)
Theorem get_tools_answers :
  forall (zodToJsonSchema : Schema -> string -> value) (registerAllTools : M unit)
         (p : Process),
    initialised p = true ->
    exists resp,
      get_tools zodToJsonSchema registerAllTools p
      = (Returns resp, record RegistryValues p)
      /\ ((status resp = 200%Z
           /\ exists tools,
                fst (getToolsList zodToJsonSchema p) = Returns tools
                /\ body resp
                   = VObj [("jsonrpc", VStr "2.0");
                           ("result", VObj [("tools", VArr tools)])])
          \/ (status resp = 500%Z
              /\ own (body resp) "jsonrpc" = VUndefined
              /\ exists m, body resp = listing_failure (VStr m))).
Proof. exact get_tools_profile. Qed.

Lemma get_tools_answers_witness :
  exists resp,
    get_tools partial_converter no_registrations echo_process
    = (Returns resp, record RegistryValues echo_process)
    /\ status resp = 500%Z.
Proof.
  destruct (get_tools_answers partial_converter no_registrations echo_process eq_refl)
    as (resp & E & [[St (tools & L & _)] | [St _]]).
  - discriminate L.
  - now exists resp.
Defined.

Lemma for_each_throws {A B : Type} (f : A -> outcome B) (l : list A) (x : A) (e : value) :
  In x l -> f x = Throws e -> exists e', for_each f l = Throws e'.
Proof.
  induction l as [|y r IH]; [contradiction|].
  intros [-> | H] Fx; cbn [for_each].
  - rewrite Fx. cbn. eauto.
  - destruct (f y) as [b | e0]; cbn [bind]; [|eauto].
    destruct (IH H Fx) as [e' ->]. cbn. eauto.
Qed.

(** X18.  The listing is all or nothing: when the translation throws for
    one tool of the registry, for instance because the converter gave
    [null] for its schema, [tools/list] answers with HTTP 500 and error
    -32603 and [GET /tools] with HTTP 500, and neither lists any tool. *)
Theorem one_bad_schema_breaks_the_listing :
  forall (zodToJsonSchema : Schema -> string -> value) (registerAllTools : M unit)
         (req_body : Body) (p : Process) (tool : ToolEntry) (e : value),
    initialised p = true ->
    own (body_value req_body) "jsonrpc" = VStr "2.0" ->
    own (body_value req_body) "method" = VStr "tools/list" ->
    In tool (Map_values (toolRegistry p)) ->
    describe_tool zodToJsonSchema tool = Throws e ->
    (exists resp p',
        post_mcp zodToJsonSchema registerAllTools req_body p = (Returns resp, p')
        /\ status resp = 500%Z
        /\ error_code resp = VNum (-32603)
        /\ listed_tools (Returns resp) = None)
    /\ (exists resp p',
          get_tools zodToJsonSchema registerAllTools p = (Returns resp, p')
          /\ status resp = 500%Z
          /\ listed_tools (Returns resp) = None).
Proof.
  intros conv reg req p tool e Hp Hj Hm Hin Hd.
  destruct (for_each_throws (describe_tool conv) _ tool e Hin Hd) as [e' F].
  pose proof (for_each_throws_only_Errors (describe_tool conv)
                (Map_values (toolRegistry p))
                (describe_tool_throws_only_Errors conv)) as T.
  rewrite F in T. cbn in T. split.
  - unfold post_mcp, try_catchM, handle_request, bindM.
    rewrite (getMcpServer_initialised reg p Hp), Hj, Hm. decide_method.
    unfold getToolsList. rewrite F.
    pose proof (request_failed_lists_nothing req e' (record RegistryValues p)) as L.
    destruct (request_failed_returns req e' (record RegistryValues p) T)
      as (resp & E & St & _ & C & _).
    rewrite E in L |- *. exists resp, (record RegistryValues p).
    split; [reflexivity|]. split; [exact St|]. split; [exact C | exact L].
  - destruct (get_tools_profile conv reg p Hp)
      as (resp & E & [[_ (tools & L & _)] | [St (_ & m & B)]]).
    + unfold getToolsList in L. cbn [fst] in L. rewrite F in L. discriminate.
    + exists resp, (record RegistryValues p). split; [exact E|].
      split; [exact St|]. unfold listed_tools. now rewrite B.
Qed.

Lemma partial_converter_throws :
  describe_tool partial_converter bigint_entry
  = Throws (TypeError "Cannot read properties of null (reading '$ref')").
Proof. reflexivity. Qed.

Lemma one_bad_schema_breaks_the_listing_witness :
  exists resp p',
    post_mcp partial_converter no_registrations (list_tools (JNum 1)) echo_process
    = (Returns resp, p')
    /\ status resp = 500%Z
    /\ error_code resp = VNum (-32603)
    /\ listed_tools (Returns resp) = None.
Proof.
  apply (one_bad_schema_breaks_the_listing partial_converter no_registrations
           (list_tools (JNum 1)) echo_process bigint_entry _
           eq_refl eq_refl eq_refl (or_intror (or_introl eq_refl))
           partial_converter_throws).
Defined.

End BridgeMore.

(* ===================================================================== *)
(** ** More on the schema translation                                     *)
(* ===================================================================== *)

Module SchemaMore.
Import JS Tools Bridge Notions JSFacts Sample BridgeSpec.

Lemma assoc_set_other (k k' : string) (v : value) (fs : list (string * value)) :
  k' <> k -> assoc k' (set k v fs) = assoc k' fs.
Proof.
  intros N. induction fs as [|[k0 v0] r IH]; cbn.
  - destruct (String.eqb_spec k' k); [contradiction | reflexivity].
  - destruct (String.eqb_spec k k0) as [->|D]; cbn.
    + destruct (String.eqb_spec k' k0); [contradiction | reflexivity].
    + destruct (String.eqb k' k0); [reflexivity | exact IH].
Qed.

Lemma assoc_delete_same (k : string) (fs : list (string * value)) :
  assoc k (delete k fs) = None.
Proof.
  induction fs as [|[k0 v0] r IH]; cbn; [reflexivity|].
  destruct (String.eqb_spec k0 k) as [->|D]; cbn; [exact IH|].
  destruct (String.eqb_spec k k0) as [->|_]; [now contradiction D | exact IH].
Qed.

Lemma set_set (k : string) (v : value) (fs : list (string * value)) :
  set k v (set k v fs) = set k v fs.
Proof.
  induction fs as [|[k0 v0] r IH]; cbn.
  - now rewrite String.eqb_refl.
  - destruct (String.eqb k k0) eqn:E; cbn.
    + now rewrite String.eqb_refl.
    + now rewrite E, IH.
Qed.

Lemma own_assign_other (o : value) (k k' : string) (v : value) :
  k' <> k -> own (assign o k v) k' = own o k'.
Proof.
  intros N. destruct o; try reflexivity. cbn [assign own].
  now rewrite assoc_set_other.
Qed.

Lemma truthy_ref_is_object (s : value) :
  truthy (own s "$ref") = true -> is_object s = true.
Proof. destruct s; cbn; try discriminate; reflexivity. Qed.

Lemma truthy_definitions_is_object (s : value) :
  truthy (own s "definitions") = true -> is_object s = true.
Proof. destruct s; cbn; try discriminate; reflexivity. Qed.

Lemma own_remove_same (s : value) (k : string) :
  is_object s = true -> own (remove s k) k = VUndefined.
Proof.
  destruct s; try discriminate. intros _. cbn [remove own].
  now rewrite assoc_delete_same.
Qed.

Lemma strip_ref_falsy (s : value) :
  truthy (own (strip_ref s) "$ref") = false
  /\ truthy (own (strip_ref s) "definitions") = false.
Proof.
  unfold strip_ref.
  set (s1 := if truthy (own s "$ref") then remove s "$ref" else s).
  assert (R : truthy (own s1 "$ref") = false).
  { subst s1. destruct (truthy (own s "$ref")) eqn:A; [|exact A].
    now rewrite own_remove_same by (now apply truthy_ref_is_object). }
  destruct (truthy (own s1 "definitions")) eqn:D.
  - rewrite own_remove_other by discriminate. split; [exact R|].
    now rewrite own_remove_same by (now apply truthy_definitions_is_object).
  - now split.
Qed.

Lemma default_items_frame (s out : value) (k : string) :
  default_items s = Returns out -> k <> "properties" -> own out k = own s k.
Proof.
  unfold default_items. destruct (truthy _).
  - destruct (fix_properties _) as [props|]; [|discriminate]. cbn.
    intros [= <-] N. now apply own_assign_other.
  - now intros [= <-].
Qed.

Lemma translate_schema_strips (fullSchema out : value) :
  translate_schema fullSchema = Returns out ->
  truthy (own out "$ref") = false /\ truthy (own out "definitions") = false.
Proof.
  unfold translate_schema.
  destruct (inline_ref fullSchema) as [s|]; [|discriminate]. cbn [bind]. intros D.
  rewrite (default_items_frame _ _ "$ref" D) by discriminate.
  rewrite (default_items_frame _ _ "definitions" D) by discriminate.
  apply strip_ref_falsy.
Qed.

(** X19.  A translated input schema never carries a truthy [$ref] or
    [definitions]: whatever the converter produced, the schema sent to the
    clients is free of references.  (For a schema document the translation
    does return.) *)
Theorem translated_schema_has_no_ref :
  forall fullSchema : value,
    (forall out,
        translate_schema fullSchema = Returns out ->
        truthy (own out "$ref") = false /\ truthy (own out "definitions") = false)
    /\ (schema_document fullSchema = true ->
        exists out, translate_schema fullSchema = Returns out).
Proof.
  intros full. split; [|apply translate_schema_document].
  intros out. apply translate_schema_strips.
Qed.

Lemma translated_schema_has_no_ref_witness :
  exists out, translate_schema keyword_document = Returns out.
Proof.
  apply (proj2 (translated_schema_has_no_ref keyword_document)). reflexivity.
Defined.

Lemma with_default_items_frame (prop : value) (m : string) :
  m <> "items" -> own (with_default_items prop) m = own prop m.
Proof.
  intros N. unfold with_default_items. destruct (_ && _); [|reflexivity].
  now apply own_assign_other.
Qed.

Lemma with_default_items_unchanged (prop : value) :
  own prop "type" <> VStr "array" \/ truthy (own prop "items") = true ->
  with_default_items prop = prop.
Proof.
  intros H. unfold with_default_items.
  destruct (is_string (own prop "type") "array") eqn:Ty; [|reflexivity].
  apply is_string_true in Ty. destruct H as [H | ->]; [contradiction | reflexivity].
Qed.

(** X20.  What the clean-up and the loop over the properties do to the
    schema they are handed (the copied definition, or the document), in
    full.  Next to [$ref], [definitions] and [properties], every member is
    in the result as it was.  In each property schema every member but
    [items] is as it was, nested [properties] included; a property of type
    "array" without items gets the items [{ type: "string" }]; and a
    property that is not of type "array", or has items, is not changed at
    all.  Schemas are trees, as the converter builds them. *)
Theorem translation_frame :
  forall inputSchema out : value,
    default_items (strip_ref inputSchema) = Returns out ->
    (forall k, k <> "$ref" -> k <> "definitions" -> k <> "properties" ->
               own out k = own inputSchema k)
    /\ (forall k m, m <> "items" ->
                    own (own (own out "properties") k) m
                    = own (own (own inputSchema "properties") k) m)
    /\ (forall k,
          own (own (own inputSchema "properties") k) "type" = VStr "array" ->
          truthy (own (own (own inputSchema "properties") k) "items") = false ->
          own (own (own out "properties") k) "items" = string_items)
    /\ (forall k,
          own (own (own inputSchema "properties") k) "type" <> VStr "array"
          \/ truthy (own (own (own inputSchema "properties") k) "items") = true ->
          own (own out "properties") k = own (own inputSchema "properties") k).
Proof.
  intros source out T.
  assert (K : forall k,
             own (own out "properties") k
             = with_default_items (own (own source "properties") k)).
  { intros k. rewrite (default_items_returns _ _ k T).
    now rewrite own_strip_ref_properties. }
  split; [|split; [|split]].
  - intros k N1 N2 N3. rewrite (default_items_frame _ _ k T N3).
    unfold strip_ref.
    repeat (destruct (truthy _); rewrite ?own_remove_other by assumption);
      reflexivity.
  - intros k m N. rewrite K. now apply with_default_items_frame.
  - intros k Ty It. rewrite K. now apply with_default_items_spec.
  - intros k H. rewrite K. now apply with_default_items_unchanged.
Qed.

Lemma translation_frame_witness :
  own (own (own (VObj [("type", VStr "object");
                       ("properties",
                        VObj [("keyword", VObj [("type", VStr "string")]);
                              ("tags", VObj [("type", VStr "array");
                                             ("items", string_items)])])])
                "properties") "tags") "items"
  = string_items.
Proof.
  apply (proj1 (proj2 (proj2 (translation_frame
                                (json_schema (z_object keyword_schema))
                                (VObj [("type", VStr "object");
                                       ("properties",
                                        VObj [("keyword", VObj [("type", VStr "string")]);
                                              ("tags", VObj [("type", VStr "array");
                                                             ("items", string_items)])])])
                                eq_refl))) "tags"); reflexivity.
Defined.

(** *** Translating twice *)

Lemma with_default_items_idempotent (prop : value) :
  with_default_items (with_default_items prop) = with_default_items prop.
Proof.
  destruct (is_string (own prop "type") "array" && negb (truthy (own prop "items")))
    eqn:C.
  - assert (W : with_default_items prop = assign prop "items" string_items)
      by (unfold with_default_items; now rewrite C).
    rewrite W. apply andb_prop in C as [Ty _].
    apply is_string_true, own_type_array_is_object in Ty.
    destruct prop as [| | | | | | | fs |]; try discriminate.
    apply with_default_items_unchanged. right.
    cbn [assign own]. now rewrite assoc_set_same.
  - assert (W : with_default_items prop = prop)
      by (unfold with_default_items; now rewrite C).
    now rewrite W, W.
Qed.

Lemma fix_array_items_non_null (prop : value) :
  non_null prop = true -> fix_array_items prop = Returns (with_default_items prop).
Proof.
  intros N. unfold fix_array_items, with_default_items.
  assert (get prop "type" = Returns (own prop "type")) as -> by (now destruct prop).
  cbn [bind]. now destruct (_ && _).
Qed.

Lemma fix_array_items_twice (prop prop' : value) :
  fix_array_items prop = Returns prop' -> fix_array_items prop' = Returns prop'.
Proof.
  intros H. pose proof (fix_array_items_returns _ _ H) as ->.
  assert (N : non_null prop = true).
  { unfold fix_array_items in H. destruct prop; try reflexivity; discriminate H. }
  rewrite fix_array_items_non_null.
  - now rewrite with_default_items_idempotent.
  - unfold with_default_items. destruct (_ && _); [|exact N].
    now rewrite non_null_assign.
Qed.

Lemma for_each_fixed {A : Type} (f : A -> outcome A) (l l' : list A) :
  (forall x x', f x = Returns x' -> f x' = Returns x') ->
  for_each f l = Returns l' -> for_each f l' = Returns l'.
Proof.
  intros Hf H. apply for_each_Forall2 in H.
  induction H as [|x x' r r' Hx _ IH]; [reflexivity|].
  cbn [for_each]. now rewrite (Hf _ _ Hx), IH.
Qed.

Lemma fix_properties_twice (properties properties' : value) :
  fix_properties properties = Returns properties' ->
  fix_properties properties' = Returns properties'
  /\ truthy properties' = truthy properties.
Proof.
  destruct properties as [| | | | | | l | ps |];
    try (intros [= <-]; split; reflexivity); cbn [fix_properties].
  - destruct (for_each fix_array_items l) as [l'|] eqn:F; [|discriminate].
    cbn [bind ret]. intros [= <-]. split; [|reflexivity]. cbn [fix_properties].
    now rewrite (for_each_fixed _ _ _ fix_array_items_twice F).
  - destruct (for_each _ ps) as [ps'|] eqn:F; [|discriminate].
    cbn [bind ret]. intros [= <-]. split; [|reflexivity]. cbn [fix_properties].
    rewrite (for_each_fixed _ ps ps'); [reflexivity | | exact F].
    intros [k x] [k' x'] H. cbn [fst snd] in *.
    destruct (fix_array_items x) as [y|] eqn:Fx; [|discriminate].
    cbn [bind ret] in H. injection H as <- <-.
    now rewrite (fix_array_items_twice _ _ Fx).
Qed.

Lemma default_items_twice (s out : value) :
  default_items s = Returns out -> default_items out = Returns out.
Proof.
  unfold default_items at 1. destruct (truthy (own s "properties")) eqn:T.
  - destruct (fix_properties _) as [props|] eqn:F; [|discriminate].
    cbn [bind ret]. intros [= <-].
    destruct (fix_properties_twice _ _ F) as [F2 Tp].
    apply truthy_properties_is_object in T as O.
    destruct s as [| | | | | | | fs |]; try discriminate.
    unfold default_items. cbn [assign own]. rewrite assoc_set_same. cbn [from_option].
    rewrite Tp, T, F2. cbn [bind ret]. now rewrite set_set.
  - intros [= <-]. unfold default_items. now rewrite T.
Qed.

(** X21.  Translating is idempotent: a schema that came out of the
    translation goes through it again unchanged, and without a throw. *)
Theorem translation_is_idempotent :
  forall fullSchema out : value,
    translate_schema fullSchema = Returns out ->
    translate_schema out = Returns out.
Proof.
  intros full out T.
  pose proof (translate_schema_non_null _ _ T) as N.
  destruct (translate_schema_strips full out T) as [R D].
  assert (E : default_items out = Returns out).
  { unfold translate_schema in T.
    destruct (inline_ref full) as [s|]; [|discriminate]. cbn [bind] in T.
    exact (default_items_twice _ _ T). }
  unfold translate_schema, inline_ref.
  assert (get out "$ref" = Returns (own out "$ref")) as -> by (now destruct out).
  cbn [bind]. rewrite R. cbn [andb ret bind].
  unfold strip_ref. now rewrite R, D.
Qed.

Lemma translation_is_idempotent_witness :
  translate_schema
    (VObj [("type", VStr "object");
           ("properties",
            VObj [("keyword", VObj [("type", VStr "string")]);
                  ("tags", VObj [("type", VStr "array"); ("items", string_items)])])])
  = Returns
      (VObj [("type", VStr "object");
             ("properties",
              VObj [("keyword", VObj [("type", VStr "string")]);
                    ("tags", VObj [("type", VStr "array"); ("items", string_items)])])]).
Proof.
  apply (translation_is_idempotent keyword_document). reflexivity.
Defined.

(** *** Resolving the reference *)

(** X22.  How the [$ref] of a document is resolved.  Only the last segment
    of the path counts, and it is read from the document's [definitions]
    with a computed key.  A truthy member of [definitions] under that name
    is copied, and the translation goes on with the copy alone, every other
    member of the document being dropped.  A name [definitions] does not
    hold but every object inherits ([constructor], [toString], [__proto__]
    and the like) finds a built-in, and the translation goes on with the
    empty object.  In every other case (the path is empty or ends in a
    slash, the member is falsy, or the name is unknown) the translation
    goes on with the document itself. *)
Theorem ref_resolution :
  forall (fullSchema : value) (r : string) (ds : list (string * value)),
    own fullSchema "$ref" = VStr r ->
    own fullSchema "definitions" = VObj ds ->
    (r <> EmptyString ->
     last (split "/" r) EmptyString <> EmptyString ->
     (forall d,
         assoc (last (split "/" r) EmptyString) ds = Some d ->
         truthy d = true ->
         inline_ref fullSchema = Returns (VObj (enumerable d)))
     /\ (assoc (last (split "/" r) EmptyString) ds = None ->
         In (last (split "/" r) EmptyString) Object_prototype ->
         inline_ref fullSchema = Returns (VObj []))
     /\ (assoc (last (split "/" r) EmptyString) ds = None ->
         ~ In (last (split "/" r) EmptyString) Object_prototype ->
         inline_ref fullSchema = Returns fullSchema)
     /\ (forall d,
           assoc (last (split "/" r) EmptyString) ds = Some d ->
           truthy d = false ->
           inline_ref fullSchema = Returns fullSchema))
    /\ (r = EmptyString \/ last (split "/" r) EmptyString = EmptyString ->
        inline_ref fullSchema = Returns fullSchema).
Proof.
  intros full r ds Hr Hd.
  pose proof (inline_ref_resolves full r ds Hr Hd) as I.
  split.
  - intros N1 N2.
    assert (I' : inline_ref full
                 = match assoc (last (split "/" r) EmptyString) ds with
                   | Some d =>
                       if truthy d then Returns (VObj (enumerable d))
                       else Returns full
                   | None =>
                       if existsb (String.eqb (last (split "/" r) EmptyString))
                            Object_prototype
                       then Returns (VObj [])
                       else Returns full
                   end).
    { rewrite I. destruct r; [now contradiction N1|].
      destruct (last _ _); [now contradiction N2 | reflexivity]. }
    rewrite I'. split; [|split; [|split]].
    + now intros d -> ->.
    + intros -> H.
      assert (existsb (String.eqb (last (split "/" r) EmptyString)) Object_prototype
              = true) as ->; [|reflexivity].
      apply existsb_exists. exists (last (split "/" r) EmptyString).
      split; [exact H | apply String.eqb_refl].
    + intros -> H.
      destruct (existsb _ _) eqn:E; [|reflexivity].
      apply existsb_exists in E as (x & X & Q). apply String.eqb_eq in Q. subst x.
      now contradiction H.
    + now intros d -> ->.
  - intros [-> | E]; rewrite I; [reflexivity|].
    rewrite E. now destruct (negb (is_empty r)).
Qed.

Lemma ref_resolution_witness :
  inline_ref keyword_document = Returns (json_schema (z_object keyword_schema))
  /\ inline_ref (VObj [("$ref", VStr "#/definitions/constructor");
                       ("definitions", VObj [("x_post", VObj [])]);
                       ("title", VStr "x_post")])
     = Returns (VObj []).
Proof.
  split.
  - apply (proj1 (proj1 (ref_resolution keyword_document "#/definitions/x_post"
                           [("x_post", json_schema (z_object keyword_schema))]
                           eq_refl eq_refl)
                    ltac:(discriminate) ltac:(discriminate))
             (json_schema (z_object keyword_schema)));
      reflexivity.
  - apply (proj1 (proj2 (proj1 (ref_resolution
                                  (VObj [("$ref", VStr "#/definitions/constructor");
                                         ("definitions", VObj [("x_post", VObj [])]);
                                         ("title", VStr "x_post")])
                                  "#/definitions/constructor" [("x_post", VObj [])]
                                  eq_refl eq_refl)
                           ltac:(discriminate) ltac:(discriminate)))).
    + reflexivity.
    + cbn. tauto.
Defined.

End SchemaMore.
